(** * Forward-curve lifecycle engine: accuracy store, curve providers, ledger

    A shallow embedding of
      - [server/accuracy_storage.py]   (class [AccuracyStorage]),
      - [server/v4_curve_provider.py]  (class [V4CurveProvider]),
      - [server/v5_curve_provider.py]  (class [V5CurveProvider]),
      - [server/ipc_ui_server.py]      (class [ForwardCurveServer], in part),
    and the properties of the design document that concern them.

    Conventions of the embedding.
      - Documents that come from outside (decoded JSON: the upstream bodies,
        the argument of [store_v4_data]) are values of [pyval]; their
        dictionaries have string keys and keep insertion order.  The dicts
        that the providers build themselves (the curve, its points, the
        snapshots) have fixed keys and are records.
      - A Python [int] is an integer ([Z]) and a Python [float] is a
        binary64 number ([float], the primitive type of the kernel, whose
        operations round as IEEE 754 says); [True] and [False] count as 1
        and 0 in arithmetic, as in Python.  What SQLite makes of a value
        bound to a statement and stored in a column is modelled too: see
        [to_sql] and [store_as].
      - An operation that raises an [Exception] in Python returns
        [Raise e].  Cancellation of a task and faults of the storage engine
        itself (a commit that fails) are not modelled.
      - [datetime.now(UTC).isoformat()] is a read of an explicit clock
        [now : nat -> string]: the k-th read of a call returns [now k].
      - An HTTP request is what it gives: see [response]. *)

From Stdlib Require Import String Ascii List Bool Arith ZArith Lia.
From Stdlib Require Import DecimalString Permutation Relations Floats.
Import ListNotations.

Local Open Scope string_scope.
Local Open Scope list_scope.
Local Open Scope nat_scope.
Local Set Warnings "-register-all".
Local Set Warnings "-inexact-float".

(** ** Python values *)

Inductive pyval : Type :=
| VNone
| VBool (b : bool)
| VInt (z : Z)
| VFloat (f : float)
| VStr (s : string)
| VList (l : list pyval)
| VDict (d : list (string * pyval)).

Inductive pyerr : Type :=
| TypeError
| AttributeError
| ZeroDivisionError
| KeyError
| IntegrityError
| InterfaceError
| OverflowError
| TimeoutError
| ClientError
| DecodeError.

Inductive result (A : Type) : Type :=
| Ok (a : A)
| Raise (e : pyerr).
Arguments Ok {A} a.
Arguments Raise {A} e.

Definition is_ok {A} (r : result A) : bool :=
  match r with Ok _ => true | Raise _ => false end.

(** Truth value of an object, as [if x:] and [not x] test it. *)
Definition truthy (v : pyval) : bool :=
  match v with
  | VNone => false
  | VBool b => b
  | VInt z => negb (z =? 0)%Z
  | VFloat f => negb (PrimFloat.eqb f 0)
  | VStr s => negb (String.eqb s "")
  | VList l => match l with [] => false | _ => true end
  | VDict d => match d with [] => false | _ => true end
  end.

(** Lookup in a dictionary that keeps insertion order. *)
Fixpoint assoc {A} (k : string) (d : list (string * A)) : option A :=
  match d with
  | [] => None
  | (k', v) :: d' => if String.eqb k k' then Some v else assoc k d'
  end.

(** [d.get(k, default)] for a literal key [k]: only a dict has [get]. *)
Definition py_get (d : pyval) (k : string) (default : pyval) : result pyval :=
  match d with
  | VDict kv => Ok (match assoc k kv with Some v => v | None => default end)
  | _ => Raise AttributeError
  end.

(** [d.get(key, default)] for a computed key: a list or a dict is not
    hashable; a key that is not a string never equals a key of a decoded
    document. *)
Definition py_get_key (d : pyval) (key : pyval) (default : pyval) : result pyval :=
  match d with
  | VDict kv =>
      match key with
      | VStr k => Ok (match assoc k kv with Some v => v | None => default end)
      | VList _ | VDict _ => Raise TypeError
      | _ => Ok default
      end
  | _ => Raise AttributeError
  end.

(** [d.items()]. *)
Definition py_items (d : pyval) : result (list (string * pyval)) :=
  match d with
  | VDict kv => Ok kv
  | _ => Raise AttributeError
  end.

Fixpoint chars (s : string) : list pyval :=
  match s with
  | EmptyString => []
  | String c s' => VStr (String c EmptyString) :: chars s'
  end.

(** [for x in v]: a list gives its elements, a dict its keys, a string its
    characters; nothing else is iterable. *)
Definition py_iter (v : pyval) : result (list pyval) :=
  match v with
  | VList l => Ok l
  | VDict kv => Ok (map (fun p => VStr (fst p)) kv)
  | VStr s => Ok (chars s)
  | _ => Raise TypeError
  end.

(** *** Numbers

    A number is an [int] or a [float]; [bool] is a subclass of [int]. *)
Inductive num : Type :=
| NInt (z : Z)
| NFloat (f : float).

Definition as_num (v : pyval) : result num :=
  match v with
  | VInt z => Ok (NInt z)
  | VFloat f => Ok (NFloat f)
  | VBool b => Ok (NInt (if b then 1 else 0))
  | _ => Raise TypeError
  end.

Definition num_val (n : num) : pyval :=
  match n with
  | NInt z => VInt z
  | NFloat f => VFloat f
  end.

(** The double nearest to an int, ties to even. *)
Definition nearest_float (z : Z) : float :=
  SF2Prim (binary_normalize prec emax z 0 false).

(** [float(z)], as arithmetic between an int and a float calls it: an int
    too large for a double is an OverflowError. *)
Definition float_of_int (z : Z) : result float :=
  let f := nearest_float z in
  if is_infinity f then Raise OverflowError else Ok f.

Definition to_float (n : num) : result float :=
  match n with
  | NInt z => float_of_int z
  | NFloat f => Ok f
  end.

Definition num_is_zero (n : num) : bool :=
  match n with
  | NInt z => (z =? 0)%Z
  | NFloat f => PrimFloat.eqb f 0
  end.

(** [a / b] on ints: the quotient, rounded once to the nearest double. *)
Definition int_true_div (a b : Z) : result float :=
  if (b =? 0)%Z then Raise ZeroDivisionError
  else
    let s := xorb (a <? 0)%Z (b <? 0)%Z in
    if (a =? 0)%Z then Ok (SF2Prim (S754_zero s))
    else
      let '(mz, ez, lz) :=
        SFdiv_core_binary prec emax (Z.abs a) 0 (Z.abs b) 0 in
      let f := SF2Prim (binary_round_aux prec emax s mz ez lz) in
      if is_infinity f then Raise OverflowError else Ok f.

(** [a - b], [abs(a)], [a / b] and [a * b]: on ints exact (the quotient
    apart); as soon as one operand is a float, on the doubles.  The double
    of a nonzero int is not zero, so the divisor is tested as it is given. *)
Definition num_sub (a b : num) : result num :=
  match a, b with
  | NInt x, NInt y => Ok (NInt (x - y))
  | _, _ =>
      match to_float a with
      | Raise e => Raise e
      | Ok x => match to_float b with
                | Raise e => Raise e
                | Ok y => Ok (NFloat (PrimFloat.sub x y))
                end
      end
  end.

Definition num_abs (a : num) : num :=
  match a with
  | NInt x => NInt (Z.abs x)
  | NFloat x => NFloat (PrimFloat.abs x)
  end.

Definition num_truediv (a b : num) : result num :=
  match a, b with
  | NInt x, NInt y =>
      match int_true_div x y with
      | Raise e => Raise e
      | Ok f => Ok (NFloat f)
      end
  | _, _ =>
      match to_float a with
      | Raise e => Raise e
      | Ok x => match to_float b with
                | Raise e => Raise e
                | Ok y => if num_is_zero b then Raise ZeroDivisionError
                          else Ok (NFloat (PrimFloat.div x y))
                end
      end
  end.

Definition num_mul (a b : num) : result num :=
  match a, b with
  | NInt x, NInt y => Ok (NInt (x * y))
  | _, _ =>
      match to_float a with
      | Raise e => Raise e
      | Ok x => match to_float b with
                | Raise e => Raise e
                | Ok y => Ok (NFloat (PrimFloat.mul x y))
                end
      end
  end.

(** [a < b]: exact, also between an int and a float; false when one of
    them is not a number (NaN). *)
Definition int_ltb_float (z : Z) (f : float) : bool :=
  match Prim2SF f with
  | S754_nan => false
  | S754_infinity s => negb s
  | S754_zero _ => (z <? 0)%Z
  | S754_finite s m e =>
      let v := if s then Zneg m else Zpos m in
      match e with
      | Zneg p => (z * 2 ^ Zpos p <? v)%Z
      | _ => (z <? v * 2 ^ e)%Z
      end
  end.

Definition float_ltb_int (f : float) (z : Z) : bool :=
  match Prim2SF f with
  | S754_nan => false
  | S754_infinity s => s
  | S754_zero _ => (0 <? z)%Z
  | S754_finite s m e =>
      let v := if s then Zneg m else Zpos m in
      match e with
      | Zneg p => (v <? z * 2 ^ Zpos p)%Z
      | _ => (v * 2 ^ e <? z)%Z
      end
  end.

Definition num_ltb (a b : num) : bool :=
  match a, b with
  | NInt x, NInt y => (x <? y)%Z
  | NFloat x, NFloat y => PrimFloat.ltb x y
  | NInt x, NFloat y => int_ltb_float x y
  | NFloat x, NInt y => float_ltb_int x y
  end.

(** [v > 0]. *)
Definition py_positive (v : pyval) : result bool :=
  match as_num v with
  | Raise e => Raise e
  | Ok n => Ok (num_ltb (NInt 0) n)
  end.

(** [s.split('T')[0]]: the part of [s] before its first ['T']. *)
Fixpoint split_T (s : string) : string :=
  match s with
  | EmptyString => EmptyString
  | String c s' => if Ascii.eqb c "T"%char then EmptyString else String c (split_T s')
  end.

(** A list comprehension whose element expression may raise. *)
Fixpoint map_result {A B} (f : A -> result B) (l : list A) : result (list B) :=
  match l with
  | [] => Ok []
  | x :: l' =>
      match f x with
      | Raise e => Raise e
      | Ok y => match map_result f l' with
                | Raise e => Raise e
                | Ok ys => Ok (y :: ys)
                end
      end
  end.

(** ** The durable store of [AccuracyStorage] *)

Module AccuracyStorage.

(** What a statement is given and what a column holds: NULL, an INTEGER, a
    REAL or a TEXT; and the two values that a column makes of a value of the
    other class, which are kept as they are named:
    [SNumericText s] is the text [s] in a REAL column (the number that [s]
    reads as when it looks like one, else [s] itself), and [STextOfReal f]
    is the double [f] in a TEXT column (the text that renders it). *)
Inductive sqlval : Type :=
| SNull
| SInt (z : Z)
| SReal (f : float)
| SText (s : string)
| SNumericText (s : string)
| STextOfReal (f : float).

Definition sql_is_null (v : sqlval) : bool :=
  match v with SNull => true | _ => false end.

Definition sqlval_eqb (a b : sqlval) : bool :=
  match a, b with
  | SNull, SNull => true
  | SInt x, SInt y => (x =? y)%Z
  | SReal x, SReal y => PrimFloat.Leibniz.eqb x y
  | SText x, SText y => String.eqb x y
  | SNumericText x, SNumericText y => String.eqb x y
  | STextOfReal x, STextOfReal y => PrimFloat.Leibniz.eqb x y
  | _, _ => false
  end.

(** Binding of a Python value to a statement parameter.  [None] is NULL; a
    [bool] or an [int] is an INTEGER, which has 64 bits; a [float] is a
    REAL, and NULL when it is not a number; a [str] is a TEXT; containers
    are not supported. *)
Definition to_sql (v : pyval) : result sqlval :=
  match v with
  | VNone => Ok SNull
  | VBool b => Ok (SInt (if b then 1 else 0))
  | VInt z =>
      if ((- 2 ^ 63 <=? z) && (z <? 2 ^ 63))%Z then Ok (SInt z)
      else Raise OverflowError
  | VFloat f => Ok (if is_nan f then SNull else SReal f)
  | VStr s => Ok (SText s)
  | VList _ | VDict _ => Raise InterfaceError
  end.

(** The affinity of a column, and what a column makes of a value it is
    given.  A REAL column turns an INTEGER into the nearest double, holds
    no negative zero, and reads a TEXT as a number when it looks like one;
    a TEXT column renders a number as text. *)
Inductive affinity : Type :=
| AText
| AReal.

Definition int_text (z : Z) : string :=
  NilZero.string_of_int (Z.to_int z).

Definition store_as (a : affinity) (v : sqlval) : sqlval :=
  match a, v with
  | AReal, SInt z => SReal (nearest_float z)
  | AReal, SReal f => SReal (if PrimFloat.eqb f 0 then 0%float else f)
  | AReal, SText s => SNumericText s
  | AText, SInt z => SText (int_text z)
  | AText, SReal f => STextOfReal f
  | _, _ => v
  end.

(** Table [daily_anchors]. *)
Record anchor_row : Type := {
  a_anchor_date : sqlval;
  anchor_timestamp : sqlval;
  anchor_price : sqlval;
  regime : sqlval;
  direction : sqlval;
  curve_quality : sqlval;
  created_at : sqlval
}.

(** Table [predictions]. *)
Record prediction_row : Type := {
  p_id : nat;
  p_anchor_date : sqlval;
  p_horizon : sqlval;
  original_price : sqlval;
  original_pct : sqlval;
  stabilized_price : sqlval;
  stabilized_pct : sqlval;
  actual_price : sqlval;
  actual_pct : sqlval;
  became_actual_at : sqlval
}.

(** Table [accuracy_metrics]. *)
Record metric_row : Type := {
  m_id : nat;
  m_anchor_date : sqlval;
  m_horizon : sqlval;
  original_error_pct : sqlval;
  stabilized_error_pct : sqlval;
  original_accuracy : sqlval;
  stabilized_accuracy : sqlval;
  calculated_at : sqlval
}.

(** A table with an AUTOINCREMENT key: its rows in rowid order and the
    largest id handed out so far. *)
Record table (row : Type) : Type := {
  rows : list row;
  seq : nat
}.
Arguments rows {row} t.
Arguments seq {row} t.

Record database : Type := {
  daily_anchors : list anchor_row;
  predictions : table prediction_row;
  accuracy_metrics : table metric_row
}.

(** [init_database] on a fresh file. *)
Definition init_database : database :=
  {| daily_anchors := [];
     predictions := {| rows := []; seq := 0 |};
     accuracy_metrics := {| rows := []; seq := 0 |} |}.

Definition p_key (d h : sqlval) (r : prediction_row) : bool :=
  sqlval_eqb (p_anchor_date r) d && sqlval_eqb (p_horizon r) h.

Definition m_key (d h : sqlval) (r : metric_row) : bool :=
  sqlval_eqb (m_anchor_date r) d && sqlval_eqb (m_horizon r) h.

Definition a_key (d : sqlval) (r : anchor_row) : bool :=
  sqlval_eqb (a_anchor_date r) d.

Definition any_null (vs : list sqlval) : bool := existsb sql_is_null vs.

(** [INSERT OR REPLACE INTO daily_anchors]: a NOT NULL column given NULL
    aborts the statement; a row with the same primary key is deleted before
    the new one is inserted. *)
Definition replace_anchor (r : anchor_row) (t : list anchor_row)
  : result (list anchor_row) :=
  if any_null [anchor_timestamp r; anchor_price r; created_at r]
  then Raise IntegrityError
  else Ok (filter (fun x => negb (a_key (a_anchor_date r) x)) t ++ [r]).

(** [INSERT OR REPLACE INTO predictions]: as above, on
    UNIQUE(anchor_date, horizon); the new row takes the next id. *)
Definition replace_prediction
  (d h op opct sp spct ap apct at_ : sqlval) (t : table prediction_row)
  : result (table prediction_row) :=
  if any_null [d; h; op; opct] then Raise IntegrityError
  else
    let r := {| p_id := S (seq t); p_anchor_date := d; p_horizon := h;
                original_price := op; original_pct := opct;
                stabilized_price := sp; stabilized_pct := spct;
                actual_price := ap; actual_pct := apct;
                became_actual_at := at_ |} in
    Ok {| rows := filter (fun x => negb (p_key d h x)) (rows t) ++ [r];
          seq := S (seq t) |}.

(** [INSERT OR REPLACE INTO accuracy_metrics]. *)
Definition replace_metric
  (d h oe se oa sa at_ : sqlval) (t : table metric_row)
  : result (table metric_row) :=
  if any_null [d; h; oe; oa; at_] then Raise IntegrityError
  else
    let r := {| m_id := S (seq t); m_anchor_date := d; m_horizon := h;
                original_error_pct := oe; stabilized_error_pct := se;
                original_accuracy := oa; stabilized_accuracy := sa;
                calculated_at := at_ |} in
    Ok {| rows := filter (fun x => negb (m_key d h x)) (rows t) ++ [r];
          seq := S (seq t) |}.

(** ** Connections and the statement monad

    A connection holds the durable content of the file and the content as
    the open transaction sees it.  Statements change the second only;
    [commit] makes it durable, [rollback] forgets it.  The state also counts
    the reads of the clock.  A raised exception keeps the state reached. *)

Record world : Type := {
  committed : database;
  working : database;
  ticks : nat
}.

Definition M (A : Type) : Type := world -> result A * world.

Definition ret {A} (a : A) : M A := fun w => (Ok a, w).

Definition bind {A B} (m : M A) (f : A -> M B) : M B :=
  fun w => match m w with
           | (Ok a, w') => f a w'
           | (Raise e, w') => (Raise e, w')
           end.

Definition lift {A} (r : result A) : M A := fun w => (r, w).

Notation "x <- m ;; k" := (bind m (fun x => k))
  (at level 61, m at next level, right associativity).
Notation "m ;;; k" := (bind m (fun _ => k))
  (at level 61, right associativity).

(** [for x in l: body x]. *)
Fixpoint for_each {A} (l : list A) (body : A -> M unit) : M unit :=
  match l with
  | [] => ret tt
  | x :: l' => body x ;;; for_each l' body
  end.

Definition connect (db : database) : world :=
  {| committed := db; working := db; ticks := 0 |}.

Definition commit : M unit :=
  fun w => (Ok tt, {| committed := working w; working := working w; ticks := ticks w |}).

Definition rollback (w : world) : world :=
  {| committed := committed w; working := committed w; ticks := ticks w |}.

(** [conn.close()]: what stays is the durable content. *)
Definition close (w : world) : database := committed w.

Section Store.

(** The clock of one call. *)
Variable now : nat -> string.

Definition read_clock : M pyval :=
  fun w => (Ok (VStr (now (ticks w))),
            {| committed := committed w; working := working w; ticks := S (ticks w) |}).

(** A statement on the open transaction. *)
Definition update_working (f : database -> result database) : M unit :=
  fun w => match f (working w) with
           | Ok db => (Ok tt, {| committed := committed w; working := db; ticks := ticks w |})
           | Raise e => (Raise e, w)
           end.

Definition bind_params (ps : list pyval) : result (list sqlval) :=
  map_result to_sql ps.

Definition sql_nth (i : nat) (vs : list sqlval) : sqlval := nth i vs SNull.

Definition execute_insert_anchor (ps : list pyval) : M unit :=
  vs <- lift (bind_params ps) ;;
  update_working (fun db =>
    match replace_anchor
            {| a_anchor_date := store_as AText (sql_nth 0 vs);
               anchor_timestamp := store_as AText (sql_nth 1 vs);
               anchor_price := store_as AReal (sql_nth 2 vs);
               regime := store_as AText (sql_nth 3 vs);
               direction := store_as AText (sql_nth 4 vs);
               curve_quality := store_as AReal (sql_nth 5 vs);
               created_at := store_as AText (sql_nth 6 vs) |}
            (daily_anchors db) with
    | Ok t => Ok {| daily_anchors := t; predictions := predictions db;
                    accuracy_metrics := accuracy_metrics db |}
    | Raise e => Raise e
    end).

Definition execute_insert_prediction (ps : list pyval) : M unit :=
  vs <- lift (bind_params ps) ;;
  update_working (fun db =>
    match replace_prediction
            (store_as AText (sql_nth 0 vs)) (store_as AText (sql_nth 1 vs))
            (store_as AReal (sql_nth 2 vs)) (store_as AReal (sql_nth 3 vs))
            (store_as AReal (sql_nth 4 vs)) (store_as AReal (sql_nth 5 vs))
            (store_as AReal (sql_nth 6 vs)) (store_as AReal (sql_nth 7 vs))
            (store_as AText (sql_nth 8 vs)) (predictions db) with
    | Ok t => Ok {| daily_anchors := daily_anchors db; predictions := t;
                    accuracy_metrics := accuracy_metrics db |}
    | Raise e => Raise e
    end).

Definition execute_insert_metric (ps : list pyval) : M unit :=
  vs <- lift (bind_params ps) ;;
  update_working (fun db =>
    match replace_metric
            (store_as AText (sql_nth 0 vs)) (store_as AText (sql_nth 1 vs))
            (store_as AReal (sql_nth 2 vs)) (store_as AReal (sql_nth 3 vs))
            (store_as AReal (sql_nth 4 vs)) (store_as AReal (sql_nth 5 vs))
            (store_as AText (sql_nth 6 vs)) (accuracy_metrics db) with
    | Ok t => Ok {| daily_anchors := daily_anchors db; predictions := predictions db;
                    accuracy_metrics := t |}
    | Raise e => Raise e
    end).

(** [x if c else None], where evaluating [x] may read the clock. *)
Definition if_else_none (c : bool) (x : M pyval) : M pyval :=
  if c then x else ret VNone.

(** Lines 163-165 and 170-172: the error of a price against the target
    price, in percent, and the accuracy. *)
Definition error_and_accuracy (target_price price : pyval) : M (pyval * pyval) :=
  tp <- lift (as_num target_price) ;;
  p <- lift (as_num price) ;;
  d <- lift (num_sub tp p) ;;
  let error := num_abs d in
  q <- lift (num_truediv error tp) ;;
  error_pct <- lift (num_mul q (NInt 100)) ;;
  accuracy <- lift (num_sub (NInt 100) error_pct) ;;
  ret (num_val error_pct, num_val accuracy).

(** Lines 162-187: the metric of a realized point. *)
Definition store_metric (anchor_date horizon : pyval)
    (target_price original_price stabilized_price : pyval) : M unit :=
  positive <- lift (py_positive target_price) ;;
  if positive then
    original <- error_and_accuracy target_price original_price ;;
    stabilized <- (if truthy stabilized_price
                   then error_and_accuracy target_price stabilized_price
                   else ret (VNone, VNone)) ;;
    t <- read_clock ;;
    execute_insert_metric
      [anchor_date; horizon; fst original; fst stabilized;
       snd original; snd stabilized; t]
  else ret tt.

(** The local variables of one turn of the loop over the points. *)
Record point_view : Type := {
  v_horizon : pyval;
  v_target_price : pyval;
  v_pct_change : pyval;
  v_is_actual : pyval;
  v_original_price : pyval;
  v_original_pct : pyval;
  v_stabilized_price : pyval;
  v_stabilized_pct : pyval
}.

(** Lines 127-140: what a turn reads; [None] when the turn ends at
    [continue]. *)
Definition read_point (original_preds : pyval) (point : pyval)
  : result (option point_view) :=
  match py_get point "horizon" VNone with
  | Raise e => Raise e
  | Ok horizon =>
  if negb (truthy horizon) then Ok None
  else
  match py_get point "target_price" (VInt 0) with
  | Raise e => Raise e
  | Ok target_price =>
  match py_get point "pct_change" (VInt 0) with
  | Raise e => Raise e
  | Ok pct_change =>
  match py_get point "is_actual" (VBool false) with
  | Raise e => Raise e
  | Ok is_actual =>
  match py_get_key original_preds horizon (VDict []) with
  | Raise e => Raise e
  | Ok orig =>
  match py_get orig "original_price" VNone with
  | Raise e => Raise e
  | Ok original_price =>
  match py_get orig "original_pct" VNone with
  | Raise e => Raise e
  | Ok original_pct =>
  match py_get orig "stabilized_price" VNone with
  | Raise e => Raise e
  | Ok stabilized_price =>
  match py_get orig "stabilized_pct" VNone with
  | Raise e => Raise e
  | Ok stabilized_pct =>
      Ok (Some {| v_horizon := horizon; v_target_price := target_price;
                  v_pct_change := pct_change; v_is_actual := is_actual;
                  v_original_price := original_price;
                  v_original_pct := original_pct;
                  v_stabilized_price := stabilized_price;
                  v_stabilized_pct := stabilized_pct |})
  end end end end end end end end
  end.

(** Lines 142-189: what a turn writes. *)
Definition write_point (anchor_date : pyval) (v : point_view) : M unit :=
  if truthy (v_original_price v) then
    t <- if_else_none (truthy (v_is_actual v)) read_clock ;;
    execute_insert_prediction
      [anchor_date; v_horizon v; v_original_price v; v_original_pct v;
       v_stabilized_price v; v_stabilized_pct v;
       (if truthy (v_is_actual v) then v_target_price v else VNone);
       (if truthy (v_is_actual v) then v_pct_change v else VNone);
       t] ;;;
    if truthy (v_is_actual v) then
      store_metric anchor_date (v_horizon v) (v_target_price v)
        (v_original_price v) (v_stabilized_price v)
    else ret tt
  else ret tt.

(** Lines 127-189: the body of the loop over the points. *)
Definition store_point (anchor_date : pyval) (original_preds : pyval)
    (point : pyval) : M unit :=
  r <- lift (read_point original_preds point) ;;
  match r with
  | None => ret tt
  | Some v => write_point anchor_date v
  end.

(** Lines 110-122: the points, from the ['curve'] array or else from the
    ['forward_curve'] dict. *)
Definition point_of_item (item : string * pyval) : result pyval :=
  match py_get (snd item) "price" VNone with
  | Raise e => Raise e
  | Ok price =>
    match py_get (snd item) "pct_change" VNone with
    | Raise e => Raise e
    | Ok pct =>
      match py_get (snd item) "is_actual" (VBool false) with
      | Raise e => Raise e
      | Ok act =>
          Ok (VDict [("horizon", VStr (fst item)); ("target_price", price);
                     ("pct_change", pct); ("is_actual", act)])
      end
    end
  end.

Definition points_of (curve_data : pyval) : result (list pyval) :=
  match py_get curve_data "curve" (VList []) with
  | Raise e => Raise e
  | Ok forward_curve =>
      if truthy forward_curve then py_iter forward_curve
      else
        match py_get curve_data "forward_curve" (VDict []) with
        | Raise e => Raise e
        | Ok fc_dict =>
            match py_items fc_dict with
            | Raise e => Raise e
            | Ok items => map_result point_of_item items
            end
        end
  end.

(** Lines 93-189: the statements of the [try] before the commit. *)
Definition store_writes (anchor_date anchor_ts : pyval) (curve_data : pyval) : M unit :=
  current_price <- lift (py_get curve_data "current_price" (VInt 0)) ;;
  rg <- lift (py_get curve_data "regime" (VStr "UNKNOWN")) ;;
  dir <- lift (py_get curve_data "direction" (VStr "UNKNOWN")) ;;
  cq <- lift (py_get curve_data "curve_quality" (VInt 0)) ;;
  t <- read_clock ;;
  execute_insert_anchor [anchor_date; anchor_ts; current_price; rg; dir; cq; t] ;;;
  forward_curve <- lift (points_of curve_data) ;;
  original_preds <- lift (py_get curve_data "original_predictions" (VDict [])) ;;
  for_each forward_curve (store_point anchor_date original_preds).

(** Lines 93-191: the body of the [try]. *)
Definition store_body (anchor_date anchor_ts : pyval) (curve_data : pyval) : M unit :=
  store_writes anchor_date anchor_ts curve_data ;;;
  commit.

(** How a call ends: it returns, or an exception leaves it. *)
Inductive outcome : Type :=
| Returned
| Raised (e : pyerr).

(** [try: ... except Exception: conn.rollback() finally: conn.close()]. *)
Definition transaction (body : M unit) (db : database) : database :=
  let w := connect db in
  match body w with
  | (Ok _, w') => close w'
  | (Raise _, w') => close (rollback w')
  end.

(** [AccuracyStorage.store_v4_data]. *)
Definition store_v4_data (curve_data : pyval) (db : database) : database * outcome :=
  if negb (truthy curve_data) then (db, Returned)
  else
    match py_get curve_data "anchor_timestamp" VNone with
    | Raise e => (db, Raised e)
    | Ok anchor_ts =>
        if negb (truthy anchor_ts) then (db, Returned)
        else
          match anchor_ts with
          | VStr s =>
              (transaction (store_body (VStr (split_T s)) anchor_ts curve_data) db,
               Returned)
          | _ => (db, Raised AttributeError)
          end
    end.

End Store.

End AccuracyStorage.

(** ** More of Python, for the curve providers *)

(** [len(v)]. *)
Definition py_len (v : pyval) : result nat :=
  match v with
  | VList l => Ok (List.length l)
  | VDict kv => Ok (List.length kv)
  | VStr s => Ok (String.length s)
  | _ => Raise TypeError
  end.

(** Is [s1] a substring of [s2]. *)
Definition is_substring (s1 s2 : string) : bool :=
  match String.index 0 s1 s2 with Some _ => true | None => false end.

Definition is_str (h : string) (v : pyval) : bool :=
  match v with VStr s => String.eqb s h | _ => false end.

(** [h in v] for a string [h]: a key of a dict, an element of a list, a
    substring of a string. *)
Definition py_contains (h : string) (v : pyval) : result bool :=
  match v with
  | VDict kv => Ok (match assoc h kv with Some _ => true | None => false end)
  | VList l => Ok (existsb (is_str h) l)
  | VStr s => Ok (is_substring h s)
  | _ => Raise TypeError
  end.

(** [v[h]] for a string [h]. *)
Definition py_getitem (v : pyval) (h : string) : result pyval :=
  match v with
  | VDict kv => match assoc h kv with Some x => Ok x | None => Raise KeyError end
  | _ => Raise TypeError
  end.

(** [d[k] = v] on a dictionary that keeps insertion order. *)
Fixpoint dict_set {A} (k : string) (v : A) (d : list (string * A)) : list (string * A) :=
  match d with
  | [] => [(k, v)]
  | (k', v') :: d' =>
      if String.eqb k k' then (k, v) :: d' else (k', v') :: dict_set k v d'
  end.

(** [l[i:]] with Python's reading of a negative [i]. *)
Definition py_slice_from {A} (i : Z) (l : list A) : list A :=
  if (i <? 0)%Z
  then skipn (Z.to_nat (Z.max 0 (Z.of_nat (List.length l) + i))) l
  else skipn (Z.to_nat i) l.

(** *** [sorted(l, key=...)]

    The keys that [<] orders in a decoded document are the strings among
    themselves and the numbers among themselves; [None] and dicts are not
    ordered at all, and a key that is a list is taken as unordered too.
    The sort is stable and uses [<] only; among keys that [<] orders
    totally (strings; numbers without NaN) its result does not depend on
    the algorithm. *)

Inductive sort_key : Type :=
| KStr (s : string)
| KNum (n : num)
| KOther.

Definition sort_key_of (v : pyval) : sort_key :=
  match v with
  | VStr s => KStr s
  | VInt z => KNum (NInt z)
  | VFloat f => KNum (NFloat f)
  | VBool b => KNum (NInt (if b then 1 else 0))
  | _ => KOther
  end.

Definition key_lt (a b : sort_key) : result bool :=
  match a, b with
  | KStr x, KStr y => Ok (String.ltb x y)
  | KNum x, KNum y => Ok (num_ltb x y)
  | _, _ => Raise TypeError
  end.

Fixpoint insert_by_key {A} (x : sort_key * A) (l : list (sort_key * A))
  : result (list (sort_key * A)) :=
  match l with
  | [] => Ok [x]
  | y :: l' =>
      match key_lt (fst y) (fst x) with
      | Raise e => Raise e
      | Ok true =>
          match insert_by_key x l' with
          | Raise e => Raise e
          | Ok r => Ok (y :: r)
          end
      | Ok false => Ok (x :: y :: l')
      end
  end.

Fixpoint sort_by_key {A} (l : list (sort_key * A)) : result (list (sort_key * A)) :=
  match l with
  | [] => Ok []
  | x :: l' =>
      match sort_by_key l' with
      | Raise e => Raise e
      | Ok r => insert_by_key x r
      end
  end.

(** [sorted(v, key=f)]: the keys are computed first, then compared. *)
Definition py_sorted (f : pyval -> result pyval) (v : pyval) : result (list pyval) :=
  match py_iter v with
  | Raise e => Raise e
  | Ok l =>
      match map_result (fun x => match f x with
                                 | Ok k => Ok (sort_key_of k, x)
                                 | Raise e => Raise e
                                 end) l with
      | Raise e => Raise e
      | Ok keyed =>
          match sort_by_key keyed with
          | Raise e => Raise e
          | Ok r => Ok (map snd r)
          end
      end
  end.

(** The error monad of the pure parts. *)
Definition rbind {A B} (r : result A) (f : A -> result B) : result B :=
  match r with
  | Ok a => f a
  | Raise e => Raise e
  end.

Notation "x <~ r ; k" := (rbind r (fun x => k))
  (at level 61, r at next level, right associativity).

(** [try: body except Exception: handler]. *)
Definition try_except {A} (body : result A) (handler : pyerr -> result A) : result A :=
  match body with
  | Ok a => Ok a
  | Raise e => handler e
  end.

(** What one upstream request gives: the request raises (a timeout, a
    connection fault), or a response arrives with its status and its body,
    [None] when the body does not decode. *)
Inductive response : Type :=
| Failed (e : pyerr)
| Response (status : Z) (body : option pyval).

(** [await resp.json()]. *)
Definition json (body : option pyval) : result pyval :=
  match body with
  | Some v => Ok v
  | None => Raise DecodeError
  end.

Notation "x <~ r ;; k" := (rbind r (fun x => k))
  (at level 61, r at next level, right associativity).

(** [for x in l: acc = f acc x], where [f] may raise. *)
Fixpoint fold_result {A B} (f : A -> B -> result A) (l : list B) (a : A) : result A :=
  match l with
  | [] => Ok a
  | x :: l' => a' <~ f a x ;; fold_result f l' a'
  end.

Definition is_none (v : pyval) : bool :=
  match v with VNone => true | _ => false end.

(** ** [V4CurveProvider] *)

Module V4CurveProvider.

Definition HORIZONS : list string :=
  ["+1H"; "+2H"; "+4H"; "+6H"; "+8H"; "+12H"; "+18H"; "+24H"].

(** One element of the ["curve"] array that [_transform_response] builds. *)
Record curve_point : Type := {
  horizon : string;
  target_price : pyval;
  pct_change : pyval;
  lower_90 : pyval;
  upper_90 : pyval;
  is_actual : pyval;
  original_price : pyval;
  original_pct : pyval;
  yesterday_price : pyval;
  stabilized_price : pyval;
  stabilized_timestamp : pyval
}.

(** The dict that [_transform_response] returns. *)
Record Curve : Type := {
  type : string;
  timestamp : string;
  generated_at : pyval;
  anchor_timestamp : pyval;
  hours_elapsed : pyval;
  current_price : pyval;
  anchor_price : pyval;
  direction : pyval;
  regime : pyval;
  curve_quality : pyval;
  curve : list curve_point;
  model : string;
  has_yesterday : bool;
  has_history : bool
}.

(** Lines 186-193: one history entry seen by the scan for [horizon];
    the accumulator is [(last_prediction, last_timestamp)]. *)
Definition scan_entry (horizon : string) (last : pyval * pyval) (entry : pyval)
  : result (pyval * pyval) :=
  fc <~ py_get entry "forward_curve" (VDict []) ;;
  h_data <~ py_get fc horizon (VDict []) ;;
  if truthy h_data then
    act <~ py_get h_data "is_actual" (VBool false) ;;
    if negb (truthy act) then
      price <~ py_get h_data "price" VNone ;;
      ts <~ py_get entry "timestamp" VNone ;;
      Ok (price, ts)
    else Ok last
  else Ok last.

(** Lines 178-205: the body of the loop over [HORIZONS]. *)
Definition stabilize_horizon (sorted_history : list pyval) (current_curve : pyval)
    (stabilized : list (string * pyval)) (horizon : string)
  : result (list (string * pyval)) :=
  current_point <~ py_get current_curve horizon (VDict []) ;;
  is_now_actual <~ py_get current_point "is_actual" (VBool false) ;;
  if truthy is_now_actual then
    last <~ fold_result (scan_entry horizon) sorted_history (VNone, VNone) ;;
    if negb (is_none (fst last)) then
      Ok (dict_set horizon
            (VDict [("price", fst last); ("timestamp", snd last)]) stabilized)
    else Ok stabilized
  else
    price <~ py_get current_point "price" VNone ;;
    Ok (dict_set horizon (VDict [("price", price); ("timestamp", VNone)]) stabilized).

(** [V4CurveProvider._extract_stabilized_from_history]. *)
Definition _extract_stabilized_from_history (history_data current_curve : pyval)
  : result pyval :=
  if negb (truthy history_data) then Ok (VDict [])
  else
    sorted_history <~
      py_sorted (fun x => py_get x "timestamp" (VStr "")) history_data ;;
    stabilized <~
      fold_result (stabilize_horizon sorted_history current_curve) HORIZONS [] ;;
    Ok (VDict stabilized).

(** Lines 117-142: the point of one horizon, when the upstream curve has it. *)
Definition transform_point
    (forward_curve original_predictions yesterday_curve stabilized_predictions : pyval)
    (curve_points : list curve_point) (h : string) : result (list curve_point) :=
  present <~ py_contains h forward_curve ;;
  if present then
    point <~ py_getitem forward_curve h ;;
    orig <~ py_get original_predictions h (VDict []) ;;
    yest <~ py_get yesterday_curve h (VDict []) ;;
    stab <~ py_get stabilized_predictions h (VDict []) ;;
    v_price <~ py_get point "price" (VInt 0) ;;
    v_pct <~ py_get point "pct_change" (VInt 0) ;;
    v_lower <~ py_get point "lower_90" (VInt 0) ;;
    v_upper <~ py_get point "upper_90" (VInt 0) ;;
    v_actual <~ py_get point "is_actual" (VBool false) ;;
    v_oprice <~ py_get orig "original_price" VNone ;;
    v_opct <~ py_get orig "original_pct" VNone ;;
    v_yest <~ py_get yest "price" VNone ;;
    v_sprice <~ py_get stab "price" VNone ;;
    v_sts <~ py_get stab "timestamp" VNone ;;
    Ok (curve_points ++
          [{| horizon := h; target_price := v_price; pct_change := v_pct;
              lower_90 := v_lower; upper_90 := v_upper; is_actual := v_actual;
              original_price := v_oprice; original_pct := v_opct;
              yesterday_price := v_yest; stabilized_price := v_sprice;
              stabilized_timestamp := v_sts |}])
  else Ok curve_points.

(** [V4CurveProvider._transform_response]; [now] is the clock when the
    result is built. *)
Definition _transform_response (now : string)
    (data yesterday_data history_data : pyval) : result Curve :=
  forward_curve <~ py_get data "forward_curve" (VDict []) ;;
  original_predictions <~ py_get data "original_predictions" (VDict []) ;;
  yesterday_curve <~
    (if truthy yesterday_data
     then py_get yesterday_data "forward_curve" (VDict [])
     else Ok (VDict [])) ;;
  stabilized_predictions <~
    _extract_stabilized_from_history history_data forward_curve ;;
  curve_points <~
    fold_result (transform_point forward_curve original_predictions
                   yesterday_curve stabilized_predictions) HORIZONS [] ;;
  v_generated <~ py_get data "generated_at" VNone ;;
  v_anchor <~ py_get data "anchor_timestamp" VNone ;;
  v_hours <~ py_get data "hours_elapsed" (VInt 0) ;;
  v_current <~ py_get data "current_price" (VInt 0) ;;
  v_anchor_price <~ py_get data "current_price" (VInt 0) ;;
  v_direction <~ py_get data "direction" (VStr "neutral") ;;
  v_regime <~ py_get data "regime" (VStr "neutral") ;;
  v_quality <~ py_get data "curve_quality" (VInt 0) ;;
  v_has_history <~
    (if is_none history_data then Ok false
     else n <~ py_len history_data ;; Ok (Nat.ltb 0 n)) ;;
  Ok {| type := "v4_forward_curve"; timestamp := now;
        generated_at := v_generated; anchor_timestamp := v_anchor;
        hours_elapsed := v_hours; current_price := v_current;
        anchor_price := v_anchor_price; direction := v_direction;
        regime := v_regime; curve_quality := v_quality;
        curve := curve_points; model := "V4.32";
        has_yesterday := negb (is_none yesterday_data);
        has_history := v_has_history |}.

(** An optional response (lines 83-90): used when it arrived with status
    200, left out ([None]) otherwise. *)
Definition optional_json (resp : response) : result pyval :=
  match resp with
  | Failed _ => Ok VNone
  | Response status body => if (status =? 200)%Z then json body else Ok VNone
  end.

(** [V4CurveProvider.fetch_curve]: the three requests are gathered with
    [return_exceptions=True], so each arrives as a [response]; the value is
    the curve, or [None]. *)
Definition fetch_curve (now : string) (tracking_resp yesterday_resp history_resp : response)
  : result (option Curve) :=
  try_except
    (match tracking_resp with
     | Failed _ => Ok None
     | Response status body =>
         if negb (status =? 200)%Z then Ok None
         else
           data <~ json body ;;
           yesterday_data <~ optional_json yesterday_resp ;;
           history_data <~ optional_json history_resp ;;
           c <~ _transform_response now data yesterday_data history_data ;;
           Ok (Some c)
     end)
    (fun _ => Ok None).

(** An entry of [snapshot["predictions"]]. *)
Record prediction : Type := {
  price : pyval;
  pred_original_price : pyval
}.

(** An entry of [_curve_history]. *)
Record snapshot : Type := {
  snap_timestamp : string;
  snap_hours_elapsed : pyval;
  snap_anchor_timestamp : pyval;
  predictions : list (string * prediction)
}.

(** The attributes of the provider that the poll loop reads and writes. *)
Record provider : Type := {
  _broadcast_callback : bool;
  _last_curve : option Curve;
  _curve_history : list snapshot;
  _max_history_size : Z
}.

(** [V4CurveProvider.__init__]. *)
Definition init : provider :=
  {| _broadcast_callback := false; _last_curve := None;
     _curve_history := []; _max_history_size := 300 |}.

(** Lines 274-280: the predictions of a snapshot, the pending points only. *)
Definition snapshot_predictions (points : list curve_point) : list (string * prediction) :=
  fold_left
    (fun preds point =>
       if negb (truthy (is_actual point))
       then dict_set (horizon point)
              {| price := target_price point;
                 pred_original_price := original_price point |} preds
       else preds)
    points [].

Definition make_snapshot (now : string) (c : Curve) : snapshot :=
  {| snap_timestamp := now;
     snap_hours_elapsed := hours_elapsed c;
     snap_anchor_timestamp := anchor_timestamp c;
     predictions := snapshot_predictions (curve c) |}.

(** [V4CurveProvider._store_curve_snapshot]. *)
Definition _store_curve_snapshot (now : string) (c : Curve) (p : provider) : provider :=
  let history := _curve_history p ++ [make_snapshot now c] in
  {| _broadcast_callback := _broadcast_callback p;
     _last_curve := _last_curve p;
     _curve_history :=
       if (_max_history_size p <? Z.of_nat (List.length history))%Z
       then py_slice_from (- _max_history_size p) history
       else history;
     _max_history_size := _max_history_size p |}.

(** An element of the [evolution] list of a point. *)
Record evolution_entry : Type := {
  evo_timestamp : string;
  evo_hours_elapsed : pyval;
  evo_price : pyval
}.

(** Lines 298-306. *)
Definition evolution_of (h : string) (history : list snapshot) : list evolution_entry :=
  flat_map
    (fun s =>
       match assoc h (predictions s) with
       | Some pred =>
           [{| evo_timestamp := snap_timestamp s;
               evo_hours_elapsed := snap_hours_elapsed s;
               evo_price := price pred |}]
       | None => []
       end)
    history.

(** A point of the broadcast curve: the point itself, the key
    ["last_stabilized_price"] when it is set, and ["evolution_count"]. *)
Record point_with_history : Type := {
  point : curve_point;
  last_stabilized_price : option pyval;
  evolution_count : nat
}.

Record curve_with_history : Type := {
  base : Curve;
  curve_copy : list point_with_history;
  history_size : nat
}.

(** Lines 293-316, for one point. *)
Definition add_history_to_point (history : list snapshot) (pt : curve_point)
  : point_with_history :=
  let evolution := evolution_of (horizon pt) history in
  {| point := pt;
     last_stabilized_price :=
       match evolution with
       | [] => None
       | _ :: _ =>
           if truthy (is_actual pt)
           then Some (evo_price (last evolution
                        {| evo_timestamp := ""; evo_hours_elapsed := VNone;
                           evo_price := VNone |}))
           else Some (target_price pt)
       end;
     evolution_count := List.length evolution |}.

(** [V4CurveProvider._add_history_to_curve]. *)
Definition _add_history_to_curve (c : Curve) (p : provider) : curve_with_history :=
  {| base := c;
     curve_copy := map (add_history_to_point (_curve_history p)) (curve c);
     history_size := List.length (_curve_history p) |}.

(** One turn of [_poll_loop] up to the sleep (lines 232-239): what the
    provider is afterwards, and what was handed to the broadcast callback
    (taken not to raise).
    [now 0] is the clock in [fetch_curve], [now 1] in
    [_store_curve_snapshot]. *)
Definition poll_cycle (now : nat -> string)
    (tracking_resp yesterday_resp history_resp : response) (p : provider)
  : provider * list curve_with_history :=
  match fetch_curve (now 0%nat) tracking_resp yesterday_resp history_resp with
  | Ok (Some c) =>
      if _broadcast_callback p then
        let p1 := {| _broadcast_callback := _broadcast_callback p;
                     _last_curve := Some c;
                     _curve_history := _curve_history p;
                     _max_history_size := _max_history_size p |} in
        let p2 := _store_curve_snapshot (now 1%nat) c p1 in
        (p2, [_add_history_to_curve c p2])
      else (p, [])
  | Ok None => (p, [])
  | Raise _ => (p, [])
  end.

(** [get_last_curve] and [get_curve_history]. *)
Definition get_last_curve (p : provider) : option Curve := _last_curve p.
Definition get_curve_history (p : provider) : list snapshot := _curve_history p.

(** Lines 242-253: at the clock [current_minute]:[current_second], the
    next 5-minute mark that is logged and the seconds the loop sleeps. *)
Definition next_poll (current_minute current_second : Z) : Z * Z :=
  let next_5min := ((current_minute / 5 + 1) * 5)%Z in
  let '(next_5min, minutes_to_wait) :=
    if (60 <=? next_5min)%Z then (0%Z, (60 - current_minute + 0)%Z)
    else (next_5min, (next_5min - current_minute)%Z) in
  (next_5min, (minutes_to_wait * 60 - current_second + 5)%Z).

(** A run of turns of [_poll_loop], one per triple of upstream responses,
    each with its clock: the provider afterwards and all that was handed to
    the broadcast callback, in order. *)
Fixpoint poll_cycles
    (turns : list ((nat -> string) * (response * response * response)))
    (p : provider) : provider * list curve_with_history :=
  match turns with
  | [] => (p, [])
  | (now, (t, y, h)) :: turns' =>
      let '(p1, out1) := poll_cycle now t y h p in
      let '(p2, out2) := poll_cycles turns' p1 in
      (p2, out1 ++ out2)
  end.

(** [start_polling], as far as the attributes go. *)
Definition start_polling (p : provider) : provider :=
  {| _broadcast_callback := true; _last_curve := _last_curve p;
     _curve_history := _curve_history p;
     _max_history_size := _max_history_size p |}.

End V4CurveProvider.

(** ** [V5CurveProvider] *)

Module V5CurveProvider.

Definition HORIZONS : list string :=
  ["+1H"; "+2H"; "+4H"; "+6H"; "+8H"; "+12H"; "+18H"; "+24H"; "+36H"; "+48H"].

Record curve_point : Type := {
  horizon : string;
  target_price : pyval;
  pct_change : pyval;
  lower_90 : pyval;
  upper_90 : pyval
}.

Record Curve : Type := {
  type : string;
  timestamp : string;
  model_timestamp : pyval;
  current_price : pyval;
  direction : pyval;
  confidence_level : pyval;
  confidence_score : pyval;
  curve : list curve_point;
  model : string
}.

(** Lines 72-81. *)
Definition transform_point (forward_curve : pyval)
    (curve_points : list curve_point) (h : string) : result (list curve_point) :=
  present <~ py_contains h forward_curve ;;
  if present then
    point <~ py_getitem forward_curve h ;;
    v_price <~ py_get point "target_price" (VInt 0) ;;
    v_pct <~ py_get point "pct_change" (VInt 0) ;;
    v_lower <~ py_get point "lower_90" (VInt 0) ;;
    v_upper <~ py_get point "upper_90" (VInt 0) ;;
    Ok (curve_points ++
          [{| horizon := h; target_price := v_price; pct_change := v_pct;
              lower_90 := v_lower; upper_90 := v_upper |}])
  else Ok curve_points.

(** [V5CurveProvider._transform_response]. *)
Definition _transform_response (now : string) (data : pyval) : result Curve :=
  forward_curve <~ py_get data "forward_curve" (VDict []) ;;
  curve_points <~ fold_result (transform_point forward_curve) HORIZONS [] ;;
  v_ts <~ py_get data "timestamp" VNone ;;
  v_current <~ py_get data "current_price" (VInt 0) ;;
  v_direction <~ py_get data "direction" (VStr "NEUTRAL") ;;
  v_level <~ py_get data "confidence_level" (VStr "LOW") ;;
  v_score <~ py_get data "confidence_score" (VInt 0) ;;
  Ok {| type := "forward_curve"; timestamp := now; model_timestamp := v_ts;
        current_price := v_current; direction := v_direction;
        confidence_level := v_level; confidence_score := v_score;
        curve := curve_points; model := "V5 Flash (LSTM+TFT)" |}.

(** [V5CurveProvider.fetch_curve]: here the request is awaited inside the
    [try], so its exception is raised there and handled by the two
    [except] clauses. *)
Definition fetch_curve (now : string) (resp : response) : result (option Curve) :=
  try_except
    (match resp with
     | Failed e => Raise e
     | Response status body =>
         if negb (status =? 200)%Z then Ok None
         else
           data <~ json body ;;
           c <~ _transform_response now data ;;
           Ok (Some c)
     end)
    (fun e => match e with
              | TimeoutError => Ok None
              | _ => Ok None
              end).

Record provider : Type := {
  _broadcast_callback : bool;
  _last_curve : option Curve
}.

Definition init : provider :=
  {| _broadcast_callback := false; _last_curve := None |}.

(** One turn of [_poll_loop] up to the sleep (lines 134-137). *)
Definition poll_cycle (now : string) (resp : response) (p : provider)
  : provider * list Curve :=
  match fetch_curve now resp with
  | Ok (Some c) =>
      if _broadcast_callback p then
        ({| _broadcast_callback := _broadcast_callback p; _last_curve := Some c |}, [c])
      else (p, [])
  | Ok None => (p, [])
  | Raise _ => (p, [])
  end.

Definition get_last_curve (p : provider) : option Curve := _last_curve p.

(** Lines 140-153: the next 5-minute mark and the seconds of sleep. *)
Definition next_poll (current_minute current_second : Z) : Z * Z :=
  let next_5min := ((current_minute / 5 + 1) * 5)%Z in
  let '(next_5min, minutes_to_wait) :=
    if (60 <=? next_5min)%Z then (0%Z, (60 - current_minute + 0)%Z)
    else (next_5min, (next_5min - current_minute)%Z) in
  (next_5min, (minutes_to_wait * 60 - current_second + 2)%Z).

(** [V5CurveProvider.fetch_summary]: the decoded body as it is, or [None]. *)
Definition fetch_summary (resp : response) : result pyval :=
  try_except
    (match resp with
     | Failed e => Raise e
     | Response status body =>
         if negb (status =? 200)%Z then Ok VNone
         else json body
     end)
    (fun _ => Ok VNone).

End V5CurveProvider.

(** ** [ForwardCurveServer] *)

Module ForwardCurveServer.

(** What a handler answers: a status and a body. *)
Record reply : Type := {
  status : Z;
  body : pyval
}.

(** [handle_curve_summary], with a provider set. *)
Definition handle_curve_summary (resp : response) : result reply :=
  summary <~ V5CurveProvider.fetch_summary resp ;;
  if truthy summary then Ok {| status := 200; body := summary |}
  else Ok {| status := 503;
             body := VDict [("error", VStr "Summary not available")] |}.

(** [broadcast].  [ws_clients] is the set of connections, each named by a
    number, in the order in which the loop of line 276 meets them;
    [message_str] is what [json.dumps(message)] gives; [accepts ws] tells
    whether [ws.send_str] returns rather than raises an [Exception].

    While a send is awaited the other tasks of the server run, and they add
    connections to the set and discard connections from it (lines 312, 344
    and 283).  [during] tells, send after send, what they did: nothing, or
    they left the set as [live].  The loop then asks the set for its next
    connection: a set that has not the size that it had when the loop began
    raises RuntimeError there, which line 285 catches, so that the sends
    that were left and the cleanup of line 283 do not happen; over a set
    that has changed and has its size again the loop goes on, with the
    connections [rest], which the layout of the set decides.

    The value is the set afterwards and the sends that returned, in
    order. *)
Inductive interference : Type :=
| Quiet
| Changed (live rest : list nat).

Definition discard_all (disconnected ws_clients : list nat) : list nat :=
  filter (fun ws => negb (existsb (Nat.eqb ws) disconnected)) ws_clients.

(** Lines 276-283 when no other task touches the set. *)
Fixpoint send_all (str : string) (accepts : nat -> bool)
    (rest live disconnected : list nat) (sent : list (nat * string))
  : list nat * list (nat * string) :=
  match rest with
  | [] => (discard_all disconnected live, sent)
  | ws :: rest' =>
      if accepts ws
      then send_all str accepts rest' live disconnected (sent ++ [(ws, str)])
      else send_all str accepts rest' live (disconnected ++ [ws]) sent
  end.

(** Lines 276-283; [size] is the size of the set when the loop begins. *)
Fixpoint send_loop (str : string) (accepts : nat -> bool) (size : nat)
    (during : list interference)
    (rest live disconnected : list nat) (sent : list (nat * string))
  : list nat * list (nat * string) :=
  match during with
  | [] => send_all str accepts rest live disconnected sent
  | i :: during' =>
      match rest with
      | [] => (discard_all disconnected live, sent)
      | ws :: rest' =>
          let sent' := if accepts ws then sent ++ [(ws, str)] else sent in
          let disconnected' :=
            if accepts ws then disconnected else disconnected ++ [ws] in
          match i with
          | Quiet =>
              send_loop str accepts size during' rest' live disconnected' sent'
          | Changed live' rest'' =>
              if Nat.eqb (List.length live') size
              then send_loop str accepts size during' rest'' live'
                     disconnected' sent'
              else (live', sent')
          end
      end
  end.

Definition broadcast (message_str : result string) (accepts : nat -> bool)
    (during : list interference) (ws_clients : list nat)
  : list nat * list (nat * string) :=
  match ws_clients with
  | [] => (ws_clients, [])
  | _ :: _ =>
      match message_str with
      | Raise _ => (ws_clients, [])
      | Ok str =>
          send_loop str accepts (List.length ws_clients) during
            ws_clients ws_clients [] []
      end
  end.

End ForwardCurveServer.

(** ** Observations and scenarios *)

Module AccuracyStorageSpec.
Import AccuracyStorage.

(** The rows of [predictions] and of [accuracy_metrics] for an anchor date
    and a horizon. *)
Definition rows_for (d h : string) (db : database) : list prediction_row :=
  filter (p_key (SText d) (SText h)) (rows (predictions db)).

Definition metrics_for (d h : string) (db : database) : list metric_row :=
  filter (m_key (SText d) (SText h)) (rows (accuracy_metrics db)).

(** What a column of the affinity [a] holds of a Python value that is
    bound to it. *)
Definition stored (a : affinity) (v : pyval) : result sqlval :=
  match to_sql v with
  | Ok x => Ok (store_as a x)
  | Raise e => Raise e
  end.

(** What the row of [predictions] written for the variables [v] holds. *)
Definition row_of_view (now : nat -> string) (v : point_view) (r : prediction_row) : Prop :=
  stored AReal (v_original_price v) = Ok (original_price r) /\
  stored AReal (v_original_pct v) = Ok (original_pct r) /\
  stored AReal (v_stabilized_price v) = Ok (stabilized_price r) /\
  stored AReal (v_stabilized_pct v) = Ok (stabilized_pct r) /\
  stored AReal (if truthy (v_is_actual v) then v_target_price v else VNone)
    = Ok (actual_price r) /\
  stored AReal (if truthy (v_is_actual v) then v_pct_change v else VNone)
    = Ok (actual_pct r) /\
  (if truthy (v_is_actual v)
   then exists k, became_actual_at r = SText (now k)
   else became_actual_at r = SNull).

(** The metric of the design document, in the arithmetic of Python: the
    absolute percent error [abs(actual - predicted) / actual * 100] of a
    prediction against the actual price, and the accuracy [100 - error]. *)
Definition error_pct (actual predicted : num) : result num :=
  d <~ num_sub actual predicted ;;
  q <~ num_truediv (num_abs d) actual ;;
  num_mul q (NInt 100).

Definition accuracy (actual predicted : num) : result num :=
  e <~ error_pct actual predicted ;;
  num_sub (NInt 100) e.

(** A float that is not a number, or whose sign bit is clear. *)
Definition sign_clear (x : spec_float) : Prop :=
  match x with
  | S754_zero s | S754_infinity s | S754_finite s _ _ => s = false
  | S754_nan => True
  end.

(** A number that is not below zero, or is not a number. *)
Definition num_sign_clear (n : num) : Prop :=
  match n with
  | NInt z => (0 <= z)%Z
  | NFloat f => sign_clear (Prim2SF f)
  end.

(** A double that is not below zero. *)
Definition not_negative (e : float) : Prop := PrimFloat.ltb e 0 = false.

(** What a REAL column holds of a float: NULL when it is not a number. *)
Definition real_of (f : float) : sqlval :=
  store_as AReal (if is_nan f then SNull else SReal f).

(** A REAL column that holds the number [r]. *)
Definition holds (x : sqlval) (r : result num) : Prop :=
  exists n, r = Ok n /\ stored AReal (num_val n) = Ok x.

(** What the row of [accuracy_metrics] written for the variables [v] holds. *)
Definition metric_of_view (v : point_view) (m : metric_row) : Prop :=
  exists tp op,
    as_num (v_target_price v) = Ok tp /\ num_ltb (NInt 0) tp = true /\
    as_num (v_original_price v) = Ok op /\
    holds (original_error_pct m) (error_pct tp op) /\
    holds (original_accuracy m) (accuracy tp op) /\
    (if truthy (v_stabilized_price v)
     then exists sp, as_num (v_stabilized_price v) = Ok sp /\
            holds (stabilized_error_pct m) (error_pct tp sp) /\
            holds (stabilized_accuracy m) (accuracy tp sp)
     else stabilized_error_pct m = SNull /\ stabilized_accuracy m = SNull).




(** The anchor date of a call that reaches the transaction. *)
Definition anchor_date_of (curve_data : pyval) : option string :=
  if truthy curve_data then
    match py_get curve_data "anchor_timestamp" VNone with
    | Ok (VStr s) => if truthy (VStr s) then Some (split_T s) else None
    | _ => None
    end
  else None.

(** The original prediction that a call carries for a horizon:
    [original_predictions.get(h, {})] and its two fields. *)
Definition original_of (curve_data : pyval) (h : string) : result (pyval * pyval) :=
  match py_get curve_data "original_predictions" (VDict []) with
  | Raise e => Raise e
  | Ok preds =>
      match py_get_key preds (VStr h) (VDict []) with
      | Raise e => Raise e
      | Ok orig =>
          match py_get orig "original_price" VNone with
          | Raise e => Raise e
          | Ok op =>
              match py_get orig "original_pct" VNone with
              | Raise e => Raise e
              | Ok opct => Ok (op, opct)
              end
          end
      end
  end.

(** A sequence of calls, each with its clock. *)
Definition run_calls (calls : list ((nat -> string) * pyval)) (db : database)
  : database :=
  fold_left (fun db c => fst (store_v4_data (fst c) (snd c) db)) calls db.

(** A call that, when it is about the anchor date [d], carries for the
    horizon [h] the original prediction [(p, pc)]. *)
Definition carries_original (d h : string) (p pc : sqlval) (curve_data : pyval) : Prop :=
  anchor_date_of curve_data = Some d ->
  forall op opct,
    original_of curve_data h = Ok (op, opct) -> truthy op = true ->
    stored AReal op = Ok p /\ stored AReal opct = Ok pc.

(** A call that, when it is about the anchor date [d], has every point of
    the horizon [h] marked realized, at the price [a] and the change [c]. *)
Definition carries_actual (d h : string) (a c : sqlval) (curve_data : pyval) : Prop :=
  anchor_date_of curve_data = Some d ->
  forall preds pts pt v,
    py_get curve_data "original_predictions" (VDict []) = Ok preds ->
    points_of curve_data = Ok pts -> In pt pts ->
    read_point preds pt = Ok (Some v) -> v_horizon v = VStr h ->
    truthy (v_is_actual v) = true /\
    stored AReal (v_target_price v) = Ok a /\ stored AReal (v_pct_change v) = Ok c.

(** *** Relations between the world before and after a statement *)

(** A statement that relates by [R] the world it starts in and the world it
    ends in, whether it returns or raises. *)
Definition respects (R : world -> world -> Prop) {A} (m : M A) : Prop :=
  forall w r w', m w = (r, w') -> R w w'.

(** Before [commit], no statement touches what is durable. *)
Definition same_committed (w w' : world) : Prop := committed w' = committed w.

Definition same_predictions (w w' : world) : Prop :=
  predictions (working w') = predictions (working w).

Definition same_metrics (w w' : world) : Prop :=
  accuracy_metrics (working w') = accuracy_metrics (working w).

Definition same_working (w w' : world) : Prop := working w' = working w.

(** A block that never raises ZeroDivisionError. *)
Definition no_zde {A} (m : M A) : Prop :=
  forall w, fst (m w) <> Raise ZeroDivisionError.

(** *** The scenario of the design document

    Anchor 2025-06-01T13:00:00Z, reference price 65000; the horizon +1H was
    predicted at 65200 (+0.31), later forecast at 65150 and 65180, and is
    then reported realized at 65170. *)

Definition tick_clock (label : string) (k : nat) : string :=
  label ++ String (ascii_of_nat (48 + k)) "".

Definition scenario_curve (price pct : pyval) (realized : bool)
    (original : pyval) (original_pct : pyval) : pyval :=
  VDict
    [("anchor_timestamp", VStr "2025-06-01T13:00:00Z");
     ("current_price", VInt 65000);
     ("regime", VStr "TRENDING");
     ("forward_curve",
      VDict [("+1H", VDict [("price", price); ("pct_change", pct);
                            ("is_actual", VBool realized)])]);
     ("original_predictions",
      VDict [("+1H", VDict [("original_price", original);
                            ("original_pct", original_pct);
                            ("stabilized_price", VInt 65180)])])].

Definition scenario_pending : pyval :=
  scenario_curve (VInt 65180) (VFloat 0.28) false (VInt 65200) (VFloat 0.31).

Definition scenario_realized : pyval :=
  scenario_curve (VInt 65170) (VFloat 0.26) true (VInt 65200) (VFloat 0.31).

(** The store after the pending and then the realized curve were recorded. *)
Definition scenario_store : database :=
  run_calls [(tick_clock "2025-06-01T13:55:0", scenario_pending);
             (tick_clock "2025-06-01T14:00:0", scenario_realized)]
    init_database.

(** A curve of two points of which the second has no original percent. *)
Definition two_point_curve : pyval :=
  VDict
    [("anchor_timestamp", VStr "2025-06-02T13:00:00Z");
     ("current_price", VInt 65000);
     ("curve",
      VList [VDict [("horizon", VStr "+1H"); ("target_price", VInt 65100);
                    ("pct_change", VFloat 0.15); ("is_actual", VBool false)];
             VDict [("horizon", VStr "+2H"); ("target_price", VInt 65300);
                    ("pct_change", VFloat 0.46); ("is_actual", VBool false)]]);
     ("original_predictions",
      VDict [("+1H", VDict [("original_price", VInt 65100);
                            ("original_pct", VFloat 0.15)]);
             ("+2H", VDict [("original_price", VInt 65300)])])].

(** The realized curve with the original prediction revised, with a
    falsy original prediction, and with other realized prices. *)
Definition scenario_revised : pyval :=
  scenario_curve (VInt 65170) (VFloat 0.26) true (VInt 65500) (VFloat 0.77).

Definition scenario_no_original : pyval :=
  scenario_curve (VInt 65170) (VFloat 0.26) true (VInt 0) (VFloat 0.31).

Definition scenario_zero_price : pyval :=
  scenario_curve (VInt 0) (VInt 0) true (VInt 65200) (VFloat 0.31).


End AccuracyStorageSpec.

Module V4CurveProviderSpec.
Import V4CurveProvider.

(** A sequence of appends to the ledger, each with its clock. *)
Definition store_all (appends : list (string * Curve)) (p : provider) : provider :=
  fold_left (fun p a => _store_curve_snapshot (fst a) (snd a) p) appends p.

(** The snapshots of a sequence of appends, in the order of the appends. *)
Definition snapshots_of (appends : list (string * Curve)) : list snapshot :=
  map (fun a => make_snapshot (fst a) (snd a)) appends.

(** The [k] most recent elements of a list, in their order. *)
Definition most_recent {A} (k : nat) (l : list A) : list A :=
  skipn (List.length l - k) l.

(** The timestamp of the [i]-th second of an hour; a point of the horizon
    +1H forecast at [65000 + i]; a curve with that one point. *)
Definition stamp (i : nat) : string :=
  "2025-06-01T13:" ++ NilEmpty.string_of_uint (Nat.to_uint i).

Definition sample_point (i : nat) (realized : bool) : curve_point :=
  {| horizon := "+1H";
     target_price := VInt (65000 + Z.of_nat i);
     pct_change := VInt 0; lower_90 := VInt 0; upper_90 := VInt 0;
     is_actual := VBool realized;
     original_price := VInt 65200; original_pct := VFloat 0.31;
     yesterday_price := VNone; stabilized_price := VNone;
     stabilized_timestamp := VNone |}.

Definition sample_curve (i : nat) (realized : bool) : Curve :=
  {| type := "v4_forward_curve"; timestamp := stamp i;
     generated_at := VNone;
     anchor_timestamp := VStr "2025-06-01T13:00:00Z";
     hours_elapsed := VInt (Z.of_nat i);
     current_price := VInt 65000; anchor_price := VInt 65000;
     direction := VStr "neutral"; regime := VStr "neutral";
     curve_quality := VInt 0;
     curve := [sample_point i realized];
     model := "V4.32"; has_yesterday := false; has_history := false |}.

Definition sample_appends (n : nat) : list (string * Curve) :=
  map (fun i => (stamp i, sample_curve i false)) (seq 0 n).

(** *** The words of the stabilization rule *)

(** A field of a document, with its default. *)
Definition field (v : pyval) (k : string) (default : pyval) : pyval :=
  match v with
  | VDict d => match assoc k d with Some x => x | None => default end
  | _ => default
  end.

(** The horizon is realized in the current curve; its current price. *)
Definition realized_now (current_curve : pyval) (h : string) : bool :=
  truthy (field (field current_curve h (VDict [])) "is_actual" (VBool false)).

Definition current_price_of (current_curve : pyval) (h : string) : pyval :=
  field (field current_curve h (VDict [])) "price" VNone.

(** The price of the horizon in a history entry in which it is pending:
    the entry has a point for the horizon (a dict that is not empty) and
    the point is not marked realized. *)
Definition pending_price (h : string) (entry : pyval) : option pyval :=
  let h_data := field (field entry "forward_curve" (VDict [])) h (VDict []) in
  if truthy h_data && negb (truthy (field h_data "is_actual" (VBool false)))
  then Some (field h_data "price" VNone)
  else None.

Definition pending_prices (h : string) (history : list pyval) : list pyval :=
  flat_map (fun e => match pending_price h e with Some p => [p] | None => [] end)
    history.

(** The price in the last entry in which the horizon was pending; null
    when there is none. *)
Definition last_pending_price (h : string) (history : list pyval) : pyval :=
  last (pending_prices h history) VNone.

(** The stabilized figure of a horizon, read as lines 125 and 140 do. *)
Definition stabilized_figure (stabilized : pyval) (h : string) : result pyval :=
  stab <~ py_get stabilized h (VDict []) ;;
  py_get stab "price" VNone.

(** The capture timestamp of an entry, and a history given oldest first. *)
Definition timestamp_of (entry : pyval) : string :=
  match field entry "timestamp" (VStr "") with
  | VStr s => s
  | _ => ""
  end.

Fixpoint oldest_first (history : list pyval) : bool :=
  match history with
  | a :: (b :: _) as rest =>
      negb (String.ltb (timestamp_of b) (timestamp_of a)) && oldest_first rest
  | _ => true
  end.

(** The shape of the documents of the upstream: dicts, the timestamp a
    string when present, the points of the horizons dicts when present. *)
Definition is_dict (v : pyval) : bool :=
  match v with VDict _ => true | _ => false end.

Definition is_str_val (v : pyval) : bool :=
  match v with VStr _ => true | _ => false end.

Definition curve_shape (forward_curve : pyval) : bool :=
  is_dict forward_curve &&
  forallb (fun h => is_dict (field forward_curve h (VDict []))) HORIZONS.

Definition entry_shape (entry : pyval) : bool :=
  is_dict entry &&
  is_str_val (field entry "timestamp" (VStr "")) &&
  curve_shape (field entry "forward_curve" (VDict [])).

(** The prices of a horizon in the snapshots of the ledger that hold it. *)
Definition ledger_prices (h : string) (history : list snapshot) : list pyval :=
  flat_map (fun s => match assoc h (predictions s) with
                     | Some pred => [price pred]
                     | None => []
                     end) history.

(** The scenario of the design document as the upstream history shows it:
    +1H forecast at 65150, then at 65180, then reported realized at 65170;
    and the current curve, with +1H realized and +2H pending. *)
Definition history_entry (ts : string) (price : Z) (realized : bool) : pyval :=
  VDict [("timestamp", VStr ts);
         ("forward_curve",
          VDict [("+1H", VDict [("price", VInt price);
                                ("is_actual", VBool realized)])])].

Definition scenario_history : list pyval :=
  [history_entry "2025-06-01T13:20:00" 65150 false;
   history_entry "2025-06-01T13:40:00" 65180 false;
   history_entry "2025-06-01T14:00:00" 65170 true].

Definition scenario_current : pyval :=
  VDict [("+1H", VDict [("price", VInt 65170); ("pct_change", VFloat 0.26);
                        ("is_actual", VBool true)]);
         ("+2H", VDict [("price", VInt 65310); ("pct_change", VFloat 0.48)])].

(** An optional request that gave nothing usable: it raised, or its status
    is not 200. *)
Definition unavailable (resp : response) : bool :=
  match resp with
  | Failed _ => true
  | Response status _ => negb (status =? 200)%Z
  end.

(** A body of the tracking endpoint: +1H realized at 65170, +2H pending. *)
Definition tracking_body : pyval :=
  VDict
    [("anchor_timestamp", VStr "2025-06-01T13:00:00Z");
     ("current_price", VInt 65000);
     ("hours_elapsed", VFloat 1.2);
     ("forward_curve",
      VDict [("+1H", VDict [("price", VInt 65170); ("pct_change", VFloat 0.26);
                            ("is_actual", VBool true)]);
             ("+2H", VDict [("price", VInt 65310); ("pct_change", VFloat 0.48)])]);
     ("original_predictions",
      VDict [("+1H", VDict [("original_price", VInt 65200);
                            ("original_pct", VFloat 0.31)])])].

(** The history with the sort key of each entry. *)
Definition keyed (history : list pyval) : list (sort_key * pyval) :=
  map (fun x => (KStr (timestamp_of x), x)) history.

(** The figure read from an entry of [stabilized], or from its absence. *)
Definition figure_of (o : option pyval) : result pyval :=
  py_get (match o with Some v => v | None => VDict [] end) "price" VNone.

(** What the rule gives for a horizon over a history that is not empty. *)
Definition ruled_figure (history : list pyval) (current : pyval) (h : string) : pyval :=
  if realized_now current h then last_pending_price h history
  else current_price_of current h.

End V4CurveProviderSpec.

(** ** The words of the further properties *)

Module V4TransformSpec.
Import V4CurveProvider V4CurveProviderSpec.

(** A document has the key. *)
Definition has_key (v : pyval) (k : string) : bool :=
  match v with
  | VDict d => match assoc k d with Some _ => true | None => false end
  | _ => false
  end.

(** The shape of a body of the tracking endpoint: a dict whose forward curve
    and original predictions, when present, are dicts of dicts. *)
Definition body_shape (data : pyval) : bool :=
  is_dict data &&
  curve_shape (field data "forward_curve" (VDict [])) &&
  curve_shape (field data "original_predictions" (VDict [])).

(** The prior-day body: left out, or a dict with a forward curve. *)
Definition yesterday_shape (y : pyval) : bool :=
  negb (truthy y) ||
  (is_dict y && curve_shape (field y "forward_curve" (VDict []))).

(** The history body: left out, or a list of entries, in any order. *)
Definition history_shape (history_data : pyval) : bool :=
  match history_data with
  | VNone => true
  | VList l => forallb entry_shape l
  | _ => false
  end.

Definition entries_of (history_data : pyval) : list pyval :=
  match history_data with VList l => l | _ => [] end.

(** The entries in the order of their timestamps, oldest first; entries of
    the same timestamp keep the order in which they are given. *)
Fixpoint insert_entry (e : pyval) (l : list pyval) : list pyval :=
  match l with
  | [] => [e]
  | x :: l' =>
      if String.ltb (timestamp_of x) (timestamp_of e)
      then x :: insert_entry e l'
      else e :: l
  end.

Definition by_timestamp (history : list pyval) : list pyval :=
  fold_right insert_entry [] history.

(** A list [sorted] that is [l] put oldest first, the entries of the same
    timestamp in the order of [l]. *)
Definition sorted_stably (l sorted : list pyval) : Prop :=
  Permutation l sorted /\ oldest_first sorted = true /\
  forall t, filter (fun e => String.eqb (timestamp_of e) t) sorted
            = filter (fun e => String.eqb (timestamp_of e) t) l.

(** The timestamps of the entries in which the horizon is pending. *)
Definition pending_stamps (h : string) (history : list pyval) : list pyval :=
  flat_map (fun e => match pending_price h e with
                     | Some _ => [field e "timestamp" VNone]
                     | None => []
                     end) history.

(** The entry of [stabilized] for a horizon, over a history that is not
    empty and is oldest first. *)
Definition stabilized_entry (history : list pyval) (current : pyval) (h : string)
  : option pyval :=
  if realized_now current h then
    if is_none (last_pending_price h history) then None
    else Some (VDict [("price", last_pending_price h history);
                      ("timestamp", List.last (pending_stamps h history) VNone)])
  else Some (VDict [("price", current_price_of current h); ("timestamp", VNone)]).

Definition stabilized_of (history_data current : pyval) (h : string) : pyval :=
  match entries_of history_data with
  | [] => VDict []
  | _ :: _ =>
      match stabilized_entry (by_timestamp (entries_of history_data)) current h with
      | Some v => v
      | None => VDict []
      end
  end.

(** The point that [_transform_response] builds for a horizon. *)
Definition expected_point (data yesterday_data history_data : pyval) (h : string)
  : curve_point :=
  let fc := field data "forward_curve" (VDict []) in
  let pt := field fc h (VDict []) in
  let orig := field (field data "original_predictions" (VDict [])) h (VDict []) in
  let yest :=
    field (if truthy yesterday_data
           then field yesterday_data "forward_curve" (VDict [])
           else VDict []) h (VDict []) in
  let stab := stabilized_of history_data fc h in
  {| horizon := h;
     target_price := field pt "price" (VInt 0);
     pct_change := field pt "pct_change" (VInt 0);
     lower_90 := field pt "lower_90" (VInt 0);
     upper_90 := field pt "upper_90" (VInt 0);
     is_actual := field pt "is_actual" (VBool false);
     original_price := field orig "original_price" VNone;
     original_pct := field orig "original_pct" VNone;
     yesterday_price := field yest "price" VNone;
     stabilized_price := field stab "price" VNone;
     stabilized_timestamp := field stab "timestamp" VNone |}.

(** The curve that [_transform_response] builds from well-shaped bodies. *)
Definition expected_curve (now : string) (data yesterday_data history_data : pyval)
  : Curve :=
  {| type := "v4_forward_curve"; timestamp := now;
     generated_at := field data "generated_at" VNone;
     anchor_timestamp := field data "anchor_timestamp" VNone;
     hours_elapsed := field data "hours_elapsed" (VInt 0);
     current_price := field data "current_price" (VInt 0);
     anchor_price := field data "current_price" (VInt 0);
     direction := field data "direction" (VStr "neutral");
     regime := field data "regime" (VStr "neutral");
     curve_quality := field data "curve_quality" (VInt 0);
     curve :=
       map (expected_point data yesterday_data history_data)
         (filter (has_key (field data "forward_curve" (VDict []))) HORIZONS);
     model := "V4.32";
     has_yesterday := negb (is_none yesterday_data);
     has_history :=
       match entries_of history_data with [] => false | _ :: _ => true end |}.

(** The decoded body of an optional response, as [fetch_curve] takes it,
    and an optional response that does not arrive undecodable. *)
Definition optional_body (resp : response) : pyval :=
  match resp with
  | Failed _ => VNone
  | Response status body =>
      if (status =? 200)%Z
      then match body with Some v => v | None => VNone end
      else VNone
  end.

Definition decodes (resp : response) : bool :=
  match resp with
  | Failed _ => true
  | Response status body =>
      if (status =? 200)%Z
      then match body with Some _ => true | None => false end
      else true
  end.

(** A keyed list in the order of its string keys. *)
Definition key_string (k : sort_key) : string :=
  match k with KStr s => s | _ => "" end.

Fixpoint keys_ordered {A} (l : list (sort_key * A)) : bool :=
  match l with
  | a :: (b :: _) as rest =>
      negb (String.ltb (key_string (fst b)) (key_string (fst a)))
      && keys_ordered rest
  | _ => true
  end.

Definition is_kstr (k : sort_key) : bool :=
  match k with KStr _ => true | _ => false end.

(** A keyed entry whose key is its timestamp. *)
Definition keyed_by_timestamp (p : sort_key * pyval) : Prop :=
  fst p = KStr (timestamp_of (snd p)).

End V4TransformSpec.

Module V4LedgerSpec.
Import V4CurveProvider V4CurveProviderSpec.

(** The entry of a snapshot for a pending point. *)
Definition prediction_of (pt : curve_point) : string * prediction :=
  (horizon pt, {| price := target_price pt;
                  pred_original_price := original_price pt |}).

Definition pending (pt : curve_point) : bool := negb (truthy (is_actual pt)).

(** A turn of the loop whose fetch gives a curve. *)
Definition fetched (turn : (nat -> string) * (response * response * response))
  : option Curve :=
  let '(now, (t, y, h)) := turn in
  match fetch_curve (now 0%nat) t y h with
  | Ok (Some c) => Some c
  | _ => None
  end.

Definition fetched_curves
    (turns : list ((nat -> string) * (response * response * response)))
  : list Curve :=
  flat_map (fun turn => match fetched turn with Some c => [c] | None => [] end)
    turns.

End V4LedgerSpec.

Module V5CurveProviderSpec.
Import V5CurveProvider.

(** The shape of a body of the V5 prediction endpoint: a dict whose
    forward curve, when present, is a dict of dicts. *)
Definition body_shape (data : pyval) : bool :=
  V4CurveProviderSpec.is_dict data &&
  V4CurveProviderSpec.is_dict (V4CurveProviderSpec.field data "forward_curve" (VDict [])) &&
  forallb (fun h =>
             V4CurveProviderSpec.is_dict
               (V4CurveProviderSpec.field
                  (V4CurveProviderSpec.field data "forward_curve" (VDict []))
                  h (VDict []))) HORIZONS.

(** A document has the key. *)
Definition has_key (v : pyval) (k : string) : bool :=
  match v with
  | VDict d => match assoc k d with Some _ => true | None => false end
  | _ => false
  end.

(** The point that the V5 [_transform_response] builds for a horizon. *)
Definition expected_point (data : pyval) (h : string) : curve_point :=
  let pt := V4CurveProviderSpec.field
              (V4CurveProviderSpec.field data "forward_curve" (VDict []))
              h (VDict []) in
  {| horizon := h;
     target_price := V4CurveProviderSpec.field pt "target_price" (VInt 0);
     pct_change := V4CurveProviderSpec.field pt "pct_change" (VInt 0);
     lower_90 := V4CurveProviderSpec.field pt "lower_90" (VInt 0);
     upper_90 := V4CurveProviderSpec.field pt "upper_90" (VInt 0) |}.

End V5CurveProviderSpec.

Module StoreInvariantSpec.
Import AccuracyStorage AccuracyStorageSpec.

(** A database with one table changed. *)
Definition with_anchors (t : list anchor_row) (db : database) : database :=
  {| daily_anchors := t; predictions := predictions db;
     accuracy_metrics := accuracy_metrics db |}.

Definition with_predictions (t : table prediction_row) (db : database) : database :=
  {| daily_anchors := daily_anchors db; predictions := t;
     accuracy_metrics := accuracy_metrics db |}.

Definition with_metrics (t : table metric_row) (db : database) : database :=
  {| daily_anchors := daily_anchors db; predictions := predictions db;
     accuracy_metrics := t |}.

Definition anchors_for (d : string) (db : database) : list anchor_row :=
  filter (a_key (SText d)) (daily_anchors db).

Definition has_anchor (d : string) (db : database) : bool :=
  existsb (a_key (SText d)) (daily_anchors db).

Definition has_prediction (d h : string) (db : database) : bool :=
  existsb (p_key (SText d) (SText h)) (rows (predictions db)).

Definition same_anchors (w w' : world) : Prop :=
  daily_anchors (working w') = daily_anchors (working w).

(** What a REAL column holds of a Python value that counts as true (not
    [None], not zero, not empty). *)
Definition bound_from_truthy (x : sqlval) : Prop :=
  exists v, truthy v = true /\ stored AReal v = Ok x.

(** The statements that the loop over the points of a call about the
    anchor date [ad] executes: the row of a prediction is replaced, or,
    where the row of the prediction is, the row of its metric. *)
Inductive point_write (ad : string) (db db' : database) : Prop :=
| write_prediction (h : string) (op opct sp spct ap apct at_ : sqlval)
    (t : table prediction_row) :
    bound_from_truthy op ->
    (ap = SNull /\ apct = SNull /\ at_ = SNull \/ exists s, at_ = SText s) ->
    replace_prediction (SText ad) (SText h) op opct sp spct ap apct at_
      (predictions db) = Ok t ->
    db' = with_predictions t db ->
    point_write ad db db'
| write_metric (h : string) (e : float) (se sa at_ : sqlval)
    (t : table metric_row) :
    has_prediction ad h db = true ->
    not_negative e ->
    (se = SNull /\ sa = SNull \/
     exists e', not_negative e' /\
                se = real_of e' /\ sa = real_of (100 - e')%float) ->
    replace_metric (SText ad) (SText h) (real_of e) se
      (real_of (100 - e)%float) sa at_ (accuracy_metrics db) = Ok t ->
    db' = with_metrics t db ->
    point_write ad db db'.

Definition point_writes (ad : string) : database -> database -> Prop :=
  clos_refl_trans database (point_write ad).

(** The world after a turn of the loop, seen from the world before. *)
Definition writes_of (ad : string) (w w' : world) : Prop :=
  point_writes ad (working w) (working w').

(** The row of [daily_anchors] that a call with the timestamp [s] writes. *)
Definition anchor_of (now : nat -> string) (curve_data : pyval) (s : string)
    (a : anchor_row) : Prop :=
  a_anchor_date a = SText (split_T s) /\
  anchor_timestamp a = SText s /\
  (exists v, py_get curve_data "current_price" (VInt 0) = Ok v /\
             stored AReal v = Ok (anchor_price a)) /\
  (exists v, py_get curve_data "regime" (VStr "UNKNOWN") = Ok v /\
             stored AText v = Ok (regime a)) /\
  (exists v, py_get curve_data "direction" (VStr "UNKNOWN") = Ok v /\
             stored AText v = Ok (direction a)) /\
  (exists v, py_get curve_data "curve_quality" (VInt 0) = Ok v /\
             stored AReal v = Ok (curve_quality a)) /\
  created_at a = SText (now 0%nat).

(** What holds of a row of [predictions]: the original price is what the
    column holds of a value that counts as true, neither it nor the
    original percent is null, and a row without a time of realization has
    no realized price. *)
Definition prediction_ok (r : prediction_row) : Prop :=
  bound_from_truthy (original_price r) /\
  original_price r <> SNull /\
  original_pct r <> SNull /\
  (actual_price r = SNull /\ actual_pct r = SNull /\ became_actual_at r = SNull \/
   exists s, became_actual_at r = SText s).

(** What holds of a row of [accuracy_metrics]: the original error is a
    double [e] that is a number and is not below zero, and the original
    accuracy is the double [100 - e], a number too; the stabilized error
    and accuracy are both null, or they are what the columns hold of a
    double [e'] that is not below zero and of the double [100 - e']. *)
Definition metric_ok (m : metric_row) : Prop :=
  exists e,
    is_nan e = false /\ is_nan (100 - e)%float = false /\
    not_negative e /\
    original_error_pct m = real_of e /\
    original_accuracy m = real_of (100 - e)%float /\
    calculated_at m <> SNull /\
    (stabilized_error_pct m = SNull /\ stabilized_accuracy m = SNull \/
     exists e', not_negative e' /\
                stabilized_error_pct m = real_of e' /\
                stabilized_accuracy m = real_of (100 - e')%float).

(** What holds of every store that calls of [store_v4_data] can reach from
    an empty one. *)
Record store_ok (db : database) : Prop := {
  ok_anchor_unique :
    forall d, (List.length (anchors_for d db) <= 1)%nat;
  ok_anchor_not_null :
    Forall (fun a => (exists d, a_anchor_date a = SText d) /\
                     anchor_timestamp a <> SNull /\ anchor_price a <> SNull /\
                     created_at a <> SNull) (daily_anchors db);
  ok_prediction_anchor :
    Forall (fun r => exists d h,
              p_anchor_date r = SText d /\ p_horizon r = SText h /\
              has_anchor d db = true) (rows (predictions db));
  ok_prediction_unique :
    forall d h, (List.length (rows_for d h db) <= 1)%nat;
  ok_prediction_values : Forall prediction_ok (rows (predictions db));
  ok_prediction_ids :
    Forall (fun r => (1 <= p_id r <= seq (predictions db))%nat)
      (rows (predictions db)) /\
    NoDup (map p_id (rows (predictions db)));
  ok_metric_prediction :
    Forall (fun m => exists d h,
              m_anchor_date m = SText d /\ m_horizon m = SText h /\
              has_prediction d h db = true) (rows (accuracy_metrics db));
  ok_metric_unique :
    forall d h, (List.length (metrics_for d h db) <= 1)%nat;
  ok_metric_ids :
    Forall (fun m => (1 <= m_id m <= seq (accuracy_metrics db))%nat)
      (rows (accuracy_metrics db)) /\
    NoDup (map m_id (rows (accuracy_metrics db)));
  ok_metric_values : Forall metric_ok (rows (accuracy_metrics db))
}.

(** A string without the letter T. *)
Fixpoint no_T (s : string) : bool :=
  match s with
  | EmptyString => true
  | String c s' => negb (Ascii.eqb c "T"%char) && no_T s'
  end.

End StoreInvariantSpec.

(** ** The accuracy store: proofs *)

Module AccuracyStorageFacts.
Import AccuracyStorage AccuracyStorageSpec.

(** *** Running statements *)

Lemma bind_run {A B} (m : M A) (k : A -> M B) w r w' :
  bind m k w = (r, w') ->
  (exists a w1, m w = (Ok a, w1) /\ k a w1 = (r, w')) \/
  (exists e, m w = (Raise e, w') /\ r = Raise e).
Proof.
  unfold bind. destruct (m w) as [[a|e] w1]; intro H.
  - left. eauto.
  - right. inversion H; subst. eauto.
Qed.

Lemma lift_run {A} (x : result A) w r w' :
  lift x w = (r, w') -> r = x /\ w' = w.
Proof. unfold lift. intro H. inversion H. auto. Qed.

Lemma ret_run {A} (a : A) w r w' :
  ret a w = (r, w') -> r = Ok a /\ w' = w.
Proof. unfold ret. intro H. inversion H. auto. Qed.

(** A relation between the worlds before and after a statement that holds
    for every statement of a block holds for the block. *)
Section Frame.
Variable R : world -> world -> Prop.
Hypothesis R_refl : forall w, R w w.
Hypothesis R_trans : forall w1 w2 w3, R w1 w2 -> R w2 w3 -> R w1 w3.

Lemma respects_ret {A} (a : A) : respects R (ret a).
Proof. intros w r w' H. apply ret_run in H. destruct H; subst. apply R_refl. Qed.

Lemma respects_lift {A} (x : result A) : respects R (lift x).
Proof. intros w r w' H. apply lift_run in H. destruct H; subst. apply R_refl. Qed.

Lemma respects_bind {A B} (m : M A) (k : A -> M B) :
  respects R m -> (forall a, respects R (k a)) -> respects R (bind m k).
Proof.
  intros Hm Hk w r w' H. apply bind_run in H.
  destruct H as [(a & w1 & H1 & H2) | (e & H1 & _)].
  - eapply R_trans; [eapply Hm | eapply Hk]; eauto.
  - eapply Hm; eauto.
Qed.

Lemma respects_for_each {A} (l : list A) (body : A -> M unit) :
  (forall x, In x l -> respects R (body x)) -> respects R (for_each l body).
Proof.
  induction l as [|x l IH]; intro Hb; simpl.
  - apply respects_ret.
  - apply respects_bind.
    + apply Hb. now left.
    + intros _. apply IH. intros y Hy. apply Hb. now right.
Qed.

Lemma respects_if {A} (c : bool) (m1 m2 : M A) :
  respects R m1 -> respects R m2 -> respects R (if c then m1 else m2).
Proof. destruct c; auto. Qed.

End Frame.

Lemma same_committed_refl w : same_committed w w.
Proof. reflexivity. Qed.

Lemma same_committed_trans w1 w2 w3 :
  same_committed w1 w2 -> same_committed w2 w3 -> same_committed w1 w3.
Proof. unfold same_committed. congruence. Qed.

Section StoreFrame.
Variable now : nat -> string.

Lemma read_clock_committed : respects same_committed (read_clock now).
Proof. intros w r w' H. unfold read_clock in H. inversion H. reflexivity. Qed.

Lemma update_working_committed f : respects same_committed (update_working f).
Proof.
  intros w r w' H. unfold update_working in H.
  destruct (f (working w)); inversion H; reflexivity.
Qed.

Ltac frame_committed :=
  repeat first
    [ exact same_committed_refl
    | exact same_committed_trans
    | apply respects_ret
    | apply respects_lift
    | apply read_clock_committed
    | apply update_working_committed
    | apply respects_if
    | apply respects_bind
    | match goal with |- forall _, respects _ _ => intro end ].

Lemma write_point_committed ad v : respects same_committed (write_point now ad v).
Proof.
  unfold write_point, store_metric, if_else_none, execute_insert_prediction,
    execute_insert_metric.
  frame_committed.
Qed.

Lemma store_point_committed ad preds pt :
  respects same_committed (store_point now ad preds pt).
Proof.
  unfold store_point. frame_committed.
  destruct a; [apply write_point_committed | frame_committed].
Qed.

Lemma store_writes_committed ad ts cd :
  respects same_committed (store_writes now ad ts cd).
Proof.
  unfold store_writes, execute_insert_anchor. frame_committed.
  apply respects_for_each;
    [apply same_committed_refl | apply same_committed_trans | ].
  intros. apply store_point_committed.
Qed.

End StoreFrame.

(** *** Rows and keys *)

Lemma sqlval_eqb_text v s : sqlval_eqb v (SText s) = true <-> v = SText s.
Proof.
  destruct v; simpl; split; intro H; try discriminate.
  - apply String.eqb_eq in H. now subst.
  - inversion H. apply String.eqb_refl.
Qed.

Lemma sqlval_eqb_text_sym v s : sqlval_eqb (SText s) v = sqlval_eqb v (SText s).
Proof. destruct v; simpl; auto. apply String.eqb_sym. Qed.

Lemma filter_none {A} (k g : A -> bool) l :
  (forall x, k x = true -> g x = false) -> filter k (filter g l) = [].
Proof.
  intro H. induction l as [|x l IH]; simpl; auto.
  destruct (g x) eqn:G; simpl; auto.
  destruct (k x) eqn:K; auto. rewrite (H _ K) in G. discriminate.
Qed.

Lemma filter_all {A} (k g : A -> bool) l :
  (forall x, k x = true -> g x = true) -> filter k (filter g l) = filter k l.
Proof.
  intro H. induction l as [|x l IH]; simpl; auto.
  destruct (g x) eqn:G; simpl.
  - destruct (k x); congruence.
  - destruct (k x) eqn:K; auto. rewrite (H _ K) in G. discriminate.
Qed.

(** [INSERT OR REPLACE], seen through the rows of one key. *)
Lemma filter_replace {A} (k k' : A -> bool) (l : list A) (r : A) :
  (forall x, k x = true -> k' x = k r) ->
  filter k (filter (fun x => negb (k' x)) l ++ [r]) =
  if k r then [r] else filter k l.
Proof.
  intro H. rewrite filter_app. simpl. destruct (k r) eqn:K.
  - rewrite filter_none; auto. intros x Hx. rewrite (H _ Hx). reflexivity.
  - rewrite filter_all, app_nil_r; auto. intros x Hx. rewrite (H _ Hx). reflexivity.
Qed.

Lemma filter_replace_same {A} (k : A -> bool) (l : list A) (r : A) :
  k r = true -> filter k (filter (fun x => negb (k x)) l ++ [r]) = [r].
Proof.
  intro H. rewrite filter_replace.
  - now rewrite H.
  - intros x Hx. now rewrite Hx, H.
Qed.

Lemma p_key_text d h x :
  p_key (SText d) (SText h) x = true ->
  p_anchor_date x = SText d /\ p_horizon x = SText h.
Proof.
  unfold p_key. intro H. apply andb_true_iff in H. destruct H as [H1 H2].
  apply sqlval_eqb_text in H1, H2. auto.
Qed.

Lemma m_key_text d h x :
  m_key (SText d) (SText h) x = true ->
  m_anchor_date x = SText d /\ m_horizon x = SText h.
Proof.
  unfold m_key. intro H. apply andb_true_iff in H. destruct H as [H1 H2].
  apply sqlval_eqb_text in H1, H2. auto.
Qed.

Lemma replace_prediction_rows d h d' h' op opct sp spct ap apct at_ t t' :
  replace_prediction d' h' op opct sp spct ap apct at_ t = Ok t' ->
  let r := {| p_id := S (seq t); p_anchor_date := d'; p_horizon := h';
              original_price := op; original_pct := opct;
              stabilized_price := sp; stabilized_pct := spct;
              actual_price := ap; actual_pct := apct;
              became_actual_at := at_ |} in
  filter (p_key (SText d) (SText h)) (rows t') =
  if p_key (SText d) (SText h) r then [r]
  else filter (p_key (SText d) (SText h)) (rows t).
Proof.
  unfold replace_prediction. destruct (any_null _); [discriminate|].
  intro H. inversion H; subst; clear H. simpl.
  apply filter_replace. intros x Hx. apply p_key_text in Hx. destruct Hx as [Hd Hh].
  unfold p_key. simpl. rewrite Hd, Hh, !sqlval_eqb_text_sym. reflexivity.
Qed.

Lemma replace_metric_rows d h d' h' oe se oa sa at_ t t' :
  replace_metric d' h' oe se oa sa at_ t = Ok t' ->
  let r := {| m_id := S (seq t); m_anchor_date := d'; m_horizon := h';
              original_error_pct := oe; stabilized_error_pct := se;
              original_accuracy := oa; stabilized_accuracy := sa;
              calculated_at := at_ |} in
  filter (m_key (SText d) (SText h)) (rows t') =
  if m_key (SText d) (SText h) r then [r]
  else filter (m_key (SText d) (SText h)) (rows t).
Proof.
  unfold replace_metric. destruct (any_null _); [discriminate|].
  intro H. inversion H; subst; clear H. simpl.
  apply filter_replace. intros x Hx. apply m_key_text in Hx. destruct Hx as [Hd Hh].
  unfold m_key. simpl. rewrite Hd, Hh, !sqlval_eqb_text_sym. reflexivity.
Qed.

Lemma map_result_ok {A B} (f : A -> result B) l ys :
  map_result f l = Ok ys -> Forall2 (fun x y => f x = Ok y) l ys.
Proof.
  revert ys. induction l as [|x l IH]; simpl; intros ys H.
  - inversion H. constructor.
  - destruct (f x) eqn:F; [|discriminate].
    destruct (map_result f l) eqn:Ml; [|discriminate].
    inversion H; subst. constructor; auto.
Qed.


(** *** What one statement does *)

Lemma execute_insert_prediction_run ps w r w' :
  execute_insert_prediction ps w = (r, w') ->
  (exists e, r = Raise e /\ w' = w) \/
  (r = Ok tt /\ exists vs t',
     bind_params ps = Ok vs /\
     replace_prediction
       (store_as AText (sql_nth 0 vs)) (store_as AText (sql_nth 1 vs))
       (store_as AReal (sql_nth 2 vs)) (store_as AReal (sql_nth 3 vs))
       (store_as AReal (sql_nth 4 vs)) (store_as AReal (sql_nth 5 vs))
       (store_as AReal (sql_nth 6 vs)) (store_as AReal (sql_nth 7 vs))
       (store_as AText (sql_nth 8 vs)) (predictions (working w)) = Ok t' /\
     predictions (working w') = t' /\
     accuracy_metrics (working w') = accuracy_metrics (working w) /\
     daily_anchors (working w') = daily_anchors (working w)).
Proof.
  unfold execute_insert_prediction. intro H. apply bind_run in H.
  destruct H as [(vs & w1 & H1 & H2) | (e & H1 & ->)].
  - apply lift_run in H1. destruct H1 as [H1 ->]. unfold update_working in H2.
    destruct (replace_prediction _ _ _ _ _ _ _ _ _ _) as [t'|e] eqn:E;
      inversion H2; subst; clear H2.
    + right. split; auto. exists vs, t'. simpl. auto.
    + left. eauto.
  - apply lift_run in H1. destruct H1 as [_ ->]. left. eauto.
Qed.

Lemma execute_insert_metric_run ps w r w' :
  execute_insert_metric ps w = (r, w') ->
  (exists e, r = Raise e /\ w' = w) \/
  (r = Ok tt /\ exists vs t',
     bind_params ps = Ok vs /\
     replace_metric
       (store_as AText (sql_nth 0 vs)) (store_as AText (sql_nth 1 vs))
       (store_as AReal (sql_nth 2 vs)) (store_as AReal (sql_nth 3 vs))
       (store_as AReal (sql_nth 4 vs)) (store_as AReal (sql_nth 5 vs))
       (store_as AText (sql_nth 6 vs)) (accuracy_metrics (working w)) = Ok t' /\
     accuracy_metrics (working w') = t' /\
     predictions (working w') = predictions (working w) /\
     daily_anchors (working w') = daily_anchors (working w)).
Proof.
  unfold execute_insert_metric. intro H. apply bind_run in H.
  destruct H as [(vs & w1 & H1 & H2) | (e & H1 & ->)].
  - apply lift_run in H1. destruct H1 as [H1 ->]. unfold update_working in H2.
    destruct (replace_metric _ _ _ _ _ _ _ _) as [t'|e] eqn:E;
      inversion H2; subst; clear H2.
    + right. split; auto. exists vs, t'. simpl. auto.
    + left. eauto.
  - apply lift_run in H1. destruct H1 as [_ ->]. left. eauto.
Qed.

Lemma read_clock_run now w r w' :
  read_clock now w = (r, w') ->
  r = Ok (VStr (now (ticks w))) /\ working w' = working w.
Proof. unfold read_clock. intro H. inversion H. auto. Qed.

Lemma read_clock_working now : respects same_working (read_clock now).
Proof. intros w r w' H. apply read_clock_run in H. apply H. Qed.

Lemma same_working_refl w : same_working w w.
Proof. reflexivity. Qed.

Lemma same_working_trans w1 w2 w3 :
  same_working w1 w2 -> same_working w2 w3 -> same_working w1 w3.
Proof. unfold same_working. congruence. Qed.

Lemma same_predictions_refl w : same_predictions w w.
Proof. reflexivity. Qed.

Lemma same_predictions_trans w1 w2 w3 :
  same_predictions w1 w2 -> same_predictions w2 w3 -> same_predictions w1 w3.
Proof. unfold same_predictions. congruence. Qed.

Lemma same_metrics_refl w : same_metrics w w.
Proof. reflexivity. Qed.

Lemma same_metrics_trans w1 w2 w3 :
  same_metrics w1 w2 -> same_metrics w2 w3 -> same_metrics w1 w3.
Proof. unfold same_metrics. congruence. Qed.

Lemma execute_insert_metric_predictions ps :
  respects same_predictions (execute_insert_metric ps).
Proof.
  intros w r w' H. apply execute_insert_metric_run in H.
  destruct H as [(e & _ & ->) | (_ & vs & t' & _ & _ & _ & H & _)].
  - reflexivity.
  - exact H.
Qed.

Lemma execute_insert_prediction_metrics ps :
  respects same_metrics (execute_insert_prediction ps).
Proof.
  intros w r w' H. apply execute_insert_prediction_run in H.
  destruct H as [(e & _ & ->) | (_ & vs & t' & _ & _ & _ & H & _)].
  - reflexivity.
  - exact H.
Qed.

Lemma read_clock_predictions now : respects same_predictions (read_clock now).
Proof.
  intros w r w' H. apply read_clock_run in H. unfold same_predictions.
  destruct H as [_ ->]. reflexivity.
Qed.

Lemma read_clock_metrics now : respects same_metrics (read_clock now).
Proof.
  intros w r w' H. apply read_clock_run in H. unfold same_metrics.
  destruct H as [_ ->]. reflexivity.
Qed.

Lemma store_metric_predictions now ad h tp op sp :
  respects same_predictions (store_metric now ad h tp op sp).
Proof.
  unfold store_metric.
  repeat first
    [ exact same_predictions_refl
    | exact same_predictions_trans
    | apply respects_ret
    | apply respects_lift
    | apply read_clock_predictions
    | apply execute_insert_metric_predictions
    | apply respects_if
    | apply respects_bind
    | match goal with |- forall _, respects _ _ => intro end ].
Qed.

Lemma if_else_none_run now c w r w' :
  if_else_none c (read_clock now) w = (r, w') ->
  working w' = working w /\
  exists t, r = Ok t /\
    (if c then exists k, t = VStr (now k) else t = VNone).
Proof.
  unfold if_else_none. destruct c; intro H.
  - apply read_clock_run in H. destruct H as [-> H]. split; eauto.
  - apply ret_run in H. destruct H as [-> ->]. split; eauto.
Qed.


Lemma to_sql_text v s : to_sql v = Ok (SText s) -> v = VStr s.
Proof.
  destruct v as [|b|z|f|s'| |]; simpl; intro H; try discriminate.
  - destruct (_ && _)%bool; discriminate.
  - destruct (is_nan f); discriminate.
  - now inversion H.
Qed.

Lemma bind_params_cons p ps vs :
  bind_params (p :: ps) = Ok vs ->
  exists v vs', vs = v :: vs' /\ to_sql p = Ok v /\ bind_params ps = Ok vs'.
Proof.
  unfold bind_params. simpl. destruct (to_sql p); [|discriminate].
  destruct (map_result to_sql ps); [|discriminate].
  intro H. inversion H. eauto.
Qed.

Lemma bind_params_nil vs : bind_params [] = Ok vs -> vs = [].
Proof. unfold bind_params. simpl. intro H. inversion H. reflexivity. Qed.

Ltac invert_params H :=
  repeat (let v := fresh "x" in let vs := fresh "xs" in
          let S := fresh "Hs" in
          apply bind_params_cons in H;
          destruct H as (v & vs & -> & S & H));
  apply bind_params_nil in H; rewrite H in *; clear H.

(** A point that has an original prediction has a string for horizon. *)
Lemma read_point_horizon preds pt v :
  read_point preds pt = Ok (Some v) -> truthy (v_original_price v) = true ->
  exists h, v_horizon v = VStr h.
Proof.
  unfold read_point. intros R T.
  destruct (py_get pt "horizon" VNone) as [hz|]; [|discriminate].
  destruct (negb (truthy hz)); [discriminate|].
  destruct (py_get pt "target_price" (VInt 0)); [|discriminate].
  destruct (py_get pt "pct_change" (VInt 0)); [|discriminate].
  destruct (py_get pt "is_actual" (VBool false)); [|discriminate].
  destruct (py_get_key preds hz (VDict [])) as [orig|] eqn:Eo; [|discriminate].
  destruct (py_get orig "original_price" VNone) as [p|] eqn:E1; [|discriminate].
  destruct (py_get orig "original_pct" VNone); [|discriminate].
  destruct (py_get orig "stabilized_price" VNone); [|discriminate].
  destruct (py_get orig "stabilized_pct" VNone); [|discriminate].
  inversion R; subst; clear R. simpl in *.
  destruct hz; eauto; destruct preds; simpl in Eo; try discriminate;
    inversion Eo; subst orig; simpl in E1; inversion E1; subst p; discriminate.
Qed.

Lemma stored_ok a v x : to_sql v = Ok x -> stored a v = Ok (store_as a x).
Proof. unfold stored. now intros ->. Qed.

(** One turn of the loop, seen through the rows of a key of [predictions]:
    they stay, or they are the one row written from the variables of the
    turn. *)
Lemma write_point_predictions now ad v w r w' d h :
  (truthy (v_original_price v) = true -> exists hs, v_horizon v = VStr hs) ->
  write_point now (VStr ad) v w = (r, w') ->
  rows_for d h (working w') = rows_for d h (working w) \/
  (d = ad /\ v_horizon v = VStr h /\ truthy (v_original_price v) = true /\
   exists row, rows_for d h (working w') = [row] /\ row_of_view now v row).
Proof.
  unfold write_point. destruct (truthy (v_original_price v)) eqn:T; intros Hh H.
  2:{ apply ret_run in H. destruct H as [_ ->]. now left. }
  destruct (Hh eq_refl) as (hs & Eh). clear Hh.
  apply bind_run in H. destruct H as [(t & w1 & H1 & H) | (e & H1 & _)].
  2:{ apply if_else_none_run in H1. destruct H1 as [H1 _].
      left. unfold rows_for. now rewrite H1. }
  apply if_else_none_run in H1. destruct H1 as [W1 (t0 & Et & Ht)].
  inversion Et; subst t0; clear Et.
  apply bind_run in H. destruct H as [(u & w2 & H2 & H) | (e & H2 & _)].
  2:{ apply execute_insert_prediction_run in H2.
      destruct H2 as [(e' & _ & ->) | (Habs & _)]; [|discriminate].
      left. unfold rows_for. now rewrite W1. }
  assert (P : predictions (working w') = predictions (working w2)).
  { destruct (truthy (v_is_actual v)).
    - eapply store_metric_predictions; eauto.
    - apply ret_run in H. destruct H as [_ ->]. reflexivity. }
  apply execute_insert_prediction_run in H2.
  destruct H2 as [(e' & Habs & _) | (_ & vs & t' & B & R & P2 & _)]; [discriminate|].
  invert_params B. unfold sql_nth in R. cbn [nth] in R.
  simpl in Hs. inversion Hs; subst x; clear Hs.
  rewrite Eh in Hs0. simpl in Hs0. inversion Hs0; subst x0; clear Hs0.
  change (store_as AText (SText ad)) with (SText ad) in R.
  change (store_as AText (SText hs)) with (SText hs) in R.
  apply (replace_prediction_rows d h) in R. cbv zeta in R.
  unfold rows_for. rewrite P, P2, R, W1.
  match goal with |- context [p_key _ _ ?row] => set (new := row) end.
  destruct (p_key (SText d) (SText h) new) eqn:K; [right|now left].
  apply p_key_text in K. cbn [new p_anchor_date p_horizon] in K.
  destruct K as [Kd Kh]. inversion Kd; subst d. inversion Kh; subst hs.
  split; [reflexivity|]. split; [exact Eh|]. split; [reflexivity|].
  exists new. split; [reflexivity|].
  unfold row_of_view.
  cbn [new original_price original_pct stabilized_price stabilized_pct
         actual_price actual_pct became_actual_at].
  repeat (split; [now apply stored_ok|]).
  destruct (truthy (v_is_actual v)).
  - destruct Ht as (k & ->). simpl in Hs7. inversion Hs7. simpl. eauto.
  - subst t. simpl in Hs7. inversion Hs7. reflexivity.
Qed.


Ltac lift_step H x E :=
  apply bind_run in H;
  let w1 := fresh "w" in let e := fresh "e" in let H1 := fresh "H" in
  destruct H as [(x & w1 & H1 & H) | (e & H1 & _)];
  [ apply lift_run in H1; destruct H1 as [E ->]
  | apply lift_run in H1; destruct H1 as [_ ->]; left;
    first [reflexivity | split; reflexivity] ].

(** *** The arithmetic of the metric *)

Lemma float_of_100 : to_float (NInt 100) = Ok 100%float.
Proof. vm_compute. reflexivity. Qed.

(** A quotient is a float. *)
Lemma num_truediv_float a b n : num_truediv a b = Ok n -> exists f, n = NFloat f.
Proof.
  unfold num_truediv. intro H.
  destruct a as [x|x], b as [y|y];
    try (destruct (int_true_div x y); inversion H; eauto; fail);
    repeat match type of H with
           | match ?c with _ => _ end = _ => destruct c; try discriminate
           | (if ?c then _ else _) = _ => destruct c; try discriminate
           end; inversion H; eauto.
Qed.

(** An error in percent is a float, and the accuracy is 100 less it, on
    the doubles. *)
Lemma error_pct_float tp p n :
  error_pct tp p = Ok n ->
  exists e, n = NFloat e /\ accuracy tp p = Ok (NFloat (100 - e)).
Proof.
  unfold accuracy. intro H. rewrite H. unfold error_pct, rbind in H.
  destruct (num_sub tp p) as [d|]; [|discriminate].
  destruct (num_truediv (num_abs d) tp) as [q|] eqn:Q; [|discriminate].
  apply num_truediv_float in Q. destruct Q as (f & ->).
  unfold num_mul in H. rewrite float_of_100 in H. simpl in H.
  inversion H; subst n. exists (f * 100)%float. split; [reflexivity|].
  unfold rbind, num_sub. rewrite float_of_100. reflexivity.
Qed.

(** *** The sign of the error *)

Lemma sign_round_aux mz ez lz : sign_clear (binary_round_aux prec emax false mz ez lz).
Proof.
  unfold binary_round_aux.
  destruct (shr_fexp prec emax mz ez lz) as [mrs' e'].
  destruct (shr_fexp prec emax _ e' loc_Exact) as [mrs'' e''].
  destruct (shr_m mrs''); simpl; auto.
  destruct (Z.leb e'' _); reflexivity.
Qed.

Lemma sign_round m e : sign_clear (binary_round prec emax false m e).
Proof.
  unfold binary_round. destruct (shl_align _ _ _) as [mz ez]. apply sign_round_aux.
Qed.

Lemma sign_normalize z e : (0 <= z)%Z -> sign_clear (binary_normalize prec emax z e false).
Proof.
  intro H. destruct z; simpl; auto; [apply sign_round | lia].
Qed.

Lemma sign_SF2Prim x : sign_clear x -> sign_clear (Prim2SF (SF2Prim x)).
Proof.
  destruct x as [s|s| |s m e]; cbn [sign_clear SF2Prim]; intro H; subst;
    try exact I.
  - reflexivity.
  - reflexivity.
  - rewrite Z_ldexp_spec, FloatAxioms.of_uint63_spec.
    pose proof (Uint63.to_Z_bounded (Uint63.of_Z (Zpos m))) as B.
    pose proof (sign_normalize (Uint63.to_Z (Uint63.of_Z (Zpos m))) 0 (proj1 B)) as N.
    revert N. generalize (binary_normalize prec emax (Uint63.to_Z (Uint63.of_Z (Zpos m))) 0 false).
    intros [s|s| |s m' e'] N; cbn [SFldexp sign_clear] in *; auto.
    subst s. apply sign_round.
Qed.

Lemma sign_abs f : sign_clear (Prim2SF (abs f)).
Proof. rewrite FloatAxioms.abs_spec. destruct (Prim2SF f); simpl; auto. Qed.

Lemma sign_div x y :
  sign_clear (Prim2SF x) -> sign_clear (Prim2SF y) -> sign_clear (Prim2SF (PrimFloat.div x y)).
Proof.
  rewrite FloatAxioms.div_spec. unfold SF64div.
  destruct (Prim2SF x) as [sx|sx| |sx mx ex], (Prim2SF y) as [sy|sy| |sy my ey];
    simpl; intros Hx Hy; subst; auto.
  destruct (SFdiv_core_binary _ _ _ _ _ _) as [[mz ez] lz]. apply sign_round_aux.
Qed.

Lemma sign_mul x y :
  sign_clear (Prim2SF x) -> sign_clear (Prim2SF y) -> sign_clear (Prim2SF (PrimFloat.mul x y)).
Proof.
  rewrite FloatAxioms.mul_spec. unfold SF64mul.
  destruct (Prim2SF x) as [sx|sx| |sx mx ex], (Prim2SF y) as [sy|sy| |sy my ey];
    simpl; intros Hx Hy; subst; auto.
  apply sign_round_aux.
Qed.

Lemma sign_not_negative f : sign_clear (Prim2SF f) -> PrimFloat.ltb f 0 = false.
Proof.
  rewrite FloatAxioms.ltb_spec. change (Prim2SF 0) with (S754_zero false).
  destruct (Prim2SF f) as [s|s| |s m e]; simpl; intro H; subst; reflexivity.
Qed.

Lemma sign_num_abs n : num_sign_clear (num_abs n).
Proof. destruct n; simpl; [apply Z.abs_nonneg | apply sign_abs]. Qed.

Lemma sign_positive n : num_ltb (NInt 0) n = true -> num_sign_clear n.
Proof.
  destruct n as [z|f]; simpl; intro H.
  - apply Z.ltb_lt in H. lia.
  - unfold int_ltb_float in H.
    destruct (Prim2SF f) as [s|s| |s m e]; simpl; try discriminate.
    + now destruct s.
    + destruct s; [|reflexivity]. exfalso.
      destruct e as [|p|p]; apply Z.ltb_lt in H.
      * lia.
      * pose proof (Z.pow_pos_nonneg 2 (Z.pos p)). nia.
      * lia.
Qed.

Lemma sign_to_float n f :
  num_sign_clear n -> to_float n = Ok f -> sign_clear (Prim2SF f).
Proof.
  destruct n as [z|x]; simpl; intros H E.
  - unfold float_of_int in E. destruct (is_infinity _); [discriminate|].
    inversion E. apply sign_SF2Prim. now apply sign_normalize.
  - now inversion E; subst.
Qed.

Lemma sign_int_true_div x y f :
  (0 <= x)%Z -> (0 <= y)%Z -> int_true_div x y = Ok f -> sign_clear (Prim2SF f).
Proof.
  intros Hx Hy. unfold int_true_div.
  destruct (y =? 0)%Z; [discriminate|].
  replace (x <? 0)%Z with false by (symmetry; apply Z.ltb_ge; lia).
  replace (y <? 0)%Z with false by (symmetry; apply Z.ltb_ge; lia).
  cbn [xorb]. destruct (x =? 0)%Z.
  - intro E. inversion E. reflexivity.
  - destruct (SFdiv_core_binary _ _ _ _ _ _) as [[mz ez] lz].
    destruct (is_infinity _); [discriminate|].
    intro E. inversion E. apply sign_SF2Prim, sign_round_aux.
Qed.

Lemma sign_truediv a b q :
  num_sign_clear a -> num_sign_clear b ->
  num_truediv a b = Ok (NFloat q) -> sign_clear (Prim2SF q).
Proof.
  intros Ha Hb. unfold num_truediv.
  assert (G : forall x y,
    to_float a = Ok x -> to_float b = Ok y ->
    (if num_is_zero b then Raise ZeroDivisionError
     else Ok (NFloat (PrimFloat.div x y))) = Ok (NFloat q) ->
    sign_clear (Prim2SF q)).
  { intros x y Ex Ey E. destruct (num_is_zero b); [discriminate|].
    inversion E. apply sign_div; eauto using sign_to_float. }
  destruct a as [x|x], b as [y|y].
  - destruct (int_true_div x y) as [f|] eqn:E; [|discriminate].
    intro Q. inversion Q; subst. exact (sign_int_true_div x y q Ha Hb E).
  - destruct (to_float (NInt x)) eqn:Ex; [|discriminate].
    destruct (to_float (NFloat y)) eqn:Ey; [|discriminate]. now apply G.
  - destruct (to_float (NFloat x)) eqn:Ex; [|discriminate].
    destruct (to_float (NInt y)) eqn:Ey; [|discriminate]. now apply G.
  - destruct (to_float (NFloat x)) eqn:Ex; [|discriminate].
    destruct (to_float (NFloat y)) eqn:Ey; [|discriminate]. now apply G.
Qed.

(** The error in percent against a positive price is not below zero. *)
Lemma error_pct_not_negative tp p e :
  num_ltb (NInt 0) tp = true -> error_pct tp p = Ok (NFloat e) -> not_negative e.
Proof.
  intros G H. unfold error_pct, rbind in H.
  destruct (num_sub tp p) as [d|]; [|discriminate].
  destruct (num_truediv (num_abs d) tp) as [q|] eqn:Q; [|discriminate].
  destruct (num_truediv_float _ _ _ Q) as (f & ->).
  apply sign_truediv in Q; [|apply sign_num_abs|now apply sign_positive].
  unfold num_mul in H. rewrite float_of_100 in H. simpl in H.
  inversion H. apply sign_not_negative, sign_mul; [exact Q|reflexivity].
Qed.

(** Lines 163-165: the error and the accuracy that the code computes are
    those of the formula. *)
Lemma error_and_accuracy_run tpv pv w :
  error_and_accuracy tpv pv w =
  (tp <~ as_num tpv ;; p <~ as_num pv ;; e <~ error_pct tp p ;;
   a <~ num_sub (NInt 100) e ;; Ok (num_val e, num_val a), w).
Proof.
  unfold error_and_accuracy, error_pct, bind, lift, ret, rbind.
  destruct (as_num tpv) as [tp|]; [|reflexivity].
  destruct (as_num pv) as [p|]; [|reflexivity].
  destruct (num_sub tp p) as [d|]; [|reflexivity].
  destruct (num_truediv (num_abs d) tp) as [q|]; [|reflexivity].
  destruct (num_mul q (NInt 100)) as [e|]; [|reflexivity].
  destruct (num_sub (NInt 100) e); reflexivity.
Qed.

Lemma error_and_accuracy_ok tpv pv w x w' :
  error_and_accuracy tpv pv w = (Ok x, w') ->
  w' = w /\ exists tp p e,
    as_num tpv = Ok tp /\ as_num pv = Ok p /\ error_pct tp p = Ok (NFloat e) /\
    x = (VFloat e, VFloat (100 - e)).
Proof.
  rewrite error_and_accuracy_run. unfold rbind. intro H.
  destruct (as_num tpv) as [tp|]; [|discriminate].
  destruct (as_num pv) as [p|]; [|discriminate].
  destruct (error_pct tp p) as [n|] eqn:E; [|discriminate].
  destruct (error_pct_float _ _ _ E) as (e & -> & A).
  unfold accuracy in A. rewrite E in A. unfold rbind in A. rewrite A in H.
  inversion H. split; [reflexivity|]. exists tp, p, e. auto.
Qed.

Lemma error_and_accuracy_raise {tpv pv w e w'} :
  error_and_accuracy tpv pv w = (Raise e, w') -> w' = w.
Proof. rewrite error_and_accuracy_run. intro H. now inversion H. Qed.

Lemma stored_float f : stored AReal (VFloat f) = Ok (real_of f).
Proof. reflexivity. Qed.

Lemma holds_float e r : r = Ok (NFloat e) -> holds (real_of e) r.
Proof. intros ->. exists (NFloat e). split; reflexivity. Qed.

(** Lines 162-187 leave [accuracy_metrics] as it is, or write the one row
    of the formula. *)
Lemma store_metric_run now ad hz tpv opv spv w r w' :
  store_metric now (VStr ad) hz tpv opv spv w = (r, w') ->
  (accuracy_metrics (working w') = accuracy_metrics (working w) /\
   (r = Ok tt -> py_positive tpv = Ok false)) \/
  exists tp op e xh se sa k t',
    as_num tpv = Ok tp /\ num_ltb (NInt 0) tp = true /\ as_num opv = Ok op /\
    error_pct tp op = Ok (NFloat e) /\
    to_sql hz = Ok xh /\
    replace_metric (SText ad) (store_as AText xh) (real_of e) se
      (real_of (100 - e)) sa (SText (now k))
      (accuracy_metrics (working w)) = Ok t' /\
    accuracy_metrics (working w') = t' /\
    (if truthy spv
     then exists sp e', as_num spv = Ok sp /\
            error_pct tp sp = Ok (NFloat e') /\
            se = real_of e' /\ sa = real_of (100 - e')
     else se = SNull /\ sa = SNull).
Proof.
  unfold store_metric. intro H.
  apply bind_run in H.
  destruct H as [(pos & w0 & H0 & H) | (e & H0 & ->)].
  2:{ apply lift_run in H0. destruct H0 as [_ ->]. left. split; [reflexivity|discriminate]. }
  apply lift_run in H0. destruct H0 as [Epos ->].
  assert (Epos' := Epos). unfold py_positive in Epos.
  destruct (as_num tpv) as [tp|] eqn:Etp; [|discriminate].
  assert (pos = num_ltb (NInt 0) tp) by congruence. subst pos. clear Epos.
  destruct (num_ltb (NInt 0) tp) eqn:G.
  2:{ apply ret_run in H. destruct H as [_ ->]. left. split; [reflexivity|]. now intros _. }
  clear Epos'.
  apply bind_run in H.
  destruct H as [(orig & w1 & H1 & H) | (e & H1 & ->)].
  2:{ apply error_and_accuracy_raise in H1. subst. left. split; [reflexivity|discriminate]. }
  apply error_and_accuracy_ok in H1.
  destruct H1 as (-> & tp' & op & e & Etp' & Eop & Ee & ->).
  rewrite Etp in Etp'. inversion Etp'; subst tp'; clear Etp'.
  apply bind_run in H.
  destruct H as [(stab & w1 & H1 & H) | (e1 & H1 & ->)].
  2:{ destruct (truthy spv).
      - apply error_and_accuracy_raise in H1. subst.
        left. split; [reflexivity|discriminate].
      - apply ret_run in H1. destruct H1; discriminate. }
  assert (S1 : w1 = w /\
     (if truthy spv
      then exists sp e', as_num spv = Ok sp /\
             error_pct tp sp = Ok (NFloat e') /\
             stab = (VFloat e', VFloat (100 - e'))
      else stab = (VNone, VNone))).
  { destruct (truthy spv).
    - apply error_and_accuracy_ok in H1.
      destruct H1 as (-> & tp' & sp & e' & Etp' & Esp & Ee' & ->).
      rewrite Etp in Etp'. inversion Etp'; subst tp'. split; eauto.
    - apply ret_run in H1. destruct H1 as [E1 ->]. inversion E1. auto. }
  destruct S1 as [-> Hstab]. clear H1.
  apply bind_run in H.
  destruct H as [(t & w2 & H2 & H) | (e1 & H2 & _)].
  2:{ apply read_clock_run in H2. destruct H2 as [H2 _]. discriminate. }
  apply read_clock_run in H2. destruct H2 as [Et W2].
  apply execute_insert_metric_run in H.
  destruct H as [(e1 & -> & ->) | (_ & vs & t' & B & R & A & _)].
  { left. split; [now rewrite W2|discriminate]. }
  right. invert_params B. unfold sql_nth in R. cbn [nth] in R.
  simpl in Hs. inversion Hs; subst x; clear Hs.
  cbn [fst snd] in Hs1, Hs2, Hs3, Hs4.
  apply (stored_ok AReal) in Hs1, Hs3. rewrite stored_float in Hs1, Hs3.
  assert (E1 : store_as AReal x1 = real_of e) by congruence.
  assert (E3 : store_as AReal x3 = real_of (100 - e)) by congruence.
  rewrite E1, E3 in R.
  inversion Et; subst t. simpl in Hs5. inversion Hs5; subst x5.
  change (store_as AText (SText ad)) with (SText ad) in R.
  change (store_as AText (SText (now (ticks w)))) with (SText (now (ticks w))) in R.
  rewrite W2 in R.
  exists tp, op, e, x0, (store_as AReal x2), (store_as AReal x4), (ticks w), t'.
  repeat (split; [first [assumption | exact G | reflexivity]|]).
  destruct (truthy spv).
  - destruct Hstab as (sp & e' & Esp & Ee' & ->). cbn [fst snd] in Hs2, Hs4.
    apply (stored_ok AReal) in Hs2, Hs4. rewrite stored_float in Hs2, Hs4.
    exists sp, e'. repeat split; auto; congruence.
  - subst stab. simpl in Hs2, Hs4. inversion Hs2. inversion Hs4. auto.
Qed.


(** One turn of the loop, seen through the rows of a key of
    [accuracy_metrics]. *)
Lemma write_point_metrics now ad v w r w' d h :
  (truthy (v_original_price v) = true -> exists hs, v_horizon v = VStr hs) ->
  write_point now (VStr ad) v w = (r, w') ->
  metrics_for d h (working w') = metrics_for d h (working w) \/
  (d = ad /\ v_horizon v = VStr h /\ truthy (v_original_price v) = true /\
   truthy (v_is_actual v) = true /\
   exists m, metrics_for d h (working w') = [m] /\ metric_of_view v m).
Proof.
  unfold write_point. destruct (truthy (v_original_price v)) eqn:T; intros Hh H.
  2:{ apply ret_run in H. destruct H as [_ ->]. now left. }
  destruct (Hh eq_refl) as (hs & Eh). clear Hh.
  apply bind_run in H. destruct H as [(t & w1 & H1 & H) | (e & H1 & _)].
  2:{ apply if_else_none_run in H1. destruct H1 as [H1 _].
      left. unfold metrics_for. now rewrite H1. }
  apply if_else_none_run in H1. destruct H1 as [W1 _].
  apply bind_run in H. destruct H as [(u & w2 & H2 & H) | (e & H2 & _)].
  2:{ apply execute_insert_prediction_metrics in H2.
      left. unfold metrics_for. rewrite H2, W1. reflexivity. }
  apply execute_insert_prediction_metrics in H2. unfold same_metrics in H2.
  destruct (truthy (v_is_actual v)) eqn:A.
  2:{ apply ret_run in H. destruct H as [_ ->].
      left. unfold metrics_for. rewrite H2, W1. reflexivity. }
  apply store_metric_run in H.
  destruct H as [[H _] | (tp & op & e & xh & se & sa & k & t' &
                          Etp & G & Eop & Ee & Exh & R & M & St)].
  { left. unfold metrics_for. rewrite H, H2, W1. reflexivity. }
  rewrite Eh in Exh. simpl in Exh. inversion Exh; subst xh; clear Exh.
  change (store_as AText (SText hs)) with (SText hs) in R.
  apply (replace_metric_rows d h) in R. cbv zeta in R.
  unfold metrics_for. rewrite M, R, H2, W1.
  match goal with |- context [m_key _ _ ?row] => set (new := row) end.
  destruct (m_key (SText d) (SText h) new) eqn:K; [right|now left].
  apply m_key_text in K. cbn [new m_anchor_date m_horizon] in K.
  destruct K as [Kd Kh]. inversion Kd; subst d. inversion Kh; subst hs.
  split; [reflexivity|]. split; [exact Eh|]. split; [reflexivity|].
  split; [reflexivity|]. exists new. split; [reflexivity|].
  exists tp, op.
  cbn [new original_error_pct original_accuracy stabilized_error_pct
         stabilized_accuracy].
  split; [exact Etp|]. split; [exact G|]. split; [exact Eop|].
  destruct (error_pct_float _ _ _ Ee) as (e0 & E0 & Ea). inversion E0; subst e0.
  split; [now apply holds_float|]. split; [now apply holds_float|].
  destruct (truthy (v_stabilized_price v)).
  - destruct St as (sp & e' & Esp & Ee' & -> & ->). exists sp.
    destruct (error_pct_float _ _ _ Ee') as (e0 & E0' & Ea'). inversion E0'; subst e0.
    split; [exact Esp|]. split; now apply holds_float.
  - destruct St as [-> ->]. auto.
Qed.

Lemma read_point_cases now ad preds pt w r w' :
  store_point now ad preds pt w = (r, w') ->
  w' = w \/ exists v, read_point preds pt = Ok (Some v) /\
                      write_point now ad v w = (r, w').
Proof.
  unfold store_point. intro H. apply bind_run in H.
  destruct H as [(o & w1 & H1 & H) | (e & H1 & _)].
  - apply lift_run in H1. destruct H1 as [E ->]. destruct o as [v|].
    + right. eauto.
    + apply ret_run in H. destruct H as [_ ->]. now left.
  - apply lift_run in H1. destruct H1 as [_ ->]. now left.
Qed.

(** The loop over the points, seen through the rows of a key. *)
Lemma for_each_predictions now ad preds pts : forall w r w' d h,
  for_each pts (store_point now (VStr ad) preds) w = (r, w') ->
  rows_for d h (working w') = rows_for d h (working w) \/
  (d = ad /\ exists pt v row,
     In pt pts /\ read_point preds pt = Ok (Some v) /\
     v_horizon v = VStr h /\ truthy (v_original_price v) = true /\
     rows_for d h (working w') = [row] /\ row_of_view now v row).
Proof.
  induction pts as [|pt pts IH]; intros w r w' d h H.
  - apply ret_run in H. destruct H as [_ ->]. now left.
  - simpl in H. apply bind_run in H.
    assert (P : forall r1 w1, store_point now (VStr ad) preds pt w = (r1, w1) ->
      rows_for d h (working w1) = rows_for d h (working w) \/
      (d = ad /\ exists v row, read_point preds pt = Ok (Some v) /\
         v_horizon v = VStr h /\ truthy (v_original_price v) = true /\
         rows_for d h (working w1) = [row] /\ row_of_view now v row)).
    { intros r1 w1 H1. apply read_point_cases in H1.
      destruct H1 as [-> | (v & Ev & H1)]; [now left|].
      apply (write_point_predictions now ad v w r1 w1 d h) in H1;
        [|now apply (read_point_horizon preds pt)].
      destruct H1 as [H1 | (-> & Hh & T & row & H1 & Hrow)]; [now left|].
      right. split; auto. exists v, row. auto 10. }
    destruct H as [(u & w1 & H1 & H) | (e & H1 & _)].
    + apply (IH w1 r w' d h) in H.
      destruct H as [H | (-> & pt' & v & row & Hin & Hrest)].
      * rewrite H. apply P in H1.
        destruct H1 as [H1 | (-> & v & row & Hrest)]; [now left|].
        right. split; auto. exists pt, v, row. split; [now left|]. exact Hrest.
      * right. split; auto. exists pt', v, row. split; [now right|]. exact Hrest.
    + apply P in H1. destruct H1 as [H1 | (-> & v & row & Hrest)]; [now left|].
      right. split; auto. exists pt, v, row. split; [now left|]. exact Hrest.
Qed.

Lemma for_each_metrics now ad preds pts : forall w r w' d h,
  for_each pts (store_point now (VStr ad) preds) w = (r, w') ->
  metrics_for d h (working w') = metrics_for d h (working w) \/
  (d = ad /\ exists pt v m,
     In pt pts /\ read_point preds pt = Ok (Some v) /\
     v_horizon v = VStr h /\ truthy (v_original_price v) = true /\
     truthy (v_is_actual v) = true /\
     metrics_for d h (working w') = [m] /\ metric_of_view v m).
Proof.
  induction pts as [|pt pts IH]; intros w r w' d h H.
  - apply ret_run in H. destruct H as [_ ->]. now left.
  - simpl in H. apply bind_run in H.
    assert (P : forall r1 w1, store_point now (VStr ad) preds pt w = (r1, w1) ->
      metrics_for d h (working w1) = metrics_for d h (working w) \/
      (d = ad /\ exists v m, read_point preds pt = Ok (Some v) /\
         v_horizon v = VStr h /\ truthy (v_original_price v) = true /\
         truthy (v_is_actual v) = true /\
         metrics_for d h (working w1) = [m] /\ metric_of_view v m)).
    { intros r1 w1 H1. apply read_point_cases in H1.
      destruct H1 as [-> | (v & Ev & H1)]; [now left|].
      apply (write_point_metrics now ad v w r1 w1 d h) in H1;
        [|now apply (read_point_horizon preds pt)].
      destruct H1 as [H1 | (-> & Hh & T & A & m & H1 & Hm)]; [now left|].
      right. split; auto. exists v, m. auto 10. }
    destruct H as [(u & w1 & H1 & H) | (e & H1 & _)].
    + apply (IH w1 r w' d h) in H.
      destruct H as [H | (-> & pt' & v & m & Hin & Hrest)].
      * rewrite H. apply P in H1.
        destruct H1 as [H1 | (-> & v & m & Hrest)]; [now left|].
        right. split; auto. exists pt, v, m. split; [now left|]. exact Hrest.
      * right. split; auto. exists pt', v, m. split; [now right|]. exact Hrest.
    + apply P in H1. destruct H1 as [H1 | (-> & v & m & Hrest)]; [now left|].
      right. split; auto. exists pt, v, m. split; [now left|]. exact Hrest.
Qed.


(** *** A whole call *)

Lemma execute_insert_anchor_run ps w r w' :
  execute_insert_anchor ps w = (r, w') ->
  predictions (working w') = predictions (working w) /\
  accuracy_metrics (working w') = accuracy_metrics (working w).
Proof.
  unfold execute_insert_anchor. intro H. apply bind_run in H.
  destruct H as [(vs & w1 & H1 & H2) | (e & H1 & ->)].
  - apply lift_run in H1. destruct H1 as [H1 ->]. unfold update_working in H2.
    destruct (replace_anchor _ _); inversion H2; subst; simpl; auto.
  - apply lift_run in H1. destruct H1 as [_ ->]. auto.
Qed.

(** The statements of a call, up to the loop. *)
Lemma store_writes_run now ad ts cd w r w' :
  store_writes now ad ts cd w = (r, w') ->
  (predictions (working w') = predictions (working w) /\
   accuracy_metrics (working w') = accuracy_metrics (working w)) \/
  exists preds pts w1,
    py_get cd "original_predictions" (VDict []) = Ok preds /\
    points_of cd = Ok pts /\
    predictions (working w1) = predictions (working w) /\
    accuracy_metrics (working w1) = accuracy_metrics (working w) /\
    for_each pts (store_point now ad preds) w1 = (r, w').
Proof.
  unfold store_writes. intro H.
  lift_step H cp E1. lift_step H rg E2. lift_step H dir E3. lift_step H cq E4.
  apply bind_run in H. destruct H as [(t & w1 & H1 & H) | (e & H1 & _)].
  2:{ apply read_clock_run in H1. destruct H1 as [_ ->]. auto. }
  apply read_clock_run in H1. destruct H1 as [_ W1].
  apply bind_run in H. destruct H as [(u & w2 & H2 & H) | (e & H2 & _)].
  2:{ apply execute_insert_anchor_run in H2. rewrite W1 in H2. auto. }
  apply execute_insert_anchor_run in H2. rewrite W1 in H2. destruct H2 as [P2 M2].
  apply bind_run in H. destruct H as [(pts & w3 & H3 & H) | (e & H3 & _)].
  2:{ apply lift_run in H3. destruct H3 as [_ ->]. auto. }
  apply lift_run in H3. destruct H3 as [E5 ->].
  apply bind_run in H. destruct H as [(preds & w4 & H4 & H) | (e & H4 & _)].
  2:{ apply lift_run in H4. destruct H4 as [_ ->]. auto. }
  apply lift_run in H4. destruct H4 as [E6 ->].
  right. exists preds, pts, w2. auto.
Qed.

(** The [try] of a call: the writes are committed together, or none is. *)
Lemma transaction_store_body now ad ts cd db :
  transaction (store_body now ad ts cd) db =
  match store_writes now ad ts cd (connect db) with
  | (Ok _, w') => working w'
  | (Raise _, _) => db
  end.
Proof.
  unfold transaction, store_body, bind.
  destruct (store_writes now ad ts cd (connect db)) as [[u|e] w'] eqn:E.
  - reflexivity.
  - apply store_writes_committed in E. unfold same_committed in E.
    simpl. exact E.
Qed.

(** A call leaves the store as it is, or commits the writes of its [try]. *)
Lemma store_v4_data_cases now cd db :
  fst (store_v4_data now cd db) = db \/
  exists s w',
    anchor_date_of cd = Some (split_T s) /\
    store_writes now (VStr (split_T s)) (VStr s) cd (connect db) = (Ok tt, w') /\
    fst (store_v4_data now cd db) = working w'.
Proof.
  unfold store_v4_data, anchor_date_of.
  destruct (truthy cd); simpl; auto.
  destruct (py_get cd "anchor_timestamp" VNone) as [ts|e]; simpl; auto.
  destruct (truthy ts) eqn:T; simpl; auto.
  destruct ts; try (simpl; auto; fail).
  simpl in T. rewrite T. cbn [fst]. rewrite transaction_store_body.
  destruct (store_writes now (VStr (split_T s)) (VStr s) cd (connect db))
    as [[[]|e] w'] eqn:E; auto.
  right. exists s, w'. auto.
Qed.

(** A call, seen through the rows of a key of [predictions]. *)
Lemma store_v4_data_rows now cd db d h :
  rows_for d h (fst (store_v4_data now cd db)) = rows_for d h db \/
  (anchor_date_of cd = Some d /\
   exists preds pts pt v row,
     py_get cd "original_predictions" (VDict []) = Ok preds /\
     points_of cd = Ok pts /\ In pt pts /\
     read_point preds pt = Ok (Some v) /\
     v_horizon v = VStr h /\ truthy (v_original_price v) = true /\
     rows_for d h (fst (store_v4_data now cd db)) = [row] /\
     row_of_view now v row).
Proof.
  destruct (store_v4_data_cases now cd db) as [-> | (s & w' & A & W & ->)]; auto.
  apply store_writes_run in W.
  destruct W as [[P _] | (preds & pts & w1 & E1 & E2 & P & _ & L)].
  { left. unfold rows_for. now rewrite P. }
  apply (for_each_predictions now (split_T s) preds pts w1 (Ok tt) w' d h) in L.
  assert (R1 : rows_for d h (working w1) = rows_for d h db).
  { unfold rows_for. now rewrite P. }
  destruct L as [L | (-> & pt & v & row & Hrest)].
  - left. now rewrite L.
  - right. split; auto. exists preds, pts, pt, v, row. tauto.
Qed.

(** A call, seen through the rows of a key of [accuracy_metrics]. *)
Lemma store_v4_data_metrics now cd db d h :
  metrics_for d h (fst (store_v4_data now cd db)) = metrics_for d h db \/
  (anchor_date_of cd = Some d /\
   exists preds pts pt v m,
     py_get cd "original_predictions" (VDict []) = Ok preds /\
     points_of cd = Ok pts /\ In pt pts /\
     read_point preds pt = Ok (Some v) /\
     v_horizon v = VStr h /\ truthy (v_original_price v) = true /\
     truthy (v_is_actual v) = true /\
     metrics_for d h (fst (store_v4_data now cd db)) = [m] /\
     metric_of_view v m).
Proof.
  destruct (store_v4_data_cases now cd db) as [-> | (s & w' & A & W & ->)]; auto.
  apply store_writes_run in W.
  destruct W as [[_ P] | (preds & pts & w1 & E1 & E2 & _ & P & L)].
  { left. unfold metrics_for. now rewrite P. }
  apply (for_each_metrics now (split_T s) preds pts w1 (Ok tt) w' d h) in L.
  assert (R1 : metrics_for d h (working w1) = metrics_for d h db).
  { unfold metrics_for. now rewrite P. }
  destruct L as [L | (-> & pt & v & m & Hrest)].
  - left. now rewrite L.
  - right. split; auto. exists preds, pts, pt, v, m. tauto.
Qed.

(** The variables of a turn for the horizon [h] hold the original
    prediction that the call carries for [h]. *)
Lemma read_point_original cd preds pt v h :
  py_get cd "original_predictions" (VDict []) = Ok preds ->
  read_point preds pt = Ok (Some v) -> v_horizon v = VStr h ->
  original_of cd h = Ok (v_original_price v, v_original_pct v).
Proof.
  intros Ep R Hh. unfold original_of. rewrite Ep.
  unfold read_point in R.
  destruct (py_get pt "horizon" VNone) as [hz|]; [|discriminate].
  destruct (negb (truthy hz)); [discriminate|].
  destruct (py_get pt "target_price" (VInt 0)); [|discriminate].
  destruct (py_get pt "pct_change" (VInt 0)); [|discriminate].
  destruct (py_get pt "is_actual" (VBool false)); [|discriminate].
  destruct (py_get_key preds hz (VDict [])) as [orig|] eqn:Eo; [|discriminate].
  destruct (py_get orig "original_price" VNone) eqn:E1; [|discriminate].
  destruct (py_get orig "original_pct" VNone) eqn:E2; [|discriminate].
  destruct (py_get orig "stabilized_price" VNone); [|discriminate].
  destruct (py_get orig "stabilized_pct" VNone); [|discriminate].
  inversion R; subst; clear R. simpl in Hh. subst hz.
  rewrite Eo, E1, E2. reflexivity.
Qed.


(** *** The properties of the store *)

(** C8. A call of [store_v4_data] is all-or-nothing on the durable store.
    An exception that leaves the call was raised before any write.  When the
    call reaches its [try]: if a statement raises, the store is afterwards
    exactly what it was before the call, whatever had been written in the
    transaction; if none raises, the store is afterwards what the
    transaction had written, committed at once. *)
Theorem store_v4_data_all_or_nothing now cd db :
  (forall e, snd (store_v4_data now cd db) = Raised e ->
             fst (store_v4_data now cd db) = db) /\
  (forall s,
     truthy cd = true ->
     py_get cd "anchor_timestamp" VNone = Ok (VStr s) -> s <> "" ->
     match store_writes now (VStr (split_T s)) (VStr s) cd (connect db) with
     | (Ok _, w') => store_v4_data now cd db = (working w', Returned)
     | (Raise _, _) => store_v4_data now cd db = (db, Returned)
     end).
Proof.
  split.
  - intros e. unfold store_v4_data.
    destruct (negb (truthy cd)); [reflexivity|].
    destruct (py_get cd "anchor_timestamp" VNone) as [ts|]; [|reflexivity].
    destruct (negb (truthy ts)); [reflexivity|].
    destruct ts; try reflexivity. simpl. discriminate.
  - intros s T E Hs. unfold store_v4_data. rewrite T, E. simpl.
    destruct (String.eqb s "") eqn:Es.
    { apply String.eqb_eq in Es. contradiction. }
    simpl. rewrite transaction_store_body.
    destruct (store_writes now (VStr (split_T s)) (VStr s) cd (connect db))
      as [[u|e] w']; reflexivity.
Qed.

(** The second point of [two_point_curve] breaks NOT NULL after the anchor
    row and the first prediction row were written; the store stays empty. *)
Lemma store_v4_data_all_or_nothing_witness :
  let run := store_writes (tick_clock "2025-06-02T13:05:0")
               (VStr "2025-06-02") (VStr "2025-06-02T13:00:00Z")
               two_point_curve (connect init_database) in
  fst run = Raise IntegrityError /\
  List.length (rows (predictions (working (snd run)))) = 1%nat /\
  store_v4_data (tick_clock "2025-06-02T13:05:0") two_point_curve init_database
  = (init_database, Returned).
Proof.
  split; [reflexivity|]. split; [reflexivity|].
  exact (proj2 (store_v4_data_all_or_nothing (tick_clock "2025-06-02T13:05:0")
                  two_point_curve init_database)
           "2025-06-02T13:00:00Z" eq_refl eq_refl
           (fun H => ltac:(discriminate H))).
Defined.


(** C10. A point whose original predicted price is falsy (missing, null, 0)
    is skipped: its turn of the loop changes nothing and reads no clock,
    whatever its realized flag and price; and a call that carries a falsy
    original price for a horizon leaves the rows of that horizon, in
    [predictions] and in [accuracy_metrics], as they were, for every anchor
    date. *)
Theorem falsy_original_price_skips_point now cd db h :
  (forall ad preds pt v w,
     read_point preds pt = Ok (Some v) ->
     truthy (v_original_price v) = false ->
     store_point now ad preds pt w = (Ok tt, w)) /\
  ((forall op opct, original_of cd h = Ok (op, opct) -> truthy op = false) ->
   forall d,
     rows_for d h (fst (store_v4_data now cd db)) = rows_for d h db /\
     metrics_for d h (fst (store_v4_data now cd db)) = metrics_for d h db).
Proof.
  split.
  - intros ad preds pt v w R T. unfold store_point, bind, lift. rewrite R.
    unfold write_point. rewrite T. reflexivity.
  - intros F d. split.
    + destruct (store_v4_data_rows now cd db d h)
        as [E | (_ & preds & pts & pt & v & row & Ep & _ & _ & R & Hh & T & _)]; auto.
      rewrite (F _ _ (read_point_original cd preds pt v h Ep R Hh)) in T.
      discriminate.
    + destruct (store_v4_data_metrics now cd db d h)
        as [E | (_ & preds & pts & pt & v & m & Ep & _ & _ & R & Hh & T & _)]; auto.
      rewrite (F _ _ (read_point_original cd preds pt v h Ep R Hh)) in T.
      discriminate.
Qed.

(** The realized scenario with original price 0 leaves the store of the
    scenario as it is for +1H. *)
Lemma falsy_original_price_skips_point_witness :
  rows_for "2025-06-01" "+1H"
    (fst (store_v4_data (tick_clock "2025-06-01T14:05:0") scenario_no_original
            scenario_store))
  = rows_for "2025-06-01" "+1H" scenario_store /\
  metrics_for "2025-06-01" "+1H"
    (fst (store_v4_data (tick_clock "2025-06-01T14:05:0") scenario_no_original
            scenario_store))
  = metrics_for "2025-06-01" "+1H" scenario_store.
Proof.
  apply (proj2 (falsy_original_price_skips_point
                  (tick_clock "2025-06-01T14:05:0") scenario_no_original
                  scenario_store "+1H")).
  intros op opct H. vm_compute in H. inversion H. reflexivity.
Defined.

(** *** Sequences of calls *)

Lemma run_calls_cons c calls db :
  run_calls (c :: calls) db =
  run_calls calls (fst (store_v4_data (fst c) (snd c) db)).
Proof. reflexivity. Qed.

(** C1, as the code has it.  The table never holds two rows for an anchor
    date and a horizon; and over every sequence of calls that carry, for the
    pair, the original prediction already stored, the stored
    [original_price] and [original_pct] stay what they were.  (The row is
    replaced as a whole by each call that writes it: its id and its
    stabilized and actual fields are those of the last such call.) *)
Theorem original_prediction_kept_by_agreeing_calls calls : forall db d h,
  (List.length (rows_for d h db) <= 1 ->
   List.length (rows_for d h (run_calls calls db)) <= 1)%nat /\
  (forall row,
     rows_for d h db = [row] ->
     Forall (fun c => carries_original d h (original_price row)
                        (original_pct row) (snd c)) calls ->
     exists row',
       rows_for d h (run_calls calls db) = [row'] /\
       original_price row' = original_price row /\
       original_pct row' = original_pct row).
Proof.
  induction calls as [|[now cd] calls IH]; intros db d h.
  - split; auto. intros row E _. exists row. auto.
  - rewrite run_calls_cons. cbn [fst snd].
    destruct (IH (fst (store_v4_data now cd db)) d h) as [IH1 IH2].
    destruct (store_v4_data_rows now cd db d h)
      as [E | (A & preds & pts & pt & v & row1 & Ep & _ & _ & R & Hh & T & E & Hrow)].
    + split.
      * intro L. apply IH1. now rewrite E.
      * intros row Er C. inversion C; subst.
        apply IH2; auto. now rewrite E.
    + split.
      * intro L. apply IH1. rewrite E. simpl. lia.
      * intros row Er C. inversion C as [|c cs C1 C2]; subst.
        simpl in C1.
        destruct (C1 A _ _ (read_point_original cd preds pt v h Ep R Hh) T)
          as [S1 S2].
        destruct Hrow as (O1 & O2 & _).
        assert (P1 : original_price row1 = original_price row) by congruence.
        assert (P2 : original_pct row1 = original_pct row) by congruence.
        destruct (IH2 row1 E) as (row' & E' & Q1 & Q2).
        { rewrite P1, P2. exact C2. }
        exists row'. split; auto. split; congruence.
Qed.

Lemma original_prediction_kept_by_agreeing_calls_witness :
  exists row',
    rows_for "2025-06-01" "+1H"
      (run_calls [(tick_clock "2025-06-01T14:05:0", scenario_realized)]
         scenario_store) = [row'] /\
    original_price row' = SReal 65200 /\ original_pct row' = SReal 0.31.
Proof.
  refine (proj2 (original_prediction_kept_by_agreeing_calls
                   [(tick_clock "2025-06-01T14:05:0", scenario_realized)]
                   scenario_store "2025-06-01" "+1H") _ eq_refl _).
  constructor; [|constructor].
  intros _ op opct H _. vm_compute in H. inversion H. split; reflexivity.
Defined.

(** C1 as stated fails: the store does not refuse a different original
    prediction.  After the scenario, a call with the original revised to
    65500 replaces the stored 65200. *)
Lemma original_prediction_is_replaced :
  map original_price (rows_for "2025-06-01" "+1H" scenario_store)
    = [SReal 65200] /\
  map original_price
    (rows_for "2025-06-01" "+1H"
       (fst (store_v4_data (tick_clock "2025-06-01T14:05:0") scenario_revised
               scenario_store)))
    = [SReal 65500].
Proof. split; reflexivity. Qed.


(** C2, as the code has it.  Over every sequence of calls in which each
    point of the pair is marked realized at the price and the percent change
    already stored, [actual_price] and [actual_pct] keep their values and
    [became_actual_at] stays set.  (Each call that writes the row sets the
    three fields from its own point and clock: [became_actual_at] is stamped
    again, and a point that is not marked realized makes them null.) *)
Theorem actual_fields_kept_by_agreeing_calls calls : forall db d h row,
  rows_for d h db = [row] ->
  Forall (fun c => carries_actual d h (actual_price row) (actual_pct row) (snd c))
    calls ->
  exists row',
    rows_for d h (run_calls calls db) = [row'] /\
    actual_price row' = actual_price row /\
    actual_pct row' = actual_pct row /\
    (became_actual_at row <> SNull -> became_actual_at row' <> SNull).
Proof.
  induction calls as [|[now cd] calls IH]; intros db d h row Er C.
  - exists row. auto.
  - rewrite run_calls_cons. cbn [fst snd].
    inversion C as [|c cs C1 C2]; subst. simpl in C1.
    destruct (store_v4_data_rows now cd db d h)
      as [E | (A & preds & pts & pt & v & row1 & Ep & Eq & Hin & R & Hh & T & E & Hrow)].
    + apply IH; auto. now rewrite E.
    + destruct (C1 A preds pts pt v Ep Eq Hin R Hh) as (Ta & S1 & S2).
      destruct Hrow as (_ & _ & _ & _ & A1 & A2 & A3).
      rewrite Ta in A1, A2, A3.
      assert (P1 : actual_price row1 = actual_price row) by congruence.
      assert (P2 : actual_pct row1 = actual_pct row) by congruence.
      destruct (IH (fst (store_v4_data now cd db)) d h row1 E)
        as (row' & E' & Q1 & Q2 & Q3).
      { rewrite P1, P2. exact C2. }
      exists row'. split; auto. split; [congruence|]. split; [congruence|].
      intros _. apply Q3. destruct A3 as (k & ->). discriminate.
Qed.

Lemma actual_fields_kept_by_agreeing_calls_witness :
  exists row',
    rows_for "2025-06-01" "+1H"
      (run_calls [(tick_clock "2025-06-01T14:05:0", scenario_realized)]
         scenario_store) = [row'] /\
    actual_price row' = SReal 65170 /\
    actual_pct row' = SReal 0.26 /\
    (SText "2025-06-01T14:00:01" <> SNull -> became_actual_at row' <> SNull).
Proof.
  refine (actual_fields_kept_by_agreeing_calls
            [(tick_clock "2025-06-01T14:05:0", scenario_realized)]
            scenario_store "2025-06-01" "+1H" _ eq_refl _).
  constructor; [|constructor].
  intros _ preds pts pt v Ep Eq Hin R Hh.
  vm_compute in Ep, Eq. inversion Ep; subst preds; clear Ep.
  inversion Eq; subst pts; clear Eq.
  destruct Hin as [<- | []].
  vm_compute in R. inversion R; subst v; clear R.
  repeat split; reflexivity.
Defined.

(** C2 as stated fails.  After the scenario the actual fields of +1H are
    set; the realized curve recorded once more stamps [became_actual_at]
    again, and a curve that reports +1H as not realized makes the three
    fields null. *)
Lemma actual_fields_are_overwritten :
  let restamped :=
    fst (store_v4_data (tick_clock "2025-06-01T14:05:0") scenario_realized
           scenario_store) in
  let reverted :=
    fst (store_v4_data (tick_clock "2025-06-01T14:10:0") scenario_pending
           scenario_store) in
  let fields r := (actual_price r, actual_pct r, became_actual_at r) in
  map fields (rows_for "2025-06-01" "+1H" scenario_store)
    = [(SReal 65170, SReal 0.26, SText "2025-06-01T14:00:01")] /\
  map fields (rows_for "2025-06-01" "+1H" restamped)
    = [(SReal 65170, SReal 0.26, SText "2025-06-01T14:05:01")] /\
  map fields (rows_for "2025-06-01" "+1H" reverted)
    = [(SNull, SNull, SNull)].
Proof. repeat split; reflexivity. Qed.


(** *** The metric *)

Lemma write_point_metrics_table now ad v w r w' :
  write_point now (VStr ad) v w = (r, w') ->
  accuracy_metrics (working w') = accuracy_metrics (working w) \/
  (truthy (v_is_actual v) = true /\
   exists tp, as_num (v_target_price v) = Ok tp /\ num_ltb (NInt 0) tp = true).
Proof.
  unfold write_point. destruct (truthy (v_original_price v)) eqn:T; intro H.
  2:{ apply ret_run in H. destruct H as [_ ->]. now left. }
  apply bind_run in H. destruct H as [(t & w1 & H1 & H) | (e & H1 & _)].
  2:{ apply if_else_none_run in H1. destruct H1 as [H1 _]. left. now rewrite H1. }
  apply if_else_none_run in H1. destruct H1 as [W1 _].
  apply bind_run in H. destruct H as [(u & w2 & H2 & H) | (e & H2 & _)].
  2:{ apply execute_insert_prediction_metrics in H2. left. rewrite H2, W1. reflexivity. }
  apply execute_insert_prediction_metrics in H2. unfold same_metrics in H2.
  destruct (truthy (v_is_actual v)) eqn:A.
  2:{ apply ret_run in H. destruct H as [_ ->]. left. rewrite H2, W1. reflexivity. }
  apply store_metric_run in H.
  destruct H as [[H _] | (tp & op & e & xh & se & sa & k & t' & Etp & G & _)].
  - left. rewrite H, H2, W1. reflexivity.
  - right. eauto.
Qed.

Lemma no_zde_ret {A} (a : A) : no_zde (ret a).
Proof. intros w. simpl. discriminate. Qed.

Lemma no_zde_lift {A} (x : result A) :
  x <> Raise ZeroDivisionError -> no_zde (lift x).
Proof. intros H w. exact H. Qed.

Lemma no_zde_bind {A B} (m : M A) (k : A -> M B) :
  no_zde m -> (forall a, no_zde (k a)) -> no_zde (bind m k).
Proof.
  intros Hm Hk w. unfold bind. specialize (Hm w).
  destruct (m w) as [[a|e] w1]; simpl in *.
  - apply Hk.
  - intro X. apply Hm. inversion X. reflexivity.
Qed.

Lemma no_zde_if {A} (c : bool) (m1 m2 : M A) :
  no_zde m1 -> no_zde m2 -> no_zde (if c then m1 else m2).
Proof. destruct c; auto. Qed.

Lemma no_zde_for_each {A} (l : list A) (body : A -> M unit) :
  (forall x, no_zde (body x)) -> no_zde (for_each l body).
Proof.
  intro H. induction l as [|x l IH]; simpl.
  - apply no_zde_ret.
  - apply no_zde_bind; auto.
Qed.

Lemma no_zde_clock now : no_zde (read_clock now).
Proof. intros w. simpl. discriminate. Qed.

Lemma no_zde_update f :
  (forall db, f db <> Raise ZeroDivisionError) -> no_zde (update_working f).
Proof.
  intros H w. unfold update_working. specialize (H (working w)).
  destruct (f (working w)); simpl; [discriminate|].
  intro X. apply H. inversion X. reflexivity.
Qed.

(** A float that equals zero is a zero. *)
Lemma float_zero f :
  PrimFloat.eqb f 0 = true -> exists s, Prim2SF f = S754_zero s.
Proof.
  rewrite FloatAxioms.eqb_spec.
  change (Prim2SF 0) with (S754_zero false).
  destruct (Prim2SF f) as [s|s| |s m e]; eauto; try discriminate;
    destruct s; discriminate.
Qed.

(** What is zero is not above zero. *)
Lemma zero_not_positive tp : num_is_zero tp = true -> num_ltb (NInt 0) tp = false.
Proof.
  destruct tp as [z|f]; simpl; intro H.
  - apply Z.eqb_eq in H. subst z. reflexivity.
  - apply float_zero in H. destruct H as (s & E).
    unfold int_ltb_float. rewrite E. reflexivity.
Qed.

Lemma positive_not_zero tp : num_ltb (NInt 0) tp = true -> num_is_zero tp = false.
Proof.
  intro G. destruct (num_is_zero tp) eqn:E; [|reflexivity].
  apply zero_not_positive in E. congruence.
Qed.

Lemma float_of_int_no_zde z : float_of_int z <> Raise ZeroDivisionError.
Proof. unfold float_of_int. destruct (is_infinity _); discriminate. Qed.

Lemma to_float_no_zde n : to_float n <> Raise ZeroDivisionError.
Proof. destruct n; simpl; [apply float_of_int_no_zde|discriminate]. Qed.

Ltac to_float_cases :=
  repeat match goal with
         | |- context [to_float ?n] =>
             let H := fresh in
             pose proof (to_float_no_zde n) as H;
             destruct (to_float n); [|congruence]; clear H
         end.

Lemma num_sub_no_zde a b : num_sub a b <> Raise ZeroDivisionError.
Proof.
  unfold num_sub. destruct a, b; try discriminate; to_float_cases; discriminate.
Qed.

Lemma num_mul_no_zde a b : num_mul a b <> Raise ZeroDivisionError.
Proof.
  unfold num_mul. destruct a, b; try discriminate; to_float_cases; discriminate.
Qed.

(** The division by a positive number does not raise ZeroDivisionError. *)
Lemma num_truediv_guarded a b :
  num_ltb (NInt 0) b = true -> num_truediv a b <> Raise ZeroDivisionError.
Proof.
  intro G. pose proof (positive_not_zero _ G) as Z.
  unfold num_truediv. destruct a as [x|x], b as [y|y].
  - unfold int_true_div. simpl in Z. rewrite Z.
    destruct (x =? 0)%Z; [discriminate|].
    destruct (SFdiv_core_binary _ _ _ _ _ _) as [[mz ez] lz].
    destruct (is_infinity _); discriminate.
  - to_float_cases. rewrite Z. discriminate.
  - to_float_cases. rewrite Z. discriminate.
  - to_float_cases. rewrite Z. discriminate.
Qed.

Lemma py_get_no_zde d k df : py_get d k df <> Raise ZeroDivisionError.
Proof. destruct d; simpl; discriminate. Qed.

Lemma py_get_key_no_zde d k df : py_get_key d k df <> Raise ZeroDivisionError.
Proof. destruct d, k; simpl; discriminate. Qed.

Lemma as_num_no_zde v : as_num v <> Raise ZeroDivisionError.
Proof. destruct v; simpl; discriminate. Qed.

Lemma py_positive_no_zde v : py_positive v <> Raise ZeroDivisionError.
Proof. unfold py_positive. destruct v; simpl; discriminate. Qed.

Lemma to_sql_no_zde v : to_sql v <> Raise ZeroDivisionError.
Proof. destruct v; simpl; try discriminate. destruct (_ && _)%bool; discriminate. Qed.

Lemma map_result_no_zde {A B} (f : A -> result B) l :
  (forall x, f x <> Raise ZeroDivisionError) ->
  map_result f l <> Raise ZeroDivisionError.
Proof.
  intro H. induction l as [|x l IH]; simpl; [discriminate|].
  specialize (H x). destruct (f x); [|congruence].
  destruct (map_result f l); [discriminate|congruence].
Qed.

Lemma bind_params_no_zde ps : bind_params ps <> Raise ZeroDivisionError.
Proof. apply map_result_no_zde, to_sql_no_zde. Qed.

Ltac get_no_zde :=
  match goal with
  | |- context [py_get ?d ?k ?df] =>
      pose proof (py_get_no_zde d k df);
      destruct (py_get d k df); [|congruence]
  | |- context [py_get_key ?d ?k ?df] =>
      pose proof (py_get_key_no_zde d k df);
      destruct (py_get_key d k df); [|congruence]
  end.

Lemma read_point_no_zde preds pt : read_point preds pt <> Raise ZeroDivisionError.
Proof.
  unfold read_point. get_no_zde.
  destruct (negb (truthy a)); [discriminate|].
  repeat get_no_zde. discriminate.
Qed.

Lemma point_of_item_no_zde item : point_of_item item <> Raise ZeroDivisionError.
Proof. unfold point_of_item. repeat get_no_zde. discriminate. Qed.

Lemma points_of_no_zde cd : points_of cd <> Raise ZeroDivisionError.
Proof.
  unfold points_of.
  pose proof (py_get_no_zde cd "curve" (VList [])).
  destruct (py_get cd "curve" (VList [])) as [fc|]; [|congruence].
  destruct (truthy fc).
  - destruct fc; simpl; discriminate.
  - pose proof (py_get_no_zde cd "forward_curve" (VDict [])).
    destruct (py_get cd "forward_curve" (VDict [])) as [d|]; [|congruence].
    destruct d; simpl; try discriminate.
    apply map_result_no_zde, point_of_item_no_zde.
Qed.

Lemma replace_no_zde_a r t : replace_anchor r t <> Raise ZeroDivisionError.
Proof. unfold replace_anchor. destruct (any_null _); discriminate. Qed.

Lemma replace_no_zde_p d h a b c e f g i t :
  replace_prediction d h a b c e f g i t <> Raise ZeroDivisionError.
Proof. unfold replace_prediction. destruct (any_null _); discriminate. Qed.

Lemma replace_no_zde_m d h a b c e f t :
  replace_metric d h a b c e f t <> Raise ZeroDivisionError.
Proof. unfold replace_metric. destruct (any_null _); discriminate. Qed.

(** Lines 163-165: under the guard of line 162 the division does not raise
    ZeroDivisionError. *)
Lemma error_and_accuracy_no_zde tpv pv :
  py_positive tpv = Ok true -> no_zde (error_and_accuracy tpv pv).
Proof.
  intros P w. rewrite error_and_accuracy_run. cbn [fst].
  unfold py_positive in P.
  destruct (as_num tpv) as [tp|]; [|discriminate].
  assert (G : num_ltb (NInt 0) tp = true) by congruence. clear P.
  unfold rbind.
  pose proof (as_num_no_zde pv) as H1.
  destruct (as_num pv) as [p|]; [|congruence].
  unfold error_pct, rbind.
  pose proof (num_sub_no_zde tp p) as H2.
  destruct (num_sub tp p) as [d|]; [|congruence].
  pose proof (num_truediv_guarded (num_abs d) tp G) as H3.
  destruct (num_truediv (num_abs d) tp) as [q|]; [|congruence].
  pose proof (num_mul_no_zde q (NInt 100)) as H4.
  destruct (num_mul q (NInt 100)) as [e|]; [|congruence].
  pose proof (num_sub_no_zde (NInt 100) e) as H5.
  destruct (num_sub (NInt 100) e); [discriminate|congruence].
Qed.

Create HintDb zde.
#[local] Hint Resolve py_get_no_zde py_get_key_no_zde as_num_no_zde
  py_positive_no_zde bind_params_no_zde read_point_no_zde points_of_no_zde : zde.

Ltac no_zde_step :=
  first
    [ apply no_zde_ret
    | apply error_and_accuracy_no_zde; assumption
    | apply no_zde_lift; solve [auto with zde]
    | apply no_zde_clock
    | apply no_zde_if
    | apply no_zde_bind
    | match goal with |- forall _, no_zde _ => intro end ].

Lemma execute_insert_no_zde_a ps : no_zde (execute_insert_anchor ps).
Proof.
  unfold execute_insert_anchor. repeat no_zde_step.
  apply no_zde_update. intro db.
  match goal with |- context [replace_anchor ?r ?t] =>
    pose proof (replace_no_zde_a r t); destruct (replace_anchor r t) end;
    [discriminate|congruence].
Qed.

Lemma execute_insert_no_zde_p ps : no_zde (execute_insert_prediction ps).
Proof.
  unfold execute_insert_prediction. repeat no_zde_step.
  apply no_zde_update. intro db.
  match goal with |- context [replace_prediction ?d ?h ?a ?b ?c ?e ?f ?g ?i ?t] =>
    pose proof (replace_no_zde_p d h a b c e f g i t);
    destruct (replace_prediction d h a b c e f g i t) end;
    [discriminate|congruence].
Qed.

Lemma execute_insert_no_zde_m ps : no_zde (execute_insert_metric ps).
Proof.
  unfold execute_insert_metric. repeat no_zde_step.
  apply no_zde_update. intro db.
  match goal with |- context [replace_metric ?d ?h ?a ?b ?c ?e ?f ?t] =>
    pose proof (replace_no_zde_m d h a b c e f t);
    destruct (replace_metric d h a b c e f t) end;
    [discriminate|congruence].
Qed.

Ltac no_zde_block :=
  repeat first
    [ apply execute_insert_no_zde_a
    | apply execute_insert_no_zde_p
    | apply execute_insert_no_zde_m
    | no_zde_step ].

(** The divisions of lines 164 and 171 are under the guard of line 162. *)
Lemma store_metric_no_zde now ad h tp op sp :
  no_zde (store_metric now ad h tp op sp).
Proof.
  intro w. unfold store_metric, bind at 1, lift.
  pose proof (py_positive_no_zde tp) as N.
  destruct (py_positive tp) as [[|]|e] eqn:P.
  - match goal with |- fst (?m w) <> _ => assert (Z : no_zde m) end.
    { no_zde_block. }
    apply Z.
  - discriminate.
  - simpl. congruence.
Qed.

Lemma write_point_no_zde now ad v : no_zde (write_point now ad v).
Proof.
  unfold write_point, if_else_none.
  repeat first
    [ apply store_metric_no_zde
    | apply execute_insert_no_zde_p
    | no_zde_step ].
Qed.

Lemma store_point_no_zde now ad preds pt : no_zde (store_point now ad preds pt).
Proof.
  unfold store_point.
  apply no_zde_bind; [no_zde_step|]. intros [v|].
  - apply write_point_no_zde.
  - apply no_zde_ret.
Qed.

Lemma store_writes_no_zde now ad ts cd : no_zde (store_writes now ad ts cd).
Proof.
  unfold store_writes.
  repeat first
    [ apply no_zde_for_each; intro; apply store_point_no_zde
    | apply execute_insert_no_zde_a
    | no_zde_step ].
Qed.

(** C5. A point marked realized whose target price is exactly zero writes
    no metric: its turn leaves [accuracy_metrics] as it is; over a call in
    which every point of a horizon is such a point, the metric rows of the
    horizon stay what they were; and no statement of a call ever raises
    ZeroDivisionError, since both divisions are under the guard
    [target_price > 0]. *)
Theorem zero_target_price_writes_no_metric now :
  (forall ad v w tp,
     truthy (v_is_actual v) = true ->
     as_num (v_target_price v) = Ok tp -> num_is_zero tp = true ->
     accuracy_metrics (working (snd (write_point now (VStr ad) v w)))
     = accuracy_metrics (working w)) /\
  (forall cd db d h,
     (forall preds pts pt v,
        py_get cd "original_predictions" (VDict []) = Ok preds ->
        points_of cd = Ok pts -> In pt pts ->
        read_point preds pt = Ok (Some v) -> v_horizon v = VStr h ->
        exists tp, as_num (v_target_price v) = Ok tp /\ num_is_zero tp = true) ->
     metrics_for d h (fst (store_v4_data now cd db)) = metrics_for d h db) /\
  (forall ad ts cd w,
     fst (store_writes now ad ts cd w) <> Raise ZeroDivisionError).
Proof.
  split; [|split].
  - intros ad v w tp A E Z.
    destruct (write_point now (VStr ad) v w) as [r w'] eqn:H.
    apply write_point_metrics_table in H.
    destruct H as [H | (_ & tp' & E' & G)]; [exact H|].
    rewrite E in E'. inversion E'; subst tp'.
    rewrite (zero_not_positive _ Z) in G. discriminate.
  - intros cd db d h Hz.
    destruct (store_v4_data_metrics now cd db d h)
      as [E | (_ & preds & pts & pt & v & m & Ep & Eq & Hin & R & Hh & _ & _ & _ & Hm)];
      [exact E|].
    destruct (Hz preds pts pt v Ep Eq Hin R Hh) as (tp & E & Z).
    destruct Hm as (tp' & op & E' & G & _).
    rewrite E in E'. inversion E'; subst tp'.
    rewrite (zero_not_positive _ Z) in G. discriminate.
  - intros ad ts cd w. apply store_writes_no_zde.
Qed.

(** The scenario realized at price 0: the prediction row takes the actual
    price 0 and the metric row of the scenario stays. *)
Lemma zero_target_price_writes_no_metric_witness :
  let db := fst (store_v4_data (tick_clock "2025-06-01T14:05:0")
                   scenario_zero_price scenario_store) in
  map actual_price (rows_for "2025-06-01" "+1H" db) = [SReal 0] /\
  metrics_for "2025-06-01" "+1H" db
  = metrics_for "2025-06-01" "+1H" scenario_store.
Proof.
  split; [reflexivity|].
  apply (proj1 (proj2 (zero_target_price_writes_no_metric
                         (tick_clock "2025-06-01T14:05:0")))).
  intros preds pts pt v Ep Eq Hin R Hh.
  vm_compute in Ep, Eq. inversion Ep; subst preds; clear Ep.
  inversion Eq; subst pts; clear Eq.
  destruct Hin as [<- | []].
  vm_compute in R. inversion R; subst v; clear R.
  exists (NInt 0). split; reflexivity.
Defined.

(** *** The formula of the metric *)



Lemma real_of_not_null f : is_nan f = false -> sql_is_null (real_of f) = false.
Proof. unfold real_of. intros ->. reflexivity. Qed.










End AccuracyStorageFacts.

(** ** The curve providers: proofs *)

Module LedgerFacts.
Import V4CurveProvider V4CurveProviderSpec.

Lemma most_recent_app {A} (k : nat) (a b : list A) :
  most_recent k (most_recent k a ++ b) = most_recent k (a ++ b).
Proof.
  unfold most_recent.
  rewrite !skipn_app, !length_app, !length_skipn, skipn_skipn.
  f_equal; f_equal; lia.
Qed.

Lemma most_recent_length {A} (k : nat) (l : list A) :
  (List.length (most_recent k l) <= k)%nat.
Proof. unfold most_recent. rewrite length_skipn. lia. Qed.

(** One append, for a positive capacity. *)
Lemma store_curve_snapshot_history k now c p :
  (0 < k)%nat -> _max_history_size p = Z.of_nat k ->
  _curve_history (_store_curve_snapshot now c p)
  = most_recent k (_curve_history p ++ [make_snapshot now c]) /\
  _max_history_size (_store_curve_snapshot now c p) = Z.of_nat k.
Proof.
  intros Hk Hm. unfold _store_curve_snapshot. cbn [_curve_history _max_history_size].
  split; [|exact Hm]. rewrite Hm.
  set (history := _curve_history p ++ [make_snapshot now c]).
  unfold most_recent.
  destruct (Z.of_nat k <? Z.of_nat (List.length history))%Z eqn:E.
  - apply Z.ltb_lt in E. unfold py_slice_from.
    assert (L : (- Z.of_nat k <? 0)%Z = true) by (apply Z.ltb_lt; lia).
    rewrite L. f_equal. lia.
  - apply Z.ltb_ge in E.
    replace (List.length history - k)%nat with 0%nat by lia. reflexivity.
Qed.

Lemma store_all_history k : forall appends p,
  (0 < k)%nat -> _max_history_size p = Z.of_nat k ->
  (List.length (_curve_history p) <= k)%nat ->
  _curve_history (store_all appends p)
  = most_recent k (_curve_history p ++ snapshots_of appends).
Proof.
  induction appends as [|[now c] appends IH]; intros p Hk Hm Hl.
  - simpl. rewrite app_nil_r. unfold most_recent.
    replace (List.length (_curve_history p) - k)%nat with 0%nat by lia.
    reflexivity.
  - simpl.
    destruct (store_curve_snapshot_history k now c p Hk Hm) as [H1 H2].
    rewrite IH; auto.
    + rewrite H1, most_recent_app, <- app_assoc. reflexivity.
    + rewrite H1. apply most_recent_length.
Qed.

(** C4. With a positive capacity K the ledger never holds more than K
    snapshots, whatever is appended; and K+5 appends to the empty ledger
    leave exactly the K most recent snapshots, in the order of their
    appends: the 5 oldest are gone. *)
Theorem ledger_keeps_most_recent (k : nat) (appends : list (string * Curve))
    (p : provider) :
  (0 < k)%nat -> _max_history_size p = Z.of_nat k -> _curve_history p = [] ->
  (List.length (_curve_history (store_all appends p)) <= k)%nat /\
  (List.length appends = (k + 5)%nat ->
   _curve_history (store_all appends p) = skipn 5 (snapshots_of appends) /\
   List.length (_curve_history (store_all appends p)) = k).
Proof.
  intros Hk Hm He.
  assert (H : _curve_history (store_all appends p)
              = most_recent k (snapshots_of appends)).
  { rewrite (store_all_history k); auto.
    - now rewrite He.
    - rewrite He. simpl. lia. }
  rewrite H. split.
  - apply most_recent_length.
  - intro L. unfold most_recent, snapshots_of.
    rewrite length_skipn, !length_map, L.
    split; [f_equal|]; lia.
Qed.


(** The ledger of the provider as built (capacity 300) after 305 appends. *)
Lemma ledger_keeps_most_recent_witness :
  (List.length (_curve_history (store_all (sample_appends 305) init)) <= 300)%nat /\
  _curve_history (store_all (sample_appends 305) init)
  = skipn 5 (snapshots_of (sample_appends 305)) /\
  List.length (_curve_history (store_all (sample_appends 305) init)) = 300%nat.
Proof.
  destruct (ledger_keeps_most_recent 300 (sample_appends 305) init)
    as [H1 H2]; [lia | reflexivity | reflexivity |].
  split; [exact H1|]. apply H2. reflexivity.
Defined.

(** A capacity of 0 bounds nothing: [history[-0:]] is the whole list. *)
Remark zero_capacity_keeps_all now c p :
  _max_history_size p = 0%Z ->
  _curve_history (_store_curve_snapshot now c p)
  = _curve_history p ++ [make_snapshot now c].
Proof.
  intro H. unfold _store_curve_snapshot. cbn [_curve_history]. rewrite H.
  destruct (0 <? _)%Z; reflexivity.
Qed.

End LedgerFacts.

Module PollFacts.

(** C7. A turn of the poll loop whose fetch fails leaves the provider as it
    was, for both providers: the ledger, the last curve and the callback are
    unchanged and nothing is handed to the broadcast callback.  A fetch
    fails in particular when the primary request raises (a timeout). *)
Theorem failed_fetch_changes_nothing :
  (forall now tracking yesterday history p,
     V4CurveProvider.fetch_curve (now 0%nat) tracking yesterday history = Ok None ->
     V4CurveProvider.poll_cycle now tracking yesterday history p = (p, [])) /\
  (forall now resp p,
     V5CurveProvider.fetch_curve now resp = Ok None ->
     V5CurveProvider.poll_cycle now resp p = (p, [])) /\
  (forall now e yesterday history p,
     V4CurveProvider.poll_cycle now (Failed e) yesterday history p = (p, [])) /\
  (forall now e p,
     V5CurveProvider.poll_cycle now (Failed e) p = (p, [])).
Proof.
  split; [|split; [|split]].
  - intros now t y h p H. unfold V4CurveProvider.poll_cycle. now rewrite H.
  - intros now r p H. unfold V5CurveProvider.poll_cycle. now rewrite H.
  - intros now e y h p. reflexivity.
  - intros now e p. destruct e; reflexivity.
Qed.

(** The provider with a callback and 3 snapshots, at a timeout of the
    primary request. *)
Lemma failed_fetch_changes_nothing_witness :
  let p := V4CurveProviderSpec.store_all (V4CurveProviderSpec.sample_appends 3)
             {| V4CurveProvider._broadcast_callback := true;
                V4CurveProvider._last_curve :=
                  Some (V4CurveProviderSpec.sample_curve 2 false);
                V4CurveProvider._curve_history := [];
                V4CurveProvider._max_history_size := 300 |} in
  V4CurveProvider.poll_cycle V4CurveProviderSpec.stamp (Failed TimeoutError)
    (Failed TimeoutError) (Failed TimeoutError) p = (p, []).
Proof.
  intro p.
  apply (proj1 failed_fetch_changes_nothing V4CurveProviderSpec.stamp
           (Failed TimeoutError) (Failed TimeoutError) (Failed TimeoutError) p).
  reflexivity.
Defined.

End PollFacts.

Module StabilizationFacts.
Import V4CurveProvider V4CurveProviderSpec.

Lemma py_get_field d k df :
  is_dict d = true -> py_get d k df = Ok (field d k df).
Proof. destruct d; simpl; try discriminate. reflexivity. Qed.

Lemma curve_shape_point fc h :
  curve_shape fc = true -> In h HORIZONS ->
  is_dict fc = true /\ is_dict (field fc h (VDict [])) = true.
Proof.
  unfold curve_shape. intros H Hin. apply andb_true_iff in H. destruct H as [H1 H2].
  split; auto. rewrite forallb_forall in H2. auto.
Qed.

Lemma last_cons_default {A} (l : list A) : forall x d,
  List.last (x :: l) d = List.last l x.
Proof.
  induction l as [|y l IH]; intros x d; [reflexivity|].
  change (List.last (x :: y :: l) d) with (List.last (y :: l) d).
  now rewrite !IH.
Qed.

(** Lines 186-193 on a well-shaped entry. *)
Lemma scan_entry_shape h last entry :
  entry_shape entry = true -> In h HORIZONS ->
  exists ts,
    scan_entry h last entry
    = Ok (match pending_price h entry with
          | Some p => (p, ts)
          | None => last
          end).
Proof.
  unfold entry_shape. intros H Hin.
  apply andb_true_iff in H. destruct H as [H Hc].
  apply andb_true_iff in H. destruct H as [Hd _].
  destruct (curve_shape_point _ h Hc Hin) as [Hfc Hh].
  exists (field entry "timestamp" VNone).
  unfold scan_entry, pending_price.
  rewrite (py_get_field entry) by assumption. cbn [rbind].
  rewrite (py_get_field _ h) by assumption. cbn [rbind].
  set (h_data := field (field entry "forward_curve" (VDict [])) h (VDict [])) in *.
  destruct (truthy h_data); [|reflexivity].
  rewrite (py_get_field h_data) by assumption. cbn [rbind andb].
  destruct (truthy (field h_data "is_actual" (VBool false))); [reflexivity|].
  cbn [negb]. rewrite (py_get_field h_data) by assumption. cbn [rbind].
  rewrite (py_get_field entry) by assumption. reflexivity.
Qed.

(** The scan of lines 183-193 ends on the last pending price. *)
Lemma scan_history h : forall history last,
  forallb entry_shape history = true -> In h HORIZONS ->
  exists ts,
    fold_result (scan_entry h) history last
    = Ok (List.last (pending_prices h history) (fst last), ts).
Proof.
  induction history as [|e history IH]; intros last Hs Hin.
  - exists (snd last). simpl. now destruct last.
  - simpl in Hs. apply andb_true_iff in Hs. destruct Hs as [He Hs].
    destruct (scan_entry_shape h last e He Hin) as (ts & E).
    cbn [fold_result]. rewrite E. cbn [rbind].
    unfold pending_prices. cbn [flat_map]. fold (pending_prices h history).
    destruct (pending_price h e) as [p|].
    + destruct (IH (p, ts) Hs Hin) as (ts' & E'). exists ts'. rewrite E'.
      cbn [fst]. f_equal. f_equal.
      change ([p] ++ pending_prices h history) with (p :: pending_prices h history).
      symmetry. apply last_cons_default.
    + destruct (IH last Hs Hin) as (ts' & E'). exists ts'. rewrite E'.
      reflexivity.
Qed.


(** *** The sort of a history that is given oldest first *)

Lemma keys_of_history history :
  forallb entry_shape history = true ->
  map_result (fun x => match py_get x "timestamp" (VStr "") with
                       | Ok k => Ok (sort_key_of k, x)
                       | Raise e => Raise e
                       end) history
  = Ok (keyed history).
Proof.
  induction history as [|e history IH]; intro Hs; [reflexivity|].
  simpl in Hs. apply andb_true_iff in Hs. destruct Hs as [He Hs].
  cbn [map_result]. rewrite (IH Hs).
  unfold entry_shape in He.
  apply andb_true_iff in He. destruct He as [He _].
  apply andb_true_iff in He. destruct He as [Hd Ht].
  rewrite (py_get_field e) by assumption.
  unfold keyed. cbn [map]. unfold timestamp_of.
  destruct (field e "timestamp" (VStr "")); try discriminate. reflexivity.
Qed.

Lemma sort_keyed history :
  oldest_first history = true -> sort_by_key (keyed history) = Ok (keyed history).
Proof.
  induction history as [|a history IH]; intro Ho; [reflexivity|].
  assert (Ho' : oldest_first history = true).
  { destruct history as [|b history]; [reflexivity|].
    cbn [oldest_first] in Ho. apply andb_true_iff in Ho. apply Ho. }
  unfold keyed in *. cbn [map sort_by_key]. rewrite (IH Ho').
  destruct history as [|b history]; [reflexivity|].
  cbn [oldest_first] in Ho. apply andb_true_iff in Ho. destruct Ho as [Hab _].
  apply negb_true_iff in Hab.
  cbn [map insert_by_key fst key_lt]. rewrite Hab. reflexivity.
Qed.

Lemma py_sorted_oldest_first history :
  forallb entry_shape history = true -> oldest_first history = true ->
  py_sorted (fun x => py_get x "timestamp" (VStr "")) (VList history) = Ok history.
Proof.
  intros Hs Ho. unfold py_sorted. cbn [py_iter].
  rewrite (keys_of_history history Hs), (sort_keyed history Ho).
  unfold keyed. rewrite map_map. cbn [snd]. now rewrite map_id.
Qed.

(** *** The loop over the horizons *)

Lemma assoc_dict_set_same {A} h (v : A) d : assoc h (dict_set h v d) = Some v.
Proof.
  induction d as [|[k x] d IH]; simpl.
  - now rewrite String.eqb_refl.
  - destruct (String.eqb h k) eqn:E; simpl.
    + now rewrite String.eqb_refl.
    + now rewrite E.
Qed.

Lemma assoc_dict_set_other {A} h h' (v : A) d :
  h' <> h -> assoc h' (dict_set h v d) = assoc h' d.
Proof.
  intro N. apply String.eqb_neq in N.
  induction d as [|[k x] d IH]; simpl.
  - now rewrite N.
  - destruct (String.eqb h k) eqn:E; simpl.
    + apply String.eqb_eq in E. subst k. now rewrite N.
    + destruct (String.eqb h' k); auto.
Qed.

Lemma is_none_eq v : is_none v = true -> v = VNone.
Proof. destruct v; simpl; try discriminate. reflexivity. Qed.

Lemma stabilize_horizon_shape history current stab h :
  forallb entry_shape history = true -> curve_shape current = true ->
  In h HORIZONS ->
  exists stab',
    stabilize_horizon history current stab h = Ok stab' /\
    (forall h', h' <> h -> assoc h' stab' = assoc h' stab) /\
    (assoc h stab = None ->
     figure_of (assoc h stab') = Ok (ruled_figure history current h)).
Proof.
  intros Hs Hc Hin.
  destruct (curve_shape_point _ h Hc Hin) as [Hd Hp].
  unfold stabilize_horizon, ruled_figure, realized_now, current_price_of.
  rewrite (py_get_field current) by assumption. cbn [rbind].
  rewrite (py_get_field (field current h (VDict []))) by assumption. cbn [rbind].
  destruct (truthy (field (field current h (VDict [])) "is_actual" (VBool false))).
  - destruct (scan_history h history (VNone, VNone) Hs Hin) as (ts & E).
    rewrite E. cbn [rbind fst snd]. fold (last_pending_price h history).
    destruct (is_none (last_pending_price h history)) eqn:N; cbn [negb].
    + exists stab. split; [reflexivity|]. split; [reflexivity|].
      intro A. rewrite A. apply is_none_eq in N. rewrite N. reflexivity.
    + eexists. split; [reflexivity|]. split.
      * intros h' Hn. now apply assoc_dict_set_other.
      * intros _. rewrite assoc_dict_set_same. reflexivity.
  - rewrite (py_get_field (field current h (VDict []))) by assumption.
    cbn [rbind]. eexists. split; [reflexivity|]. split.
    + intros h' Hn. now apply assoc_dict_set_other.
    + intros _. rewrite assoc_dict_set_same. reflexivity.
Qed.

Lemma stabilize_horizons history current : forall hs stab,
  forallb entry_shape history = true -> curve_shape current = true ->
  NoDup hs -> (forall h, In h hs -> In h HORIZONS) ->
  exists stab',
    fold_result (stabilize_horizon history current) hs stab = Ok stab' /\
    (forall h, ~ In h hs -> assoc h stab' = assoc h stab) /\
    (forall h, In h hs -> assoc h stab = None ->
       figure_of (assoc h stab') = Ok (ruled_figure history current h)).
Proof.
  induction hs as [|a hs IH]; intros stab Hs Hc Hnd Hsub.
  - exists stab. split; [reflexivity|]. split; [reflexivity|]. intros h [].
  - inversion Hnd as [|x l Hna Hnd']; subst.
    destruct (stabilize_horizon_shape history current stab a Hs Hc)
      as (s1 & E1 & O1 & F1); [apply Hsub; now left|].
    destruct (IH s1 Hs Hc Hnd') as (s2 & E2 & O2 & F2).
    { intros h Hh. apply Hsub. now right. }
    exists s2. cbn [fold_result]. rewrite E1. cbn [rbind].
    split; [exact E2|]. split.
    + intros h Hn. rewrite O2.
      * apply O1. intro X. apply Hn. left. auto.
      * intro X. apply Hn. now right.
    + intros h [-> | Hh] A.
      * rewrite (O2 h Hna). now apply F1.
      * apply F2; auto. rewrite O1; auto. intro X. subst h. contradiction.
Qed.

Lemma HORIZONS_NoDup : NoDup HORIZONS.
Proof.
  unfold HORIZONS.
  repeat (constructor; [simpl; intuition discriminate|]). constructor.
Qed.


(** *** The ledger side *)

Lemma evolution_prices h history :
  map evo_price (evolution_of h history) = ledger_prices h history.
Proof.
  unfold evolution_of, ledger_prices.
  induction history as [|s history IH]; [reflexivity|].
  cbn [flat_map]. rewrite map_app, IH.
  destruct (assoc h (predictions s)); reflexivity.
Qed.

Lemma last_map {A B} (f : A -> B) l d : List.last (map f l) (f d) = f (List.last l d).
Proof.
  induction l as [|x l IH]; [reflexivity|].
  destruct l as [|y l]; [reflexivity|].
  change (List.last (map f (x :: y :: l)) (f d)) with (List.last (map f (y :: l)) (f d)).
  rewrite IH. reflexivity.
Qed.

Lemma add_history_to_point_figure history pt :
  last_stabilized_price (add_history_to_point history pt)
  = match ledger_prices (horizon pt) history with
    | [] => None
    | _ :: _ =>
        Some (if truthy (is_actual pt)
              then List.last (ledger_prices (horizon pt) history) VNone
              else target_price pt)
    end.
Proof.
  unfold add_history_to_point. cbn [last_stabilized_price].
  rewrite <- evolution_prices.
  destruct (evolution_of (horizon pt) history) as [|e l] eqn:E; [reflexivity|].
  cbn [map]. destruct (truthy (is_actual pt)); [|reflexivity].
  f_equal.
  change (evo_price e :: map evo_price l) with (map evo_price (e :: l)).
  change VNone with
    (evo_price {| evo_timestamp := ""; evo_hours_elapsed := VNone;
                  evo_price := VNone |}).
  now rewrite last_map.
Qed.

Lemma snapshot_predictions_holds h : forall pts acc,
  (assoc h acc <> None \/
   exists pt, In pt pts /\ horizon pt = h /\ truthy (is_actual pt) = false) ->
  assoc h (fold_left
             (fun preds point =>
                if negb (truthy (is_actual point))
                then dict_set (horizon point)
                       {| price := target_price point;
                          pred_original_price := original_price point |} preds
                else preds) pts acc) <> None.
Proof.
  induction pts as [|p pts IH]; intros acc H.
  - destruct H as [H | (pt & [] & _)]. exact H.
  - cbn [fold_left]. apply IH.
    destruct H as [H | (pt & [<- | Hin] & Hh & Ha)].
    + left. destruct (negb (truthy (is_actual p))); auto.
      destruct (String.eqb_spec h (horizon p)) as [->|N].
      * rewrite assoc_dict_set_same. discriminate.
      * rewrite assoc_dict_set_other; auto.
    + left. rewrite Ha. cbn [negb]. subst h.
      rewrite assoc_dict_set_same. discriminate.
    + right. eauto.
Qed.

Lemma ledger_prices_app h a b :
  ledger_prices h (a ++ b) = ledger_prices h a ++ ledger_prices h b.
Proof. unfold ledger_prices. apply flat_map_app. Qed.

(** After the snapshot of the current curve is stored, the ledger holds the
    pending horizons of the curve. *)
Lemma stored_snapshot_holds_pending now c p pt :
  (0 < _max_history_size p)%Z -> In pt (curve c) ->
  truthy (is_actual pt) = false ->
  ledger_prices (horizon pt) (_curve_history (_store_curve_snapshot now c p)) <> [].
Proof.
  intros Hk Hin Ha.
  destruct (LedgerFacts.store_curve_snapshot_history
              (Z.to_nat (_max_history_size p)) now c p) as [E _]; [lia|lia|].
  rewrite E. unfold most_recent.
  rewrite skipn_app, ledger_prices_app.
  replace (List.length (_curve_history p ++ [make_snapshot now c])
           - Z.to_nat (_max_history_size p)
           - List.length (_curve_history p))%nat with 0%nat
    by (rewrite length_app; simpl; lia).
  cbn [skipn]. unfold ledger_prices at 2. cbn [flat_map make_snapshot predictions].
  unfold snapshot_predictions.
  destruct (assoc (horizon pt) (fold_left _ (curve c) [])) eqn:A.
  - intro X. apply app_eq_nil in X. destruct X as [_ X]. discriminate.
  - exfalso.
    apply (snapshot_predictions_holds (horizon pt) (curve c) []); [|exact A].
    right. exists pt. auto.
Qed.


(** C3, as the code has it.  For a horizon of the catalog, over an upstream
    history given oldest first: when the history is empty no stabilized
    figure is produced (null), for any horizon; otherwise the figure of a
    horizon now realized is the price in the last entry in which the horizon
    was pending, null when there is none, and the figure of a horizon still
    pending is its current price.  The same rule holds over the ledger for
    the figure attached before the broadcast, with the snapshots that hold
    the horizon in place of the history; and in a poll cycle, where the
    snapshot of the current curve is stored first, a pending horizon always
    gets its current price.  Both are functions of the current curve and
    the history alone. *)
Theorem stabilized_figure_rule :
  (forall history current h,
     forallb entry_shape history = true -> oldest_first history = true ->
     curve_shape current = true -> In h HORIZONS ->
     exists stabilized,
       _extract_stabilized_from_history (VList history) current = Ok stabilized /\
       stabilized_figure stabilized h
       = Ok (match history with
             | [] => VNone
             | _ :: _ =>
                 if realized_now current h then last_pending_price h history
                 else current_price_of current h
             end)) /\
  (forall history pt,
     last_stabilized_price (add_history_to_point history pt)
     = match ledger_prices (horizon pt) history with
       | [] => None
       | _ :: _ =>
           Some (if truthy (is_actual pt)
                 then List.last (ledger_prices (horizon pt) history) VNone
                 else target_price pt)
       end) /\
  (forall now c p pt,
     (0 < _max_history_size p)%Z -> In pt (curve c) ->
     truthy (is_actual pt) = false ->
     last_stabilized_price
       (add_history_to_point (_curve_history (_store_curve_snapshot now c p)) pt)
     = Some (target_price pt)).
Proof.
  split; [|split].
  - intros history current h Hs Ho Hc Hin.
    unfold _extract_stabilized_from_history.
    destruct history as [|e history].
    + exists (VDict []). split; reflexivity.
    + set (hist := e :: history) in *.
      cbn [truthy negb]. unfold hist at 1. cbn [negb].
      rewrite (py_sorted_oldest_first hist Hs Ho). cbn [rbind].
      destruct (stabilize_horizons hist current HORIZONS [] Hs Hc HORIZONS_NoDup)
        as (stab & E & _ & F); [auto|].
      rewrite E. cbn [rbind]. exists (VDict stab). split; [reflexivity|].
      specialize (F h Hin eq_refl).
      unfold stabilized_figure. cbn [py_get rbind].
      unfold figure_of in F. destruct (assoc h stab); exact F.
  - apply add_history_to_point_figure.
  - intros now c p pt Hk Hin Ha.
    rewrite add_history_to_point_figure, Ha.
    pose proof (stored_snapshot_holds_pending now c p pt Hk Hin Ha) as N.
    destruct (ledger_prices (horizon pt) _); [contradiction|reflexivity].
Qed.

(** The scenario: +1H was last pending at 65180, +2H is pending at 65310. *)
Lemma stabilized_figure_rule_witness :
  (exists stabilized,
     _extract_stabilized_from_history (VList scenario_history) scenario_current
     = Ok stabilized /\
     stabilized_figure stabilized "+1H" = Ok (VInt 65180)) /\
  (exists stabilized,
     _extract_stabilized_from_history (VList scenario_history) scenario_current
     = Ok stabilized /\
     stabilized_figure stabilized "+2H" = Ok (VInt 65310)).
Proof.
  split.
  - apply (proj1 stabilized_figure_rule scenario_history scenario_current "+1H");
      try reflexivity.
    simpl. auto.
  - apply (proj1 stabilized_figure_rule scenario_history scenario_current "+2H");
      try reflexivity.
    simpl. auto.
Defined.

(** C3 as stated fails for a pending horizon over an empty history: no
    figure is produced though the current price is there; so it is when the
    history request gave nothing, and over the ledger when no snapshot
    holds the horizon. *)
Lemma pending_horizon_without_history_has_no_figure :
  realized_now scenario_current "+2H" = false /\
  current_price_of scenario_current "+2H" = VInt 65310 /\
  (exists stabilized,
     _extract_stabilized_from_history (VList []) scenario_current = Ok stabilized /\
     stabilized_figure stabilized "+2H" = Ok VNone) /\
  (exists stabilized,
     _extract_stabilized_from_history VNone scenario_current = Ok stabilized /\
     stabilized_figure stabilized "+2H" = Ok VNone) /\
  last_stabilized_price (add_history_to_point [] (sample_point 7 false)) = None.
Proof.
  split; [reflexivity|]. split; [reflexivity|].
  split; [exists (VDict []); split; reflexivity|].
  split; [exists (VDict []); split; reflexivity|].
  reflexivity.
Qed.

End StabilizationFacts.

(** ** Further properties of the providers, the server and the store *)

Module PollTimingFacts.

(** X1. The sleep of the V4 poll loop, computed from the minute and the
    second of the local time, lasts between 6 and 305 seconds and ends 5
    seconds after a 5-minute mark of the hour; the mark that the loop logs
    is the minute in which the sleep ends. *)
Theorem v4_sleep_reaches_next_mark (m s : Z) :
  (0 <= m < 60)%Z -> (0 <= s < 60)%Z ->
  let '(mark, wait) := V4CurveProvider.next_poll m s in
  (6 <= wait <= 305)%Z /\
  ((m * 60 + s + wait) mod 300 = 5)%Z /\
  (mark = ((m * 60 + s + wait) / 60) mod 60)%Z /\
  (mark mod 5 = 0)%Z.
Proof.
  intros Hm Hs. unfold V4CurveProvider.next_poll.
  destruct (60 <=? (m / 5 + 1) * 5)%Z eqn:E.
  - apply Z.leb_le in E. repeat split; Z.div_mod_to_equations; lia.
  - apply Z.leb_gt in E. repeat split; Z.div_mod_to_equations; lia.
Qed.

Lemma v4_sleep_reaches_next_mark_witness :
  let '(mark, wait) := V4CurveProvider.next_poll 58 59 in
  (6 <= wait <= 305)%Z /\
  ((58 * 60 + 59 + wait) mod 300 = 5)%Z /\
  (mark = ((58 * 60 + 59 + wait) / 60) mod 60)%Z /\
  (mark mod 5 = 0)%Z.
Proof. apply (v4_sleep_reaches_next_mark 58 59); lia. Defined.

(** X2. The sleep of the V5 poll loop lasts between 3 and 302 seconds and
    ends 2 seconds after a 5-minute mark of the hour; at the same time of
    day the V4 loop aims at the same mark and sleeps 3 seconds longer. *)
Theorem v5_sleep_reaches_next_mark (m s : Z) :
  (0 <= m < 60)%Z -> (0 <= s < 60)%Z ->
  let '(mark, wait) := V5CurveProvider.next_poll m s in
  (3 <= wait <= 302)%Z /\
  ((m * 60 + s + wait) mod 300 = 2)%Z /\
  (mark mod 5 = 0)%Z /\
  V4CurveProvider.next_poll m s = (mark, (wait + 3)%Z).
Proof.
  intros Hm Hs. unfold V5CurveProvider.next_poll, V4CurveProvider.next_poll.
  destruct (60 <=? (m / 5 + 1) * 5)%Z eqn:E.
  - apply Z.leb_le in E. repeat split; try (Z.div_mod_to_equations; lia).
    f_equal. lia.
  - apply Z.leb_gt in E. repeat split; try (Z.div_mod_to_equations; lia).
    f_equal. lia.
Qed.

Lemma v5_sleep_reaches_next_mark_witness :
  let '(mark, wait) := V5CurveProvider.next_poll 12 30 in
  (3 <= wait <= 302)%Z /\
  ((12 * 60 + 30 + wait) mod 300 = 2)%Z /\
  (mark mod 5 = 0)%Z /\
  V4CurveProvider.next_poll 12 30 = (mark, (wait + 3)%Z).
Proof. apply (v5_sleep_reaches_next_mark 12 30); lia. Defined.

End PollTimingFacts.

Module SortFacts.
Import V4CurveProvider V4CurveProviderSpec V4TransformSpec StabilizationFacts.

Lemma ltb_asym a b : String.ltb a b = true -> String.ltb b a = false.
Proof.
  unfold String.ltb. rewrite (String.compare_antisym b a).
  destruct (String.compare a b); simpl; congruence.
Qed.

Section Insert.
Context {A : Type}.
Implicit Types (x : sort_key * A) (l : list (sort_key * A)).

Lemma keys_ordered_cons2 a b l :
  keys_ordered (a :: b :: l)
  = negb (String.ltb (key_string (fst b)) (key_string (fst a)))
    && keys_ordered (b :: l).
Proof. reflexivity. Qed.

Lemma keys_ordered_tail a l : keys_ordered (a :: l) = true -> keys_ordered l = true.
Proof.
  destruct l; [reflexivity|]. rewrite keys_ordered_cons2.
  intro H. apply andb_true_iff in H. apply H.
Qed.

Lemma insert_str x : forall l,
  is_kstr (fst x) = true -> forallb (fun p => is_kstr (fst p)) l = true ->
  exists r,
    insert_by_key x l = Ok r /\
    Permutation (x :: l) r /\
    forallb (fun p => is_kstr (fst p)) r = true /\
    (keys_ordered l = true -> keys_ordered r = true) /\
    (forall f : sort_key * A -> bool,
       (forall a b, f a = true -> f b = true ->
                    String.ltb (key_string (fst a)) (key_string (fst b)) = false) ->
       filter f r = filter f (x :: l)).
Proof.
  intros l Hx. induction l as [|y l IH]; intro Hl.
  - exists [x]. cbn. rewrite Hx. repeat split; auto.
  - cbn [forallb] in Hl. apply andb_true_iff in Hl. destruct Hl as [Hy Hl].
    cbn [insert_by_key]. destruct x as [kx vx], y as [ky vy]. cbn [fst] in *.
    destruct kx as [sx| |]; try discriminate.
    destruct ky as [sy| |]; try discriminate. cbn [key_lt].
    destruct (String.ltb sy sx) eqn:L.
    + destruct (IH Hl) as (r & E & P & S & O & F). rewrite E.
      exists ((KStr sy, vy) :: r). split; [reflexivity|]. split.
      { rewrite perm_swap. now constructor. }
      split. { cbn [forallb fst is_kstr]. exact S. }
      split.
      * intro Oy. specialize (O (keys_ordered_tail _ _ Oy)).
        destruct r as [|z r]; [reflexivity|].
        rewrite keys_ordered_cons2, O, andb_true_r.
        destruct l as [|z' l'].
        -- cbn [insert_by_key] in E. inversion E; subst. cbn [fst key_string].
           now rewrite (ltb_asym _ _ L).
        -- cbn [insert_by_key] in E. unfold fst at 2 in E.
           destruct (key_lt (fst z') (KStr sx)) as [[|]|]; try discriminate.
           ++ destruct (insert_by_key (KStr sx, vx) l'); inversion E; subst.
              rewrite keys_ordered_cons2 in Oy.
              apply andb_true_iff in Oy. apply Oy.
           ++ inversion E; subst. cbn [fst key_string].
              now rewrite (ltb_asym _ _ L).
      * intros f Hf. cbn [filter]. rewrite (F f Hf). cbn [filter].
        destruct (f (KStr sx, vx)) eqn:Fx; [|reflexivity].
        destruct (f (KStr sy, vy)) eqn:Fy; [|reflexivity].
        specialize (Hf _ _ Fy Fx). cbn [fst key_string] in Hf. congruence.
    + exists ((KStr sx, vx) :: (KStr sy, vy) :: l).
      split; [reflexivity|]. split; [apply Permutation_refl|].
      split. { cbn [forallb fst is_kstr]. exact Hl. }
      split.
      * intro Oy. rewrite keys_ordered_cons2. cbn [fst key_string].
        rewrite L. exact Oy.
      * reflexivity.
Qed.

Lemma sort_str : forall l,
  forallb (fun p => is_kstr (fst p)) l = true ->
  exists r,
    sort_by_key l = Ok r /\
    Permutation l r /\
    forallb (fun p => is_kstr (fst p)) r = true /\
    keys_ordered r = true /\
    (forall f : sort_key * A -> bool,
       (forall a b, f a = true -> f b = true ->
                    String.ltb (key_string (fst a)) (key_string (fst b)) = false) ->
       filter f r = filter f l).
Proof.
  induction l as [|x l IH]; intro Hl.
  - exists []. repeat split; auto.
  - cbn [forallb] in Hl. apply andb_true_iff in Hl. destruct Hl as [Hx Hl].
    destruct (IH Hl) as (r & E & P & S & O & F).
    destruct (insert_str x r Hx S) as (r' & E' & P' & S' & O' & F').
    exists r'. cbn [sort_by_key]. rewrite E. split; [exact E'|].
    split. { rewrite <- P'. now constructor. }
    split; [exact S'|]. split; [auto|].
    intros f Hf. rewrite (F' f Hf). cbn [filter]. now rewrite (F f Hf).
Qed.

End Insert.


Lemma ltb_irrefl a : String.ltb a a = false.
Proof.
  destruct (String.ltb a a) eqn:E; [|reflexivity].
  now rewrite (ltb_asym _ _ E) in E.
Qed.

Lemma keyed_all l : Forall keyed_by_timestamp (keyed l).
Proof. unfold keyed. induction l; constructor; auto. reflexivity. Qed.

Lemma keyed_kstr l : forallb (fun p => is_kstr (fst p)) (keyed l) = true.
Proof. unfold keyed. induction l; simpl; auto. Qed.

Lemma keyed_of_snd r : Forall keyed_by_timestamp r -> r = keyed (map snd r).
Proof.
  induction 1 as [|[k v] r H _ IH]; [reflexivity|].
  unfold keyed in *. cbn [map snd]. rewrite <- IH.
  unfold keyed_by_timestamp in H. cbn [fst snd] in H. now rewrite H.
Qed.

Lemma keys_ordered_keyed l : keys_ordered (keyed l) = oldest_first l.
Proof.
  unfold keyed. induction l as [|a l IH]; [reflexivity|].
  destruct l as [|b l]; [reflexivity|].
  cbn [map]. rewrite keys_ordered_cons2. cbn [fst key_string oldest_first].
  cbn [map] in IH. now rewrite IH.
Qed.

Lemma filter_keyed t l :
  map snd (filter (fun p => String.eqb (key_string (fst p)) t) (keyed l))
  = filter (fun e => String.eqb (timestamp_of e) t) l.
Proof.
  unfold keyed. induction l as [|a l IH]; [reflexivity|].
  cbn [map filter fst key_string].
  destruct (String.eqb (timestamp_of a) t); cbn [map snd]; now rewrite IH.
Qed.

Lemma forallb_Permutation {A} (f : A -> bool) l l' :
  Permutation l l' -> forallb f l = true -> forallb f l' = true.
Proof.
  intros P H. apply forallb_forall. intros x Hx.
  rewrite forallb_forall in H. apply H.
  apply (Permutation_in _ (Permutation_sym P) Hx).
Qed.

(** X8. The history is sorted by timestamp before it is scanned.  For
    entries of the expected shape the sort returns; the sorted list is a
    permutation of the given one, is oldest first, and keeps the entries of
    equal timestamp in the order given; and the stabilized predictions of a
    history are those of the history sorted beforehand. *)
Theorem history_is_sorted_stably l :
  forallb entry_shape l = true ->
  exists sorted,
    py_sorted (fun x => py_get x "timestamp" (VStr "")) (VList l) = Ok sorted /\
    Permutation l sorted /\
    oldest_first sorted = true /\
    (forall t, filter (fun e => String.eqb (timestamp_of e) t) sorted
               = filter (fun e => String.eqb (timestamp_of e) t) l) /\
    (forall current,
       _extract_stabilized_from_history (VList l) current
       = _extract_stabilized_from_history (VList sorted) current).
Proof.
  intro Hs.
  destruct (sort_str (keyed l) (keyed_kstr l)) as (r & E & P & S & O & F).
  assert (K : Forall keyed_by_timestamp r).
  { apply (Permutation_Forall P), keyed_all. }
  assert (Pl : Permutation l (map snd r)).
  { apply (Permutation_map snd) in P. unfold keyed in P at 1.
    rewrite map_map in P. cbn [snd] in P. now rewrite map_id in P. }
  assert (Ol : oldest_first (map snd r) = true).
  { rewrite <- keys_ordered_keyed, <- (keyed_of_snd r K). exact O. }
  assert (Sorted : py_sorted (fun x => py_get x "timestamp" (VStr "")) (VList l)
                   = Ok (map snd r)).
  { unfold py_sorted. cbn [py_iter]. now rewrite (keys_of_history l Hs), E. }
  exists (map snd r). split; [exact Sorted|]. split; [exact Pl|].
  split; [exact Ol|]. split.
  - intro t. rewrite <- (filter_keyed t l), <- (filter_keyed t (map snd r)).
    rewrite <- (keyed_of_snd r K). f_equal. apply F.
    intros a b Ha Hb. apply String.eqb_eq in Ha, Hb. rewrite Ha, Hb.
    apply ltb_irrefl.
  - intro current. unfold _extract_stabilized_from_history.
    destruct l as [|e l].
    + apply Permutation_nil in Pl. now rewrite Pl.
    + destruct (map snd r) as [|e' l'] eqn:M.
      { apply Permutation_sym, Permutation_nil in Pl. discriminate. }
      cbn [truthy negb]. rewrite <- M in *. rewrite Sorted.
      rewrite (py_sorted_oldest_first (map snd r)); auto.
      apply (forallb_Permutation _ _ _ Pl Hs).
Qed.

Lemma history_is_sorted_stably_witness :
  let l := [history_entry "2025-06-01T14:00:00" 65170 true;
            history_entry "2025-06-01T13:20:00" 65150 false;
            history_entry "2025-06-01T13:40:00" 65180 false;
            history_entry "2025-06-01T13:20:00" 65155 false] in
  exists sorted,
    py_sorted (fun x => py_get x "timestamp" (VStr "")) (VList l) = Ok sorted /\
    Permutation l sorted /\
    oldest_first sorted = true /\
    (forall t, filter (fun e => String.eqb (timestamp_of e) t) sorted
               = filter (fun e => String.eqb (timestamp_of e) t) l) /\
    (forall current,
       _extract_stabilized_from_history (VList l) current
       = _extract_stabilized_from_history (VList sorted) current).
Proof.
  intro l. apply (history_is_sorted_stably l). reflexivity.
Defined.

(** *** The history in the order of its timestamps *)

Lemma insert_keyed e : forall l,
  insert_by_key (KStr (timestamp_of e), e) (keyed l) = Ok (keyed (insert_entry e l)).
Proof.
  unfold keyed. induction l as [|x l IH]; [reflexivity|].
  cbn [map insert_by_key fst key_lt insert_entry].
  destruct (String.ltb (timestamp_of x) (timestamp_of e)); [|reflexivity].
  rewrite IH. reflexivity.
Qed.

Lemma sort_by_timestamp : forall l,
  sort_by_key (keyed l) = Ok (keyed (by_timestamp l)).
Proof.
  induction l as [|e l IH]; [reflexivity|].
  unfold keyed in *. cbn [map sort_by_key]. rewrite IH.
  apply insert_keyed.
Qed.

(** [sorted] on a history of the expected shape. *)
Lemma py_sorted_by_timestamp l :
  forallb entry_shape l = true ->
  py_sorted (fun x => py_get x "timestamp" (VStr "")) (VList l)
  = Ok (by_timestamp l).
Proof.
  intro Hs. unfold py_sorted. cbn [py_iter].
  rewrite (keys_of_history l Hs), sort_by_timestamp.
  unfold keyed. rewrite map_map. cbn [snd]. now rewrite map_id.
Qed.

Lemma map_snd_keyed l : map snd (keyed l) = l.
Proof. unfold keyed. rewrite map_map. cbn [snd]. apply map_id. Qed.

(** [by_timestamp] sorts, and sorts stably. *)
Lemma by_timestamp_sorts l : sorted_stably l (by_timestamp l).
Proof.
  destruct (sort_str (keyed l) (keyed_kstr l)) as (r & E & P & S & O & F).
  rewrite sort_by_timestamp in E. inversion E; subst r; clear E.
  split; [|split].
  - apply (Permutation_map snd) in P. now rewrite !map_snd_keyed in P.
  - now rewrite <- keys_ordered_keyed.
  - intro t. rewrite <- (filter_keyed t l), <- (filter_keyed t (by_timestamp l)).
    f_equal. apply F.
    intros a b Ha Hb. apply String.eqb_eq in Ha, Hb. rewrite Ha, Hb.
    apply ltb_irrefl.
Qed.

(** A history given oldest first is in the order of its timestamps. *)
Lemma by_timestamp_oldest_first l : oldest_first l = true -> by_timestamp l = l.
Proof.
  intro Ho. pose proof (sort_by_timestamp l) as E.
  rewrite (sort_keyed l Ho) in E. inversion E as [K].
  rewrite <- (map_snd_keyed l) at 2. rewrite K. now rewrite map_snd_keyed.
Qed.

Lemma by_timestamp_shape l :
  forallb entry_shape l = true -> forallb entry_shape (by_timestamp l) = true.
Proof.
  apply forallb_Permutation. apply by_timestamp_sorts.
Qed.

Lemma by_timestamp_nil l : by_timestamp l = [] -> l = [].
Proof.
  intro E. destruct (by_timestamp_sorts l) as [P _]. rewrite E in P.
  now apply Permutation_sym, Permutation_nil in P.
Qed.

End SortFacts.

Module TransformFacts.
Import V4CurveProvider V4CurveProviderSpec V4TransformSpec StabilizationFacts.

Lemma scan_entry_full h last entry :
  entry_shape entry = true -> In h HORIZONS ->
  scan_entry h last entry
  = Ok (match pending_price h entry with
        | Some p => (p, field entry "timestamp" VNone)
        | None => last
        end).
Proof.
  unfold entry_shape. intros H Hin.
  apply andb_true_iff in H. destruct H as [H Hc].
  apply andb_true_iff in H. destruct H as [Hd _].
  destruct (curve_shape_point _ h Hc Hin) as [Hfc Hh].
  unfold scan_entry, pending_price.
  rewrite (py_get_field entry) by assumption. cbn [rbind].
  rewrite (py_get_field _ h) by assumption. cbn [rbind].
  set (h_data := field (field entry "forward_curve" (VDict [])) h (VDict [])) in *.
  destruct (truthy h_data); [|reflexivity].
  rewrite (py_get_field h_data) by assumption. cbn [rbind andb].
  destruct (truthy (field h_data "is_actual" (VBool false))); [reflexivity|].
  cbn [negb]. rewrite (py_get_field h_data) by assumption. cbn [rbind].
  rewrite (py_get_field entry) by assumption. reflexivity.
Qed.

Lemma scan_history_full h : forall history last,
  forallb entry_shape history = true -> In h HORIZONS ->
  fold_result (scan_entry h) history last
  = Ok (List.last (pending_prices h history) (fst last),
        List.last (pending_stamps h history) (snd last)).
Proof.
  induction history as [|e history IH]; intros last Hs Hin.
  - simpl. now destruct last.
  - simpl in Hs. apply andb_true_iff in Hs. destruct Hs as [He Hs].
    cbn [fold_result]. rewrite (scan_entry_full h last e He Hin). cbn [rbind].
    unfold pending_prices, pending_stamps. cbn [flat_map].
    fold (pending_prices h history). fold (pending_stamps h history).
    destruct (pending_price h e) as [p|].
    + rewrite (IH _ Hs Hin). cbn [fst snd]. f_equal. f_equal.
      * symmetry. apply (last_cons_default (pending_prices h history)).
      * symmetry. apply (last_cons_default (pending_stamps h history)).
    + rewrite (IH _ Hs Hin). reflexivity.
Qed.

Lemma stabilize_horizon_full history current stab h :
  forallb entry_shape history = true -> curve_shape current = true ->
  In h HORIZONS ->
  stabilize_horizon history current stab h
  = Ok (match stabilized_entry history current h with
        | Some v => dict_set h v stab
        | None => stab
        end).
Proof.
  intros Hs Hc Hin.
  destruct (curve_shape_point _ h Hc Hin) as [Hd Hp].
  unfold stabilize_horizon, stabilized_entry, realized_now, current_price_of.
  rewrite (py_get_field current) by assumption. cbn [rbind].
  rewrite (py_get_field (field current h (VDict []))) by assumption. cbn [rbind].
  destruct (truthy (field (field current h (VDict [])) "is_actual" (VBool false))).
  - rewrite (scan_history_full h history (VNone, VNone) Hs Hin).
    cbn [rbind fst snd]. fold (last_pending_price h history).
    destruct (is_none (last_pending_price h history)); reflexivity.
  - rewrite (py_get_field (field current h (VDict []))) by assumption.
    reflexivity.
Qed.

Lemma stabilize_horizons_full history current : forall hs stab,
  forallb entry_shape history = true -> curve_shape current = true ->
  NoDup hs -> (forall h, In h hs -> In h HORIZONS) ->
  exists stab',
    fold_result (stabilize_horizon history current) hs stab = Ok stab' /\
    (forall h, ~ In h hs -> assoc h stab' = assoc h stab) /\
    (forall h, In h hs -> assoc h stab = None ->
       assoc h stab' = stabilized_entry history current h).
Proof.
  induction hs as [|a hs IH]; intros stab Hs Hc Hnd Hsub.
  - exists stab. split; [reflexivity|]. split; [reflexivity|]. intros h [].
  - inversion Hnd as [|x l Hna Hnd']; subst.
    assert (Ha : In a HORIZONS) by (apply Hsub; now left).
    pose proof (stabilize_horizon_full history current stab a Hs Hc Ha) as E1.
    set (s1 := match stabilized_entry history current a with
               | Some v => dict_set a v stab
               | None => stab
               end) in *.
    assert (O1 : forall h, h <> a -> assoc h s1 = assoc h stab).
    { intros h N. unfold s1. destruct (stabilized_entry history current a); auto.
      now apply assoc_dict_set_other. }
    assert (F1 : assoc a stab = None ->
                 assoc a s1 = stabilized_entry history current a).
    { intro A. unfold s1. destruct (stabilized_entry history current a).
      - apply assoc_dict_set_same.
      - exact A. }
    destruct (IH s1 Hs Hc Hnd') as (s2 & E2 & O2 & F2).
    { intros h Hh. apply Hsub. now right. }
    exists s2. cbn [fold_result]. rewrite E1. cbn [rbind].
    split; [exact E2|]. split.
    + intros h Hn. rewrite O2.
      * apply O1. intro X. apply Hn. left. auto.
      * intro X. apply Hn. now right.
    + intros h [-> | Hh] A.
      * rewrite (O2 h Hna). now apply F1.
      * apply F2; auto. rewrite O1; auto. intro X. subst h. contradiction.
Qed.

(** What [_extract_stabilized_from_history] returns on well-shaped input. *)
Lemma extract_stabilized_full history_data current :
  history_shape history_data = true -> curve_shape current = true ->
  exists stabilized,
    _extract_stabilized_from_history history_data current = Ok stabilized /\
    is_dict stabilized = true /\
    forall h, In h HORIZONS ->
      field stabilized h (VDict []) = stabilized_of history_data current h.
Proof.
  intros Hh Hc. unfold _extract_stabilized_from_history, stabilized_of.
  destruct history_data as [| | | | |l|]; try discriminate.
  - exists (VDict []). split; [reflexivity|]. split; reflexivity.
  - simpl in Hh. rename Hh into Hs.
    destruct l as [|e l].
    + exists (VDict []). split; [reflexivity|]. split; reflexivity.
    + cbn [entries_of]. set (hist := e :: l) in *.
      unfold hist at 1. cbn [truthy negb].
      rewrite (SortFacts.py_sorted_by_timestamp hist Hs). cbn [rbind].
      destruct (stabilize_horizons_full (by_timestamp hist) current HORIZONS []
                  (SortFacts.by_timestamp_shape hist Hs) Hc HORIZONS_NoDup)
        as (stab & E & _ & F); [auto|].
      rewrite E. cbn [rbind]. exists (VDict stab).
      split; [reflexivity|]. split; [reflexivity|].
      intros h Hin. cbn [field]. rewrite (F h Hin eq_refl).
      unfold hist. reflexivity.
Qed.


Lemma stabilized_of_dict history_data current h :
  is_dict (stabilized_of history_data current h) = true.
Proof.
  unfold stabilized_of, stabilized_entry.
  destruct (entries_of history_data); [reflexivity|].
  destruct (realized_now current h); [|reflexivity].
  destruct (is_none _); reflexivity.
Qed.

Lemma py_contains_dict fc h :
  is_dict fc = true -> py_contains h fc = Ok (has_key fc h).
Proof. destruct fc; simpl; try discriminate. reflexivity. Qed.

Lemma py_getitem_dict fc h :
  is_dict fc = true -> has_key fc h = true ->
  py_getitem fc h = Ok (field fc h (VDict [])).
Proof.
  destruct fc; simpl; try discriminate. intros _.
  destruct (assoc h d); [reflexivity|discriminate].
Qed.

Section Transform.
Variables (data yesterday_data history_data : pyval).
Hypothesis Hbody : body_shape data = true.
Hypothesis Hyest : yesterday_shape yesterday_data = true.
Hypothesis Hhist : history_shape history_data = true.

Local Abbreviation fc := (field data "forward_curve" (VDict [])).
Local Abbreviation op := (field data "original_predictions" (VDict [])).
Local Abbreviation yc := (if truthy yesterday_data
                      then field yesterday_data "forward_curve" (VDict [])
                      else VDict []).

Lemma body_parts :
  is_dict data = true /\ curve_shape fc = true /\ curve_shape op = true.
Proof.
  unfold body_shape in Hbody.
  apply andb_true_iff in Hbody. destruct Hbody as [H H3].
  apply andb_true_iff in H. destruct H as [H1 H2]. auto.
Qed.

Lemma yesterday_curve_shape : curve_shape yc = true.
Proof.
  unfold yesterday_shape in *. destruct (truthy yesterday_data).
  - simpl in Hyest. apply andb_true_iff in Hyest. apply Hyest.
  - reflexivity.
Qed.

Lemma transform_point_shape stabilized acc h :
  In h HORIZONS -> is_dict stabilized = true ->
  field stabilized h (VDict []) = stabilized_of history_data fc h ->
  transform_point fc op yc stabilized acc h
  = Ok (if has_key fc h
        then acc ++ [expected_point data yesterday_data history_data h]
        else acc).
Proof.
  intros Hin Hd Hs.
  destruct body_parts as (_ & Hfc & Hop).
  pose proof yesterday_curve_shape as Hyc.
  destruct (curve_shape_point _ h Hfc Hin) as [Dfc Pfc].
  destruct (curve_shape_point _ h Hop Hin) as [Dop Pop].
  destruct (curve_shape_point _ h Hyc Hin) as [Dyc Pyc].
  unfold transform_point.
  rewrite (py_contains_dict fc h Dfc). cbn [rbind].
  destruct (has_key fc h) eqn:K; [|reflexivity].
  rewrite (py_getitem_dict fc h Dfc K). cbn [rbind].
  rewrite (py_get_field op) by assumption. cbn [rbind].
  rewrite (py_get_field yc) by assumption. cbn [rbind].
  rewrite (py_get_field stabilized) by assumption. cbn [rbind].
  rewrite !(py_get_field (field fc h (VDict []))) by assumption. cbn [rbind].
  rewrite !(py_get_field (field op h (VDict []))) by assumption. cbn [rbind].
  rewrite !(py_get_field (field yc h (VDict []))) by assumption. cbn [rbind].
  rewrite Hs.
  rewrite !(py_get_field (stabilized_of history_data fc h))
    by apply stabilized_of_dict.
  reflexivity.
Qed.

Lemma transform_points_shape stabilized :
  is_dict stabilized = true ->
  (forall h, In h HORIZONS ->
     field stabilized h (VDict []) = stabilized_of history_data fc h) ->
  forall hs acc,
    (forall h, In h hs -> In h HORIZONS) ->
    fold_result (transform_point fc op yc stabilized) hs acc
    = Ok (acc ++ map (expected_point data yesterday_data history_data)
                   (filter (has_key fc) hs)).
Proof.
  intros Hd Hs. induction hs as [|h hs IH]; intros acc Hsub.
  - simpl. now rewrite app_nil_r.
  - cbn [fold_result].
    rewrite (transform_point_shape stabilized acc h); auto.
    2:{ apply Hsub. now left. }
    2:{ apply Hs, Hsub. now left. }
    cbn [rbind filter]. rewrite IH.
    2:{ intros x Hx. apply Hsub. now right. }
    destruct (has_key fc h); [|reflexivity].
    cbn [map]. now rewrite <- app_assoc.
Qed.

(** [_transform_response] on well-shaped bodies. *)
Lemma transform_response_shape now :
  _transform_response now data yesterday_data history_data
  = Ok (expected_curve now data yesterday_data history_data).
Proof.
  destruct body_parts as (Dd & Hfc & Hop).
  unfold _transform_response.
  rewrite !(py_get_field data) by assumption. cbn [rbind].
  assert (Y : (if truthy yesterday_data
               then py_get yesterday_data "forward_curve" (VDict [])
               else Ok (VDict [])) = Ok yc).
  { unfold yesterday_shape in *. destruct (truthy yesterday_data); auto.
    simpl in Hyest. apply andb_true_iff in Hyest. destruct Hyest as [Dy _].
    now rewrite (py_get_field yesterday_data). }
  rewrite Y. cbn [rbind].
  destruct (extract_stabilized_full history_data fc Hhist Hfc)
    as (stabilized & E & Ds & Fs).
  rewrite E. cbn [rbind].
  fold op. rewrite (transform_points_shape stabilized Ds Fs HORIZONS []); auto.
  cbn [rbind app].
  assert (L : (if is_none history_data then Ok false
               else n <~ py_len history_data ;; Ok (Nat.ltb 0 n))
              = Ok (match entries_of history_data with
                    | [] => false
                    | _ :: _ => true
                    end)).
  { destruct history_data as [| | | | |l|]; try discriminate; [reflexivity|].
    destruct l; reflexivity. }
  rewrite L. reflexivity.
Qed.

End Transform.


Lemma filter_NoDup {A} (f : A -> bool) l : NoDup l -> NoDup (filter f l).
Proof.
  induction 1 as [|x l Hx Hl IH]; simpl; [constructor|].
  destruct (f x); auto. constructor; auto.
  intro X. apply filter_In in X. tauto.
Qed.

Lemma filter_length_le {A} (f : A -> bool) l :
  (List.length (filter f l) <= List.length l)%nat.
Proof. induction l as [|x l IH]; simpl; [lia|]. destruct (f x); simpl; lia. Qed.

Lemma map_horizon_expected data y hd hs :
  map horizon (map (expected_point data y hd) hs) = hs.
Proof. rewrite map_map. cbn [expected_point horizon]. apply map_id. Qed.

(** X3. On well-shaped bodies [_transform_response] returns a curve whose
    points are the horizons of the catalog that the forward curve has, in
    the order of the catalog, each once, so at most 8.  Each point carries
    the price, the percent change, the bounds and the realized flag of its
    horizon in the forward curve (0, 0, 0, 0 and False where the key is
    absent), and the original price and percent of its horizon in the
    original predictions (None where absent). *)
Theorem transform_points_follow_catalog now data y hd :
  body_shape data = true -> yesterday_shape y = true ->
  history_shape hd = true ->
  exists c,
    _transform_response now data y hd = Ok c /\
    map horizon (curve c)
    = filter (has_key (field data "forward_curve" (VDict []))) HORIZONS /\
    NoDup (map horizon (curve c)) /\
    (List.length (curve c) <= 8)%nat /\
    Forall (fun pt =>
      let p := field (field data "forward_curve" (VDict [])) (horizon pt) (VDict []) in
      let o := field (field data "original_predictions" (VDict []))
                 (horizon pt) (VDict []) in
      target_price pt = field p "price" (VInt 0) /\
      pct_change pt = field p "pct_change" (VInt 0) /\
      lower_90 pt = field p "lower_90" (VInt 0) /\
      upper_90 pt = field p "upper_90" (VInt 0) /\
      is_actual pt = field p "is_actual" (VBool false) /\
      original_price pt = field o "original_price" VNone /\
      original_pct pt = field o "original_pct" VNone) (curve c).
Proof.
  intros Hb Hy Hh. eexists. split; [now apply transform_response_shape|].
  cbn [expected_curve curve]. rewrite map_horizon_expected.
  split; [reflexivity|]. split; [apply filter_NoDup, HORIZONS_NoDup|].
  split.
  - rewrite length_map.
    apply (Nat.le_trans _ _ _ (filter_length_le _ HORIZONS)). simpl. lia.
  - apply Forall_forall. intros pt Hin. apply in_map_iff in Hin.
    destruct Hin as (h & <- & _). cbn. repeat split.
Qed.

Lemma transform_points_follow_catalog_witness :
  exists c,
    _transform_response "2025-06-01T14:05:05" tracking_body VNone
      (VList scenario_history) = Ok c /\
    map horizon (curve c)
    = filter (has_key (field tracking_body "forward_curve" (VDict []))) HORIZONS /\
    NoDup (map horizon (curve c)) /\
    (List.length (curve c) <= 8)%nat /\
    Forall (fun pt =>
      let p := field (field tracking_body "forward_curve" (VDict [])) (horizon pt) (VDict []) in
      let o := field (field tracking_body "original_predictions" (VDict []))
                 (horizon pt) (VDict []) in
      target_price pt = field p "price" (VInt 0) /\
      pct_change pt = field p "pct_change" (VInt 0) /\
      lower_90 pt = field p "lower_90" (VInt 0) /\
      upper_90 pt = field p "upper_90" (VInt 0) /\
      is_actual pt = field p "is_actual" (VBool false) /\
      original_price pt = field o "original_price" VNone /\
      original_pct pt = field o "original_pct" VNone) (curve c).
Proof.
  apply (transform_points_follow_catalog "2025-06-01T14:05:05" tracking_body VNone
           (VList scenario_history)); reflexivity.
Defined.

Lemma stabilized_of_price hd current h :
  field (stabilized_of hd current h) "price" VNone
  = match entries_of hd with
    | [] => VNone
    | _ :: _ => ruled_figure (by_timestamp (entries_of hd)) current h
    end.
Proof.
  unfold stabilized_of, stabilized_entry, ruled_figure.
  destruct (entries_of hd) as [|e l]; [reflexivity|].
  destruct (realized_now current h); [|reflexivity].
  destruct (is_none (last_pending_price h (by_timestamp (e :: l)))) eqn:N;
    [|reflexivity].
  apply is_none_eq in N. now rewrite N.
Qed.

(** X4. On well-shaped bodies, the history in any order, the stabilized
    price of each point of the curve is None when there is no history;
    else, with the entries of the history put oldest first (those of the
    same timestamp in the order given; a history given oldest first is
    taken as it is), for a horizon that is realized now it is the price in
    the last entry in which the horizon was pending, and for a pending
    horizon its current price. *)
Theorem transform_attaches_stabilized_price now data y hd :
  body_shape data = true -> yesterday_shape y = true ->
  history_shape hd = true ->
  exists c sorted,
    _transform_response now data y hd = Ok c /\
    sorted_stably (entries_of hd) sorted /\
    (oldest_first (entries_of hd) = true -> sorted = entries_of hd) /\
    Forall (fun pt =>
      let fc := field data "forward_curve" (VDict []) in
      stabilized_price pt
      = match entries_of hd with
        | [] => VNone
        | _ :: _ =>
            if realized_now fc (horizon pt)
            then last_pending_price (horizon pt) sorted
            else current_price_of fc (horizon pt)
        end) (curve c).
Proof.
  intros Hb Hy Hh. eexists. exists (by_timestamp (entries_of hd)).
  split; [now apply transform_response_shape|].
  split; [apply SortFacts.by_timestamp_sorts|].
  split; [apply SortFacts.by_timestamp_oldest_first|].
  cbn [expected_curve curve].
  apply Forall_forall. intros pt Hin. apply in_map_iff in Hin.
  destruct Hin as (h & <- & _). cbn [expected_point stabilized_price horizon].
  apply stabilized_of_price.
Qed.

(** The history of the scenario, given newest first. *)
Lemma transform_attaches_stabilized_price_witness :
  let hd := VList (rev scenario_history) in
  exists c sorted,
    _transform_response "2025-06-01T14:05:05" tracking_body VNone hd = Ok c /\
    sorted_stably (entries_of hd) sorted /\
    (oldest_first (entries_of hd) = true -> sorted = entries_of hd) /\
    Forall (fun pt =>
      let fc := field tracking_body "forward_curve" (VDict []) in
      stabilized_price pt
      = match entries_of hd with
        | [] => VNone
        | _ :: _ =>
            if realized_now fc (horizon pt)
            then last_pending_price (horizon pt) sorted
            else current_price_of fc (horizon pt)
        end) (curve c).
Proof.
  apply (transform_attaches_stabilized_price "2025-06-01T14:05:05" tracking_body
           VNone (VList (rev scenario_history))); reflexivity.
Defined.

(** On the history of the scenario given newest first, +1H, realized now,
    gets 65180: the price of the latest entry in which it was pending. *)
Lemma newest_first_history_is_sorted :
  by_timestamp (rev scenario_history) = scenario_history /\
  option_map (fun c => map (fun pt => (horizon pt, stabilized_price pt)) (curve c))
    (match _transform_response "2025-06-01T14:05:05" tracking_body VNone
             (VList (rev scenario_history)) with
     | Ok c => Some c
     | Raise _ => None
     end)
  = Some [("+1H", VInt 65180); ("+2H", VInt 65310)].
Proof. split; reflexivity. Qed.

(** X5. A default stands in only for a key that is absent: the target price
    of a point is what the forward curve gives under [price], null
    included, and 0 only when the point has no such key. *)
Theorem transform_defaults_only_absent_keys now data y hd h pt :
  body_shape data = true -> yesterday_shape y = true ->
  history_shape hd = true -> In h HORIZONS ->
  field (field data "forward_curve" (VDict [])) h VNone = VDict pt ->
  exists c q,
    _transform_response now data y hd = Ok c /\
    In q (curve c) /\ horizon q = h /\
    target_price q
    = match assoc "price" pt with Some v => v | None => VInt 0 end.
Proof.
  intros Hb Hy Hh Hin Hpt.
  eexists. exists (expected_point data y hd h).
  split; [now apply transform_response_shape|].
  assert (K : has_key (field data "forward_curve" (VDict [])) h = true
              /\ field (field data "forward_curve" (VDict [])) h (VDict []) = VDict pt).
  { destruct (field data "forward_curve" (VDict [])) as [| | | | | |d];
      try discriminate.
    cbn [field has_key] in *. destruct (assoc h d); [auto|discriminate]. }
  destruct K as [K1 K2].
  split.
  - cbn [expected_curve curve]. apply in_map. apply filter_In. auto.
  - split; [reflexivity|]. cbn [expected_point target_price]. rewrite K2.
    reflexivity.
Qed.

Lemma transform_defaults_only_absent_keys_witness :
  exists c q,
    _transform_response "2025-06-01T14:05:05"
      (VDict [("forward_curve",
               VDict [("+1H", VDict [("price", VNone)]);
                      ("+2H", VDict [("pct_change", VFloat 0.48)])])])
      VNone VNone = Ok c /\
    In q (curve c) /\ horizon q = "+1H" /\
    target_price q
    = match assoc "price" [("price", VNone)] with Some v => v | None => VInt 0 end.
Proof.
  apply (transform_defaults_only_absent_keys "2025-06-01T14:05:05"
           (VDict [("forward_curve",
               VDict [("+1H", VDict [("price", VNone)]);
                      ("+2H", VDict [("pct_change", VFloat 0.48)])])])
           VNone VNone "+1H" [("price", VNone)]);
    try reflexivity.
  simpl. auto.
Defined.

End TransformFacts.

Module FetchFacts.

Lemma v4_fetch_curve_returns now t y h :
  exists o, V4CurveProvider.fetch_curve now t y h = Ok o.
Proof.
  unfold V4CurveProvider.fetch_curve, try_except.
  match goal with |- exists o, match ?b with _ => _ end = _ => destruct b end;
    eauto.
Qed.

Lemma v5_fetch_curve_returns now r :
  exists o, V5CurveProvider.fetch_curve now r = Ok o.
Proof.
  unfold V5CurveProvider.fetch_curve, try_except.
  match goal with |- exists o, match ?b with _ => _ end = _ => destruct b as [|[]] end;
    eauto.
Qed.

Lemma optional_json_unavailable r :
  V4CurveProviderSpec.unavailable r = true ->
  V4CurveProvider.optional_json r = Ok VNone.
Proof.
  destruct r as [e|st b]; simpl; auto.
  intro H. apply negb_true_iff in H. now rewrite H.
Qed.

Lemma unavailable_body r :
  V4CurveProviderSpec.unavailable r = true ->
  V4TransformSpec.decodes r = true /\ V4TransformSpec.optional_body r = VNone.
Proof.
  destruct r as [e|st b]; simpl; auto.
  intro H. apply negb_true_iff in H. now rewrite H.
Qed.

Lemma optional_json_body resp :
  V4TransformSpec.decodes resp = true ->
  V4CurveProvider.optional_json resp = Ok (V4TransformSpec.optional_body resp).
Proof.
  destruct resp as [e|st [b|]]; simpl; auto; destruct (st =? 200)%Z; auto.
  discriminate.
Qed.

(** The fetch on a primary response of status 200 and optional responses
    that decode. *)
Lemma fetch_curve_decoded now data y h :
  V4TransformSpec.decodes y = true -> V4TransformSpec.decodes h = true ->
  V4CurveProvider.fetch_curve now (Response 200 (Some data)) y h
  = match V4CurveProvider._transform_response now data
            (V4TransformSpec.optional_body y) (V4TransformSpec.optional_body h) with
    | Ok c => Ok (Some c)
    | Raise _ => Ok None
    end.
Proof.
  intros Dy Dh. unfold V4CurveProvider.fetch_curve.
  cbn [Z.eqb Pos.eqb negb json rbind].
  rewrite (optional_json_body y Dy), (optional_json_body h Dh). cbn [rbind].
  destruct (V4CurveProvider._transform_response _ _ _ _); reflexivity.
Qed.

(** The two marks of a curve tell which optional bodies it was built from. *)
Lemma transform_response_marks now data yd hd c :
  V4CurveProvider._transform_response now data yd hd = Ok c ->
  V4CurveProvider.has_yesterday c = negb (is_none yd) /\
  (hd = VNone -> V4CurveProvider.has_history c = false).
Proof.
  unfold V4CurveProvider._transform_response. intro T.
  repeat match type of T with
  | rbind (Ok _) _ = _ => cbn [rbind] in T
  | rbind ?r _ = _ => destruct r eqn:?; [cbn [rbind] in T|discriminate]
  end.
  inversion T. cbn [V4CurveProvider.has_yesterday V4CurveProvider.has_history].
  split; [reflexivity|]. intros ->.
  match goal with E : (if is_none VNone then _ else _) = Ok _ |- _ =>
    cbn [is_none] in E; now inversion E end.
Qed.

(** C6, as the code has it.  [fetch_curve] never raises: it returns a curve
    or [None], for both providers.  It returns [None] (with no reason
    attached; the reason is only logged) whenever the primary request
    raises, a timeout included, or its status is not 200.  In the V4
    provider an optional request that raises or whose status is not 200
    does not make the fetch fail.  When both optional requests fail, the
    result is the one built from the primary body alone, and a curve so
    built has [has_yesterday] and [has_history] false.  When one of them
    fails and the other response decodes, the result is the one built
    without the body of the failed one, and a curve so built has the mark
    of the failed one false.  And with a well-shaped primary body, each
    optional response failed or well-shaped, the fetch gives a curve. *)
Theorem fetch_curve_total_and_degrading :
  (forall now t y h, exists o, V4CurveProvider.fetch_curve now t y h = Ok o) /\
  (forall now r, exists o, V5CurveProvider.fetch_curve now r = Ok o) /\
  (forall now t y h,
     V4CurveProviderSpec.unavailable t = true ->
     V4CurveProvider.fetch_curve now t y h = Ok None) /\
  (forall now r,
     V4CurveProviderSpec.unavailable r = true ->
     V5CurveProvider.fetch_curve now r = Ok None) /\
  (forall now data y h,
     V4CurveProviderSpec.unavailable y = true ->
     V4CurveProviderSpec.unavailable h = true ->
     V4CurveProvider.fetch_curve now (Response 200 (Some data)) y h
     = match V4CurveProvider._transform_response now data VNone VNone with
       | Ok c => Ok (Some c)
       | Raise _ => Ok None
       end /\
     forall c,
       V4CurveProvider.fetch_curve now (Response 200 (Some data)) y h = Ok (Some c) ->
       V4CurveProvider.has_yesterday c = false /\
       V4CurveProvider.has_history c = false) /\
  (forall now data y h,
     V4CurveProviderSpec.unavailable y = true ->
     V4TransformSpec.decodes h = true ->
     V4CurveProvider.fetch_curve now (Response 200 (Some data)) y h
     = match V4CurveProvider._transform_response now data VNone
               (V4TransformSpec.optional_body h) with
       | Ok c => Ok (Some c)
       | Raise _ => Ok None
       end /\
     forall c,
       V4CurveProvider.fetch_curve now (Response 200 (Some data)) y h = Ok (Some c) ->
       V4CurveProvider.has_yesterday c = false) /\
  (forall now data y h,
     V4TransformSpec.decodes y = true ->
     V4CurveProviderSpec.unavailable h = true ->
     V4CurveProvider.fetch_curve now (Response 200 (Some data)) y h
     = match V4CurveProvider._transform_response now data
               (V4TransformSpec.optional_body y) VNone with
       | Ok c => Ok (Some c)
       | Raise _ => Ok None
       end /\
     forall c,
       V4CurveProvider.fetch_curve now (Response 200 (Some data)) y h = Ok (Some c) ->
       V4CurveProvider.has_history c = false) /\
  (forall now data y h,
     V4TransformSpec.body_shape data = true ->
     (V4CurveProviderSpec.unavailable y = true \/
      V4TransformSpec.decodes y = true /\
      V4TransformSpec.yesterday_shape (V4TransformSpec.optional_body y) = true) ->
     (V4CurveProviderSpec.unavailable h = true \/
      V4TransformSpec.decodes h = true /\
      V4TransformSpec.history_shape (V4TransformSpec.optional_body h) = true) ->
     exists c,
       V4CurveProvider.fetch_curve now (Response 200 (Some data)) y h = Ok (Some c) /\
       (V4CurveProviderSpec.unavailable y = true ->
        V4CurveProvider.has_yesterday c = false) /\
       (V4CurveProviderSpec.unavailable h = true ->
        V4CurveProvider.has_history c = false)).
Proof.
  assert (M : forall now data y h c,
    V4TransformSpec.decodes y = true -> V4TransformSpec.decodes h = true ->
    V4CurveProvider.fetch_curve now (Response 200 (Some data)) y h = Ok (Some c) ->
    (V4CurveProviderSpec.unavailable y = true ->
     V4CurveProvider.has_yesterday c = false) /\
    (V4CurveProviderSpec.unavailable h = true ->
     V4CurveProvider.has_history c = false)).
  { intros now data y h c Dy Dh E. rewrite (fetch_curve_decoded now data y h Dy Dh) in E.
    destruct (V4CurveProvider._transform_response now data _ _) as [c'|] eqn:T;
      [|discriminate].
    inversion E; subst c'. apply transform_response_marks in T.
    destruct T as [T1 T2]. split.
    - intro U. apply unavailable_body in U. destruct U as [_ U].
      rewrite T1, U. reflexivity.
    - intro U. apply unavailable_body in U. destruct U as [_ U]. auto. }
  split; [|split; [|split; [|split; [|split; [|split; [|split]]]]]].
  - apply v4_fetch_curve_returns.
  - apply v5_fetch_curve_returns.
  - intros now t y h U. destruct t as [e|st b]; [reflexivity|].
    unfold V4CurveProvider.fetch_curve. simpl in U. now rewrite U.
  - intros now r U. destruct r as [e|st b].
    + destruct e; reflexivity.
    + unfold V5CurveProvider.fetch_curve. simpl in U. now rewrite U.
  - intros now data y h Uy Uh.
    destruct (unavailable_body y Uy) as [Dy By].
    destruct (unavailable_body h Uh) as [Dh Bh].
    split.
    + rewrite (fetch_curve_decoded now data y h Dy Dh), By, Bh. reflexivity.
    + intros c E. destruct (M now data y h c Dy Dh E). auto.
  - intros now data y h Uy Dh.
    destruct (unavailable_body y Uy) as [Dy By].
    split.
    + rewrite (fetch_curve_decoded now data y h Dy Dh), By. reflexivity.
    + intros c E. destruct (M now data y h c Dy Dh E). auto.
  - intros now data y h Dy Uh.
    destruct (unavailable_body h Uh) as [Dh Bh].
    split.
    + rewrite (fetch_curve_decoded now data y h Dy Dh), Bh. reflexivity.
    + intros c E. destruct (M now data y h c Dy Dh E). auto.
  - intros now data y h Hb Hy Hh.
    assert (Y : V4TransformSpec.decodes y = true /\
                V4TransformSpec.yesterday_shape (V4TransformSpec.optional_body y) = true).
    { destruct Hy as [U|Hy]; [|exact Hy].
      destruct (unavailable_body y U) as [D B]. rewrite B. auto. }
    assert (H : V4TransformSpec.decodes h = true /\
                V4TransformSpec.history_shape (V4TransformSpec.optional_body h) = true).
    { destruct Hh as [U|Hh]; [|exact Hh].
      destruct (unavailable_body h U) as [D B]. rewrite B. auto. }
    destruct Y as [Dy Sy]. destruct H as [Dh Sh].
    assert (E : V4CurveProvider.fetch_curve now (Response 200 (Some data)) y h
                = Ok (Some (V4TransformSpec.expected_curve now data
                              (V4TransformSpec.optional_body y)
                              (V4TransformSpec.optional_body h)))).
    { rewrite (fetch_curve_decoded now data y h Dy Dh).
      now rewrite (TransformFacts.transform_response_shape data _ _ Hb Sy Sh now). }
    eexists. split; [exact E|]. exact (M now data y h _ Dy Dh E).
Qed.

(** The primary body arrives; the prior-day service answers 503 and the
    history request times out.  Then: the prior-day request times out and
    the history arrives. *)
Lemma fetch_curve_total_and_degrading_witness :
  (exists c,
     V4CurveProvider.fetch_curve "2025-06-01T14:15:05"
       (Response 200 (Some V4CurveProviderSpec.tracking_body))
       (Response 503 None) (Failed TimeoutError) = Ok (Some c) /\
     V4CurveProvider.has_yesterday c = false /\
     V4CurveProvider.has_history c = false /\
     List.length (V4CurveProvider.curve c) = 2%nat) /\
  (exists c,
     V4CurveProvider.fetch_curve "2025-06-01T14:15:05"
       (Response 200 (Some V4CurveProviderSpec.tracking_body))
       (Failed TimeoutError)
       (Response 200 (Some (VList V4CurveProviderSpec.scenario_history)))
     = Ok (Some c) /\
     (V4CurveProviderSpec.unavailable (Failed TimeoutError) = true ->
      V4CurveProvider.has_yesterday c = false) /\
     (V4CurveProviderSpec.unavailable
        (Response 200 (Some (VList V4CurveProviderSpec.scenario_history))) = true ->
      V4CurveProvider.has_history c = false)).
Proof.
  split.
  - destruct (proj1 (proj2 (proj2 (proj2 (proj2 fetch_curve_total_and_degrading))))
                "2025-06-01T14:15:05" V4CurveProviderSpec.tracking_body
                (Response 503 None) (Failed TimeoutError) eq_refl eq_refl)
      as [E H].
    eexists. split; [exact E|].
    split; [|split]; reflexivity.
  - apply (proj2 (proj2 (proj2 (proj2 (proj2 (proj2 (proj2
             fetch_curve_total_and_degrading))))))
             "2025-06-01T14:15:05" V4CurveProviderSpec.tracking_body
             (Failed TimeoutError)
             (Response 200 (Some (VList V4CurveProviderSpec.scenario_history)))).
    + reflexivity.
    + left. reflexivity.
    + right. split; reflexivity.
Defined.

(** C6 as stated fails.  A failure carries no reason: a timeout and a status
    503 give the same [None].  And an optional response that arrives with
    status 200 and a body that does not decode makes the whole fetch fail,
    though the primary response is good. *)
Lemma fetch_failure_has_no_reason_and_optional_can_fail :
  V4CurveProvider.fetch_curve "2025-06-01T14:15:05"
    (Failed TimeoutError) (Failed TimeoutError) (Failed TimeoutError)
  = Ok None /\
  V4CurveProvider.fetch_curve "2025-06-01T14:15:05"
    (Response 503 None) (Failed TimeoutError) (Failed TimeoutError)
  = Ok None /\
  V4CurveProvider.fetch_curve "2025-06-01T14:15:05"
    (Response 200 (Some V4CurveProviderSpec.tracking_body))
    (Response 200 None) (Failed TimeoutError)
  = Ok None /\
  (exists c,
     V4CurveProvider.fetch_curve "2025-06-01T14:15:05"
       (Response 200 (Some V4CurveProviderSpec.tracking_body))
       (Failed TimeoutError) (Failed TimeoutError)
     = Ok (Some c)).
Proof.
  split; [reflexivity|]. split; [reflexivity|]. split; [reflexivity|].
  eexists. reflexivity.
Qed.

End FetchFacts.

Module FetchMoreFacts.
Import V4CurveProvider V4CurveProviderSpec V4TransformSpec.

(** X6. [fetch_curve], on a tracking response of status 200 with a
    well-shaped body and on optional responses that are unavailable or have
    well-shaped bodies (the entries of the history in any order), returns
    the curve that the bodies determine, the stabilized prices read from
    the history put oldest first; an optional response that is unavailable
    counts as no body. *)
Theorem fetch_curve_succeeds_on_well_shaped now data yr hr :
  body_shape data = true ->
  decodes yr = true -> yesterday_shape (optional_body yr) = true ->
  decodes hr = true -> history_shape (optional_body hr) = true ->
  fetch_curve now (Response 200 (Some data)) yr hr
  = Ok (Some (expected_curve now data (optional_body yr) (optional_body hr))).
Proof.
  intros Hb Dy Hy Dh Hh. unfold fetch_curve.
  cbn [Z.eqb Pos.eqb negb json rbind].
  rewrite (FetchFacts.optional_json_body yr Dy), (FetchFacts.optional_json_body hr Dh).
  cbn [rbind].
  rewrite (TransformFacts.transform_response_shape data _ _ Hb Hy Hh now).
  reflexivity.
Qed.

Lemma fetch_curve_succeeds_on_well_shaped_witness :
  fetch_curve "2025-06-01T14:05:05" (Response 200 (Some tracking_body))
    (Response 404 None) (Response 200 (Some (VList (rev scenario_history))))
  = Ok (Some (expected_curve "2025-06-01T14:05:05" tracking_body
                (optional_body (Response 404 None))
                (optional_body
                   (Response 200 (Some (VList (rev scenario_history))))))).
Proof.
  apply (fetch_curve_succeeds_on_well_shaped "2025-06-01T14:05:05" tracking_body
           (Response 404 None)
           (Response 200 (Some (VList (rev scenario_history)))));
    reflexivity.
Defined.

Lemma map_result_raises {A B} (f : A -> result B) l x :
  In x l -> is_ok (f x) = false -> is_ok (map_result f l) = false.
Proof.
  induction l as [|y l IH]; intros Hin Hx; [destruct Hin|].
  cbn [map_result]. destruct Hin as [-> | Hin].
  - destruct (f x); [discriminate|reflexivity].
  - destruct (f y); [|reflexivity].
    specialize (IH Hin Hx). destruct (map_result f l); [discriminate|reflexivity].
Qed.

Lemma extract_raises_on_bad_entry l x current :
  In x l -> is_dict x = false ->
  is_ok (_extract_stabilized_from_history (VList l) current) = false.
Proof.
  intros Hin Hx. unfold _extract_stabilized_from_history.
  destruct l as [|e l]; [destruct Hin|]. cbn [truthy negb].
  unfold py_sorted. cbn [py_iter].
  assert (M : is_ok (map_result
                (fun x0 => match py_get x0 "timestamp" (VStr "") with
                           | Ok k => Ok (sort_key_of k, x0)
                           | Raise e0 => Raise e0
                           end) (e :: l)) = false).
  { apply (map_result_raises _ _ x Hin). destruct x; try reflexivity.
    discriminate. }
  destruct (map_result _ (e :: l)); [discriminate|reflexivity].
Qed.

(** X7. The history is optional only as a whole: when the history response
    has status 200 and its body is a list with an entry that is not a dict,
    the fetch gives no curve, whatever the other two responses are. *)
Theorem fetch_curve_fails_on_bad_history_entry now t yr x l :
  In x l -> is_dict x = false ->
  fetch_curve now t yr (Response 200 (Some (VList l))) = Ok None.
Proof.
  intros Hin Hx. unfold fetch_curve, try_except.
  destruct t as [e|st b]; [reflexivity|].
  destruct (negb (st =? 200)%Z); [reflexivity|].
  destruct (json b) as [data|]; [|reflexivity]. cbn [rbind].
  destruct (optional_json yr) as [yd|]; [|reflexivity]. cbn [rbind].
  cbn [optional_json Z.eqb Pos.eqb json rbind].
  unfold _transform_response.
  destruct (py_get data "forward_curve" (VDict [])) as [fc|]; [|reflexivity].
  cbn [rbind].
  destruct (py_get data "original_predictions" (VDict [])); [|reflexivity].
  cbn [rbind].
  destruct (if truthy yd then py_get yd "forward_curve" (VDict []) else Ok (VDict []));
    [|reflexivity].
  cbn [rbind].
  pose proof (extract_raises_on_bad_entry l x fc Hin Hx) as E.
  destruct (_extract_stabilized_from_history (VList l) fc); [discriminate|].
  reflexivity.
Qed.

Lemma fetch_curve_fails_on_bad_history_entry_witness :
  fetch_curve "2025-06-01T14:05:05" (Response 200 (Some tracking_body))
    (Response 404 None)
    (Response 200 (Some (VList [history_entry "2025-06-01T13:20:00" 65150 false;
                                VStr "truncated"])))
  = Ok None.
Proof.
  apply (fetch_curve_fails_on_bad_history_entry "2025-06-01T14:05:05"
           (Response 200 (Some tracking_body)) (Response 404 None)
           (VStr "truncated")).
  - simpl. auto.
  - reflexivity.
Defined.

End FetchMoreFacts.


Module SnapshotFacts.
Import V4CurveProvider V4CurveProviderSpec V4LedgerSpec.

Lemma dict_set_fresh {A} (k : string) (v : A) d :
  ~ In k (map fst d) -> dict_set k v d = d ++ [(k, v)].
Proof.
  induction d as [|[k' v'] d IH]; intro N; [reflexivity|].
  cbn [dict_set]. destruct (String.eqb_spec k k') as [->|Hk].
  - exfalso. apply N. now left.
  - cbn [app]. f_equal. apply IH. intro X. apply N. now right.
Qed.

Lemma snapshot_fold pts : forall acc,
  NoDup (map fst acc ++ map horizon pts) ->
  fold_left
    (fun preds point =>
       if negb (truthy (is_actual point))
       then dict_set (horizon point)
              {| price := target_price point;
                 pred_original_price := original_price point |} preds
       else preds) pts acc
  = acc ++ map prediction_of (filter pending pts).
Proof.
  induction pts as [|p pts IH]; intros acc Hnd.
  - simpl. now rewrite app_nil_r.
  - cbn [fold_left filter]. unfold pending at 1.
    cbn [map] in Hnd.
    destruct (negb (truthy (is_actual p))) eqn:E.
    + rewrite dict_set_fresh.
      2:{ apply NoDup_remove_2 in Hnd. intro X. apply Hnd.
          apply in_or_app. now left. }
      rewrite IH.
      * cbn [map]. rewrite <- app_assoc. reflexivity.
      * rewrite map_app. cbn [map fst]. rewrite <- app_assoc. exact Hnd.
    + apply IH. apply NoDup_remove_1 in Hnd. exact Hnd.
Qed.

(** X9. The snapshot of a curve whose points have distinct horizons holds
    exactly the pending points of the curve, in their order, each with its
    target price and its original price; realized points are left out. *)
Theorem snapshot_holds_exactly_pending now c :
  NoDup (map horizon (curve c)) ->
  predictions (make_snapshot now c)
  = map prediction_of (filter pending (curve c)).
Proof.
  intro Hnd. cbn [make_snapshot predictions]. unfold snapshot_predictions.
  now rewrite (snapshot_fold (curve c) []).
Qed.

Lemma snapshot_holds_exactly_pending_witness :
  predictions (make_snapshot "2025-06-01T13:05:05"
     {| type := "v4_forward_curve"; timestamp := "2025-06-01T13:05:05";
        generated_at := VNone; anchor_timestamp := VStr "2025-06-01T13:00:00Z";
        hours_elapsed := VInt 1; current_price := VInt 65000;
        anchor_price := VInt 65000; direction := VStr "neutral";
        regime := VStr "neutral"; curve_quality := VInt 0;
        curve := [sample_point 1 true;
                  {| horizon := "+2H"; target_price := VInt 65310;
                     pct_change := VFloat 0.48; lower_90 := VInt 0;
                     upper_90 := VInt 0; is_actual := VBool false;
                     original_price := VInt 65300; original_pct := VFloat 0.46;
                     yesterday_price := VNone; stabilized_price := VNone;
                     stabilized_timestamp := VNone |}];
        model := "V4.32"; has_yesterday := false; has_history := false |})
  = [("+2H", {| price := VInt 65310; pred_original_price := VInt 65300 |})].
Proof.
  apply (snapshot_holds_exactly_pending "2025-06-01T13:05:05").
  simpl. repeat constructor; simpl; intuition discriminate.
Defined.

Lemma evolution_length_le h history :
  (List.length (evolution_of h history) <= List.length history)%nat.
Proof.
  unfold evolution_of. induction history as [|s history IH]; simpl; [lia|].
  rewrite length_app. destruct (assoc h (predictions s)); simpl; lia.
Qed.

(** X10. [_add_history_to_curve] returns a copy that keeps the curve and
    its points as they are, in order.  [history_size] is the length of the
    ledger; for each point [evolution_count] is the number of snapshots of
    the ledger that hold its horizon, so at most [history_size]; and the
    point gets a [last_stabilized_price] exactly when that number is not 0. *)
Theorem add_history_keeps_points c p :
  let out := _add_history_to_curve c p in
  base out = c /\
  map point (curve_copy out) = curve c /\
  history_size out = List.length (_curve_history p) /\
  Forall (fun q =>
    (evolution_count q <= history_size out)%nat /\
    evolution_count q
    = List.length (ledger_prices (horizon (point q)) (_curve_history p)) /\
    (last_stabilized_price q = None <-> evolution_count q = 0%nat))
    (curve_copy out).
Proof.
  cbn. split; [reflexivity|]. split.
  - rewrite map_map. cbn. apply map_id.
  - split; [reflexivity|].
    apply Forall_forall. intros q Hq. apply in_map_iff in Hq.
    destruct Hq as (pt & <- & _). cbn.
    split; [apply evolution_length_le|]. split.
    + rewrite <- StabilizationFacts.evolution_prices. now rewrite length_map.
    + destruct (evolution_of (horizon pt) (_curve_history p)); cbn.
      * tauto.
      * destruct (truthy (is_actual pt)); split; discriminate.
Qed.

End SnapshotFacts.

Module PollCycleFacts.
Import V4CurveProvider V4CurveProviderSpec V4LedgerSpec.

Lemma most_recent_snoc {A} (k : nat) (l : list A) (x : A) :
  (0 < k)%nat ->
  exists l', most_recent k (l ++ [x]) = l' ++ [x] /\
             List.length (l' ++ [x]) = Nat.min k (List.length l + 1).
Proof.
  intro Hk. unfold most_recent. rewrite skipn_app, length_app. cbn [List.length].
  replace (List.length l + 1 - k - List.length l)%nat with 0%nat by lia.
  cbn [skipn]. eexists. split; [reflexivity|].
  rewrite length_app, length_skipn. cbn [List.length]. lia.
Qed.

(** A turn of the loop whose fetch gives a curve. *)
Lemma poll_cycle_success now t y h p c k :
  fetch_curve (now 0%nat) t y h = Ok (Some c) ->
  _broadcast_callback p = true ->
  (0 < k)%nat -> _max_history_size p = Z.of_nat k ->
  exists older m,
    poll_cycle now t y h p
    = ({| _broadcast_callback := true; _last_curve := Some c;
          _curve_history := older ++ [make_snapshot (now 1%nat) c];
          _max_history_size := Z.of_nat k |}, [m]) /\
    older ++ [make_snapshot (now 1%nat) c]
    = most_recent k (_curve_history p ++ [make_snapshot (now 1%nat) c]) /\
    base m = c /\
    map point (curve_copy m) = curve c /\
    history_size m = S (List.length older) /\
    (history_size m <= k)%nat.
Proof.
  intros F B Hk Hm. unfold poll_cycle. rewrite F, B.
  set (p1 := {| _broadcast_callback := true; _last_curve := Some c;
                _curve_history := _curve_history p;
                _max_history_size := _max_history_size p |}).
  destruct (LedgerFacts.store_curve_snapshot_history k (now 1%nat) c p1 Hk Hm)
    as [H1 H2].
  cbn [p1 _curve_history] in H1.
  destruct (most_recent_snoc k (_curve_history p) (make_snapshot (now 1%nat) c) Hk)
    as (older & E & L).
  exists older, (_add_history_to_curve c (_store_curve_snapshot (now 1%nat) c p1)).
  assert (P1 : _store_curve_snapshot (now 1%nat) c p1
               = {| _broadcast_callback := true; _last_curve := Some c;
                    _curve_history := older ++ [make_snapshot (now 1%nat) c];
                    _max_history_size := Z.of_nat k |}).
  { rewrite <- E, <- H1, <- Hm. reflexivity. }
  split; [|split; [symmetry; exact E|]].
  - cbv zeta. fold p1. now rewrite <- P1.
  - cbn [_add_history_to_curve base curve_copy history_size].
    split; [reflexivity|]. split.
    + rewrite map_map. cbn. apply map_id.
    + rewrite H1, E. rewrite length_app in *. cbn [List.length] in *. lia.
Qed.

(** X11. A turn of the poll loop whose fetch gives a curve, with a callback
    set and a capacity k > 0: the curve becomes the last curve; the ledger
    becomes the k most recent of the old ledger and the snapshot of the
    curve, which is its newest entry; and one message is handed to the
    callback, the curve with its points, whose [history_size] counts the new
    snapshot and is at most k. *)
Theorem successful_cycle_stores_and_publishes now t y h p c k :
  fetch_curve (now 0%nat) t y h = Ok (Some c) ->
  _broadcast_callback p = true ->
  (0 < k)%nat -> _max_history_size p = Z.of_nat k ->
  exists older m,
    poll_cycle now t y h p
    = ({| _broadcast_callback := true; _last_curve := Some c;
          _curve_history := older ++ [make_snapshot (now 1%nat) c];
          _max_history_size := Z.of_nat k |}, [m]) /\
    older ++ [make_snapshot (now 1%nat) c]
    = most_recent k (_curve_history p ++ [make_snapshot (now 1%nat) c]) /\
    base m = c /\
    map point (curve_copy m) = curve c /\
    history_size m = S (List.length older) /\
    (history_size m <= k)%nat.
Proof. apply poll_cycle_success. Qed.

Lemma poll_cycle_cases now t y h p k :
  _broadcast_callback p = true ->
  (0 < k)%nat -> _max_history_size p = Z.of_nat k ->
  (List.length (_curve_history p) <= k)%nat ->
  let '(p', out) := poll_cycle now t y h p in
  _broadcast_callback p' = true /\ _max_history_size p' = Z.of_nat k /\
  match fetched (now, (t, y, h)) with
  | Some c =>
      _last_curve p' = Some c /\ map base out = [c] /\
      List.length (_curve_history p')
      = Nat.min k (List.length (_curve_history p) + 1)
  | None => p' = p /\ out = []
  end.
Proof.
  intros B Hk Hm Hl. unfold fetched.
  destruct (fetch_curve (now 0%nat) t y h) as [[c|]|e] eqn:F.
  - destruct (poll_cycle_success now t y h p c k F B Hk Hm)
      as (older & m & E & M & Bm & _).
    rewrite E. cbn. split; [reflexivity|]. split; [reflexivity|].
    split; [reflexivity|]. split; [now rewrite Bm|].
    rewrite M. unfold most_recent. rewrite length_skipn, length_app.
    cbn [List.length]. lia.
  - unfold poll_cycle. rewrite F. auto.
  - unfold poll_cycle. rewrite F. auto.
Qed.

Lemma successful_cycle_stores_and_publishes_witness :
  let now := AccuracyStorageSpec.tick_clock "2025-06-01T14:05:0" in
  let t := Response 200 (Some tracking_body) in
  let y := Response 404 None in
  let h := Response 200 (Some (VList scenario_history)) in
  let p := start_polling init in
  let c := V4TransformSpec.expected_curve (now 0%nat) tracking_body VNone
             (VList scenario_history) in
  exists older m,
    poll_cycle now t y h p
    = ({| _broadcast_callback := true; _last_curve := Some c;
          _curve_history := older ++ [make_snapshot (now 1%nat) c];
          _max_history_size := Z.of_nat 300 |}, [m]) /\
    older ++ [make_snapshot (now 1%nat) c]
    = most_recent 300 (_curve_history p ++ [make_snapshot (now 1%nat) c]) /\
    base m = c /\
    map point (curve_copy m) = curve c /\
    history_size m = S (List.length older) /\
    (history_size m <= 300)%nat.
Proof.
  intros now t y h p c.
  apply (successful_cycle_stores_and_publishes now t y h p c 300).
  - reflexivity.
  - reflexivity.
  - lia.
  - reflexivity.
Defined.

(** X12. Over a run of turns of the poll loop with a callback set, from a
    ledger within its capacity: the messages handed to the callback are, in
    order, the curves of the turns whose fetch gave one; the ledger grows by
    one entry for each such turn, up to its capacity; and the last curve is
    that of the last such turn, or the one before the run when there is
    none. *)
Theorem poll_cycles_count turns : forall p k,
  _broadcast_callback p = true ->
  (0 < k)%nat -> _max_history_size p = Z.of_nat k ->
  (List.length (_curve_history p) <= k)%nat ->
  let '(p', out) := poll_cycles turns p in
  map base out = fetched_curves turns /\
  List.length (_curve_history p')
  = Nat.min k (List.length (_curve_history p) + List.length (fetched_curves turns)) /\
  _last_curve p' = List.last (map Some (fetched_curves turns)) (_last_curve p).
Proof.
  induction turns as [|[now [[t y] h]] turns IH]; intros p k B Hk Hm Hl.
  - cbn. repeat split; auto. lia.
  - cbn [poll_cycles].
    pose proof (poll_cycle_cases now t y h p k B Hk Hm Hl) as C.
    destruct (poll_cycle now t y h p) as [p1 out1].
    destruct C as (B1 & M1 & C).
    unfold fetched_curves. cbn [flat_map]. fold (fetched_curves turns).
    destruct (fetched (now, (t, y, h))) as [c|].
    + destruct C as (L1 & O1 & N1).
      assert (Hl1 : (List.length (_curve_history p1) <= k)%nat) by lia.
      specialize (IH p1 k B1 Hk M1 Hl1).
      destruct (poll_cycles turns p1) as [p2 out2].
      destruct IH as (O2 & N2 & L2).
      split; [now rewrite map_app, O1, O2|]. split.
      * rewrite N2, N1. cbn [app List.length]. lia.
      * rewrite L2, L1. cbn [app map].
        symmetry. apply StabilizationFacts.last_cons_default.
    + destruct C as [-> ->].
      specialize (IH p k B Hk Hm Hl).
      destruct (poll_cycles turns p) as [p2 out2]. exact IH.
Qed.

Lemma poll_cycles_count_witness :
  let turns :=
    [(AccuracyStorageSpec.tick_clock "2025-06-01T14:05:0",
      (Response 200 (Some tracking_body), Response 404 None, Response 404 None));
     (AccuracyStorageSpec.tick_clock "2025-06-01T14:10:0",
      (Response 502 None, Response 404 None, Response 404 None));
     (AccuracyStorageSpec.tick_clock "2025-06-01T14:15:0",
      (Response 200 (Some tracking_body), Response 404 None, Response 404 None))] in
  let p := start_polling init in
  let '(p', out) := poll_cycles turns p in
  map base out = fetched_curves turns /\
  List.length (_curve_history p')
  = Nat.min 300 (List.length (_curve_history p) + List.length (fetched_curves turns)) /\
  _last_curve p' = List.last (map Some (fetched_curves turns)) (_last_curve p).
Proof.
  intros turns p.
  apply (poll_cycles_count turns p 300).
  - reflexivity.
  - lia.
  - reflexivity.
  - simpl. lia.
Defined.

End PollCycleFacts.

Module V5Facts.
Import V5CurveProvider V5CurveProviderSpec.
Import V4CurveProviderSpec(field, is_dict).

Lemma v5_points data : forall hs acc,
  is_dict (field data "forward_curve" (VDict [])) = true ->
  (forall h, In h hs ->
     is_dict (field (field data "forward_curve" (VDict [])) h (VDict [])) = true) ->
  fold_result (transform_point (field data "forward_curve" (VDict []))) hs acc
  = Ok (acc ++ map (expected_point data)
                 (filter (has_key (field data "forward_curve" (VDict []))) hs)).
Proof.
  induction hs as [|h hs IH]; intros acc Hd Hp.
  - simpl. now rewrite app_nil_r.
  - cbn [fold_result]. unfold transform_point at 1.
    set (fc := field data "forward_curve" (VDict [])) in *.
    assert (Hh : is_dict (field fc h (VDict [])) = true) by (apply Hp; now left).
    destruct fc as [| | | | | |d] eqn:Efc; try discriminate.
    cbn [py_contains rbind filter has_key].
    destruct (assoc h d) as [x|] eqn:A; cbn [rbind].
    + cbn [py_getitem]. rewrite A. cbn [rbind].
      assert (X : field (VDict d) h (VDict []) = x) by (cbn; now rewrite A).
      rewrite X in Hh.
      rewrite !(StabilizationFacts.py_get_field x) by assumption. cbn [rbind].
      rewrite IH; auto.
      2:{ intros y Hy. apply Hp. now right. }
      cbn [map]. rewrite <- app_assoc. cbn [app].
      unfold expected_point at 2. rewrite <- Efc. fold fc. rewrite Efc, X.
      reflexivity.
    + apply IH; auto. intros y Hy. apply Hp. now right.
Qed.

(** X13. The V5 [fetch_curve], on a response of status 200 whose body is a
    dict with a forward curve of dicts, returns a curve stamped with the
    clock, with the current price of the body, and with one point for each
    horizon of the V5 catalog that the forward curve has, in the order of
    the catalog, each once, so at most 10. *)
Theorem v5_fetch_curve_on_well_shaped now data :
  body_shape data = true ->
  exists c,
    fetch_curve now (Response 200 (Some data)) = Ok (Some c) /\
    curve c = map (expected_point data)
                (filter (has_key (field data "forward_curve" (VDict []))) HORIZONS) /\
    NoDup (map horizon (curve c)) /\ (List.length (curve c) <= 10)%nat /\
    timestamp c = now /\
    current_price c = field data "current_price" (VInt 0).
Proof.
  unfold body_shape. intro H.
  apply andb_true_iff in H. destruct H as [H Hp].
  apply andb_true_iff in H. destruct H as [Hd Hfc].
  rewrite forallb_forall in Hp.
  unfold fetch_curve, _transform_response.
  cbn [Z.eqb Pos.eqb negb json rbind try_except].
  rewrite !(StabilizationFacts.py_get_field data) by assumption. cbn [rbind].
  rewrite (v5_points data HORIZONS [] Hfc Hp). cbn [rbind app].
  eexists. split; [reflexivity|]. cbn [curve timestamp current_price].
  split; [reflexivity|]. split.
  - rewrite map_map. cbn [expected_point horizon]. rewrite map_id.
    apply TransformFacts.filter_NoDup. unfold HORIZONS.
    repeat (constructor; [simpl; intuition discriminate|]). constructor.
  - split; [|split; reflexivity].
    rewrite length_map.
    apply (Nat.le_trans _ _ _ (TransformFacts.filter_length_le _ HORIZONS)).
    simpl. lia.
Qed.

Lemma v5_fetch_curve_on_well_shaped_witness :
  let data :=
    VDict [("current_price", VInt 65000);
           ("forward_curve",
            VDict [("+1H", VDict [("target_price", VInt 65170)]);
                   ("+3H", VDict [("target_price", VInt 65310)])])] in
  exists c,
    fetch_curve "2025-06-01T14:05:02" (Response 200 (Some data)) = Ok (Some c) /\
    curve c = map (expected_point data)
                (filter (has_key (field data "forward_curve" (VDict []))) HORIZONS) /\
    NoDup (map horizon (curve c)) /\ (List.length (curve c) <= 10)%nat /\
    timestamp c = "2025-06-01T14:05:02" /\
    current_price c = field data "current_price" (VInt 0).
Proof.
  intro data. apply (v5_fetch_curve_on_well_shaped "2025-06-01T14:05:02" data).
  reflexivity.
Defined.

End V5Facts.

Module ServerFacts.
Import V5CurveProvider.

(** X14. [handle_curve_summary] always answers, with the status 200 or
    503.  It answers 200 exactly when the upstream response has the status
    200 and a body that decodes to a value that counts as true, and the
    answer is then that value. *)
Theorem summary_reply resp :
  exists r,
    ForwardCurveServer.handle_curve_summary resp = Ok r /\
    (ForwardCurveServer.status r = 200%Z \/ ForwardCurveServer.status r = 503%Z) /\
    (ForwardCurveServer.status r = 200%Z <->
     exists b, resp = Response 200 (Some b) /\ truthy b = true /\
               ForwardCurveServer.body r = b).
Proof.
  unfold ForwardCurveServer.handle_curve_summary, fetch_summary, try_except.
  destruct resp as [e|st [b|]].
  - cbn. eexists. split; [reflexivity|]. cbn. split; [now right|].
    split; [discriminate|]. intros (b & X & _). discriminate.
  - destruct (Z.eqb_spec st 200) as [->|N].
    + cbn [negb json rbind]. destruct (truthy b) eqn:T.
      * eexists. split; [reflexivity|]. cbn. split; [now left|].
        split; [|reflexivity]. intros _. exists b. auto.
      * eexists. split; [reflexivity|]. cbn. split; [now right|].
        split; [discriminate|]. intros (b' & X & T' & _).
        inversion X; subst. congruence.
    + cbn [negb rbind truthy]. eexists. split; [reflexivity|]. cbn.
      split; [now right|]. split; [discriminate|].
      intros (b' & X & _). inversion X. contradiction.
  - destruct (Z.eqb_spec st 200) as [->|N].
    + cbn. eexists. split; [reflexivity|]. cbn. split; [now right|].
      split; [discriminate|]. intros (b' & X & _). discriminate.
    + cbn [negb rbind truthy]. eexists. split; [reflexivity|]. cbn.
      split; [now right|]. split; [discriminate|].
      intros (b' & X & _). discriminate.
Qed.

Lemma rejected_iff accepts ws w :
  In w ws ->
  existsb (Nat.eqb w) (filter (fun x => negb (accepts x)) ws) = negb (accepts w).
Proof.
  intro Hin. destruct (accepts w) eqn:Acc; cbn [negb].
  - apply not_true_is_false. intro X. apply existsb_exists in X.
    destruct X as (x & Hx & E). apply Nat.eqb_eq in E. subst x.
    apply filter_In in Hx. destruct Hx as [_ Hx]. rewrite Acc in Hx.
    discriminate.
  - apply existsb_exists. exists w. split; [|apply Nat.eqb_refl].
    apply filter_In. split; auto. now rewrite Acc.
Qed.

Lemma filter_filter_id {X} (f : X -> bool) l : filter f (filter f l) = filter f l.
Proof.
  induction l as [|x l IH]; [reflexivity|]. cbn [filter].
  destruct (f x) eqn:E; [|exact IH]. cbn [filter]. now rewrite E, IH.
Qed.

Import ForwardCurveServer.

(** The loop that nothing disturbs. *)
Lemma send_all_result str accepts : forall rest live disconnected sent,
  send_all str accepts rest live disconnected sent
  = (discard_all (disconnected ++ filter (fun x => negb (accepts x)) rest) live,
     sent ++ map (fun ws => (ws, str)) (filter accepts rest)).
Proof.
  induction rest as [|ws rest IH]; intros live disconnected sent.
  - cbn. now rewrite !app_nil_r.
  - cbn [send_all filter]. destruct (accepts ws); cbn [negb map].
    + rewrite IH, <- app_assoc. reflexivity.
    + rewrite IH, <- app_assoc. reflexivity.
Qed.

Lemma send_loop_quiet str accepts size : forall during rest live disconnected sent,
  Forall (eq Quiet) during ->
  send_loop str accepts size during rest live disconnected sent
  = send_all str accepts rest live disconnected sent.
Proof.
  induction during as [|i during IH]; intros rest live disconnected sent F;
    [reflexivity|].
  inversion F as [|? ? <- F']; subst.
  cbn [send_loop]. destruct rest as [|ws rest]; [reflexivity|].
  rewrite (IH _ _ _ _ F'). cbn [send_all]. destruct (accepts ws); reflexivity.
Qed.

(** The loop up to the first send during which the set changes its size. *)
Lemma send_loop_resized str accepts size live' rest'' more :
  Nat.eqb (List.length live') size = false ->
  forall k rest live disconnected sent,
    (k < List.length rest)%nat ->
    send_loop str accepts size (repeat Quiet k ++ Changed live' rest'' :: more)
      rest live disconnected sent
    = (live', sent ++ map (fun ws => (ws, str)) (filter accepts (firstn (S k) rest))).
Proof.
  intro Hs. induction k as [|k IH]; intros rest live disconnected sent Hk.
  - destruct rest as [|ws rest]; [simpl in Hk; lia|].
    cbn [repeat app send_loop]. rewrite Hs.
    cbn [firstn filter]. destruct (accepts ws); cbn [map];
      now rewrite ?app_nil_r.
  - destruct rest as [|ws rest]; [simpl in Hk; lia|].
    cbn [repeat app send_loop]. rewrite IH by (simpl in Hk; lia).
    change (firstn (S (S k)) (ws :: rest)) with (ws :: firstn (S k) rest).
    cbn [filter]. destruct (accepts ws); cbn [map].
    + now rewrite <- app_assoc.
    + reflexivity.
Qed.

Lemma discard_rejected accepts l :
  discard_all (filter (fun x => negb (accepts x)) l) l = filter accepts l.
Proof.
  unfold discard_all. apply filter_ext_in. intros w Hw.
  rewrite (rejected_iff accepts l w Hw). now rewrite negb_involutive.
Qed.

Lemma broadcast_quiet str accepts during l :
  Forall (eq Quiet) during ->
  broadcast (Ok str) accepts during l
  = (filter accepts l, map (fun ws => (ws, str)) (filter accepts l)).
Proof.
  intro F. unfold broadcast. destruct l as [|w l]; [reflexivity|].
  rewrite (send_loop_quiet _ _ _ _ _ _ _ _ F), send_all_result.
  cbn [app]. now rewrite discard_rejected.
Qed.

(** X15. While no other task changes the set of connections, [broadcast]
    sends the message to the connections that accept it and removes from
    the set exactly those whose send raises; and a further broadcast to the
    connections that are left removes none of them, as long as they accept.
    When the message cannot be serialized nothing is sent and nobody is
    removed, whatever the other tasks do.  When other tasks change the size
    of the set during a send, and did not change the set before, the
    broadcast ends there: the connections met up to that send have got the
    message if they accept, the others get nothing, and nobody is removed:
    the set is as the other tasks left it. *)
Theorem broadcast_drops_exactly_the_failed accepts ws_clients :
  (forall str during,
     Forall (eq Quiet) during ->
     broadcast (Ok str) accepts during ws_clients
     = (filter accepts ws_clients,
        map (fun ws => (ws, str)) (filter accepts ws_clients))) /\
  (forall e during, broadcast (Raise e) accepts during ws_clients = (ws_clients, [])) /\
  (forall again during,
     Forall (eq Quiet) during ->
     fst (broadcast again accepts during (filter accepts ws_clients))
     = filter accepts ws_clients) /\
  (forall str k live rest more,
     (k < List.length ws_clients)%nat ->
     List.length live <> List.length ws_clients ->
     broadcast (Ok str) accepts (repeat Quiet k ++ Changed live rest :: more)
       ws_clients
     = (live,
        map (fun ws => (ws, str)) (filter accepts (firstn (S k) ws_clients)))).
Proof.
  split; [|split; [|split]].
  - intros str during F. now apply broadcast_quiet.
  - intros e during. unfold broadcast. now destruct ws_clients.
  - intros [str|e] during F.
    + rewrite broadcast_quiet by exact F. cbn [fst]. apply filter_filter_id.
    + unfold broadcast. now destruct (filter accepts ws_clients).
  - intros str k live rest more Hk Hn. unfold broadcast.
    destruct ws_clients as [|w l] eqn:E; [simpl in Hk; lia|].
    rewrite <- E in *. apply Nat.eqb_neq in Hn.
    now rewrite (send_loop_resized str accepts _ live rest more Hn k _ _ _ _ Hk).
Qed.

(** Three connections of which the second is gone.  Undisturbed, the
    broadcast reaches the first and the third and forgets the second; when
    a fourth connection arrives during the first send, only the first gets
    the message and the second stays in the set. *)
Lemma broadcast_drops_exactly_the_failed_witness :
  let accepts ws := negb (Nat.eqb ws 2) in
  broadcast (Ok "tick") accepts [Quiet; Quiet; Quiet] [1; 2; 3]%nat
  = ([1; 3]%nat, [(1%nat, "tick"); (3%nat, "tick")]) /\
  broadcast (Ok "tick") accepts [Changed [1; 2; 3; 4]%nat [2; 3; 4]%nat]
    [1; 2; 3]%nat
  = ([1; 2; 3; 4]%nat, [(1%nat, "tick")]).
Proof.
  intro accepts. split.
  - apply (proj1 (broadcast_drops_exactly_the_failed accepts [1; 2; 3]%nat)
             "tick" [Quiet; Quiet; Quiet]).
    repeat constructor.
  - apply (proj2 (proj2 (proj2
             (broadcast_drops_exactly_the_failed accepts [1; 2; 3]%nat)))
             "tick" 0%nat [1; 2; 3; 4]%nat [2; 3; 4]%nat []).
    + simpl. lia.
    + simpl. lia.
Defined.

End ServerFacts.

Module StoreInvariantFacts.
Import AccuracyStorage AccuracyStorageSpec AccuracyStorageFacts StoreInvariantSpec.

Lemma database_eq db db' :
  daily_anchors db' = daily_anchors db -> predictions db' = predictions db ->
  accuracy_metrics db' = accuracy_metrics db -> db' = db.
Proof. destruct db, db'; simpl; intros; subst; reflexivity. Qed.

(** *** Lists under INSERT OR REPLACE *)

Lemma existsb_replace {A} (k k' : A -> bool) (l : list A) (r : A) :
  (forall x, k x = true -> k' x = true -> k r = true) ->
  existsb k l = true ->
  existsb k (filter (fun x => negb (k' x)) l ++ [r]) = true.
Proof.
  intros H E. apply existsb_exists in E. destruct E as (x & Hx & Kx).
  apply existsb_exists. destruct (k' x) eqn:K'.
  - exists r. split; [apply in_or_app; right; now left | eauto].
  - exists x. split; auto. apply in_or_app. left. apply filter_In.
    split; auto. now rewrite K'.
Qed.

Lemma existsb_new {A} (k : A -> bool) (l : list A) (r : A) :
  k r = true -> existsb k (l ++ [r]) = true.
Proof. intro H. rewrite existsb_app. simpl. rewrite H. apply orb_true_iff. right. reflexivity. Qed.

Lemma map_filter_In {A B} (f : A -> B) (g : A -> bool) l y :
  In y (map f (filter g l)) -> In y (map f l).
Proof.
  intro H. apply in_map_iff in H. destruct H as (x & <- & Hx).
  apply filter_In in Hx. apply in_map. tauto.
Qed.

Lemma NoDup_map_filter {A B} (f : A -> B) (g : A -> bool) l :
  NoDup (map f l) -> NoDup (map f (filter g l)).
Proof.
  induction l as [|x l IH]; simpl; intro H; [constructor|].
  inversion H; subst. destruct (g x); simpl; auto.
  constructor; auto. intro Hin. apply map_filter_In in Hin. contradiction.
Qed.

Lemma ids_replace {A} (id : A -> nat) (g : A -> bool) l r n :
  Forall (fun x => (1 <= id x <= n)%nat) l -> NoDup (map id l) ->
  id r = S n ->
  Forall (fun x => (1 <= id x <= S n)%nat) (filter g l ++ [r]) /\
  NoDup (map id (filter g l ++ [r])).
Proof.
  intros F N E. split.
  - apply Forall_app. split.
    + apply Forall_forall. intros x Hx. apply filter_In in Hx.
      rewrite Forall_forall in F. specialize (F x (proj1 Hx)). lia.
    + constructor; [lia | constructor].
  - rewrite map_app. simpl. apply NoDup_app.
    + now apply NoDup_map_filter.
    + constructor; [intros [] | constructor].
    + intros a Ha [<- | []]. apply map_filter_In in Ha.
      apply in_map_iff in Ha. destruct Ha as (x & Ex & Hx).
      rewrite Forall_forall in F. specialize (F x Hx). lia.
Qed.

Lemma Forall_replace {A} (P : A -> Prop) (g : A -> bool) l r :
  Forall P l -> P r -> Forall P (filter g l ++ [r]).
Proof.
  intros F Hr. apply Forall_app. split.
  - apply Forall_forall. intros x Hx. apply filter_In in Hx.
    rewrite Forall_forall in F. apply F. tauto.
  - constructor; auto.
Qed.

Lemma a_key_text d x : a_key (SText d) x = true -> a_anchor_date x = SText d.
Proof. unfold a_key. apply sqlval_eqb_text. Qed.

Lemma a_key_refl d x : a_anchor_date x = SText d -> a_key (SText d) x = true.
Proof. unfold a_key. intros ->. simpl. apply String.eqb_refl. Qed.

Lemma p_key_refl d h x :
  p_anchor_date x = SText d -> p_horizon x = SText h ->
  p_key (SText d) (SText h) x = true.
Proof. unfold p_key. intros -> ->. simpl. now rewrite !String.eqb_refl. Qed.

Lemma m_key_refl d h x :
  m_anchor_date x = SText d -> m_horizon x = SText h ->
  m_key (SText d) (SText h) x = true.
Proof. unfold m_key. intros -> ->. simpl. now rewrite !String.eqb_refl. Qed.

(** *** The store under one statement *)

Lemma init_database_ok : store_ok init_database.
Proof.
  constructor; cbn; try constructor; try constructor; auto.
Qed.

Lemma replace_anchor_ok db a t d :
  store_ok db -> a_anchor_date a = SText d ->
  replace_anchor a (daily_anchors db) = Ok t ->
  store_ok (with_anchors t db) /\ has_anchor d (with_anchors t db) = true /\
  anchors_for d (with_anchors t db) = [a] /\
  (forall d', d' <> d -> anchors_for d' (with_anchors t db) = anchors_for d' db).
Proof.
  intros K Ha R. unfold replace_anchor in R.
  destruct (any_null _) eqn:N; [discriminate|]. inversion R; subst t; clear R.
  rewrite Ha.
  assert (KEY : forall d',
    anchors_for d' (with_anchors
      (filter (fun x => negb (a_key (SText d) x)) (daily_anchors db) ++ [a]) db) =
    if a_key (SText d') a then [a] else anchors_for d' db).
  { intro d'. unfold anchors_for. simpl. apply filter_replace.
    intros x Hx. apply a_key_text in Hx. unfold a_key. rewrite Hx, Ha.
    simpl. apply String.eqb_sym. }
  assert (MONO : forall d', has_anchor d' db = true ->
    has_anchor d' (with_anchors
      (filter (fun x => negb (a_key (SText d) x)) (daily_anchors db) ++ [a]) db) = true).
  { intros d' H. unfold has_anchor in *. simpl. apply existsb_replace; auto.
    intros x H1 H2. apply a_key_text in H1, H2. rewrite H1 in H2.
    inversion H2; subst. now apply a_key_refl. }
  split; [|split; [|split]].
  - destruct K as [K1 K2 K3 K4 K5 K6 K7 K8 K9 K10]. constructor; simpl; auto.
    + intro d'. rewrite KEY. destruct (a_key (SText d') a); simpl; auto.
    + apply Forall_replace; auto. simpl in N.
      destruct (anchor_timestamp a), (anchor_price a), (created_at a);
        try discriminate; repeat split; eauto; discriminate.
    + eapply Forall_impl; [|exact K3].
      intros r (d' & h & H1 & H2 & H3). exists d', h. auto.
  - unfold has_anchor. simpl. apply existsb_new. now apply a_key_refl.
  - rewrite KEY. now rewrite a_key_refl.
  - intros d' Hd. rewrite KEY. destruct (a_key (SText d') a) eqn:E; auto.
    apply a_key_text in E. rewrite Ha in E. inversion E. congruence.
Qed.

Lemma write_prediction_ok db d h op opct sp spct ap apct at_ t :
  store_ok db -> has_anchor d db = true ->
  bound_from_truthy op ->
  (ap = SNull /\ apct = SNull /\ at_ = SNull \/ exists s, at_ = SText s) ->
  replace_prediction (SText d) (SText h) op opct sp spct ap apct at_
    (predictions db) = Ok t ->
  store_ok (with_predictions t db).
Proof.
  intros K A Top Hat R.
  assert (KEY := fun d' h' => replace_prediction_rows d' h' _ _ _ _ _ _ _ _ _ _ _ R).
  simpl in KEY.
  unfold replace_prediction in R.
  destruct (any_null _) eqn:N; [discriminate|]. inversion R; subst t; clear R.
  destruct K as [K1 K2 K3 K4 K5 K6 K7 K8 K9 K10]. constructor; simpl; auto.
  - apply Forall_replace; auto. simpl. exists d, h. auto.
  - intros d' h'. unfold rows_for. simpl. simpl in KEY. rewrite KEY.
    destruct (p_key _ _ _); simpl; auto. apply K4.
  - apply Forall_replace; auto. unfold prediction_ok. simpl.
    split; [exact Top|]. simpl in N.
    split; [|split; [|exact Hat]]; destruct op, opct; simpl in N; congruence.
  - destruct K6 as [F ND]. apply ids_replace; auto.
  - eapply Forall_impl; [|exact K7].
    intros m (d' & h' & H1 & H2 & H3). exists d', h'. split; auto. split; auto.
    unfold has_prediction in *. simpl. apply existsb_replace; auto.
    intros x X1 X2. apply p_key_text in X1, X2. destruct X1 as [X1 X3].
    destruct X2 as [X2 X4]. rewrite X1 in X2. rewrite X3 in X4.
    inversion X2; inversion X4; subst. now apply p_key_refl.
Qed.

Lemma real_of_null e : real_of e = SNull -> is_nan e = true.
Proof. unfold real_of. destruct (is_nan e); [reflexivity|discriminate]. Qed.

Lemma write_metric_ok db d h e se sa at_ t :
  store_ok db -> has_prediction d h db = true ->
  not_negative e ->
  (se = SNull /\ sa = SNull \/
   exists e', not_negative e' /\ se = real_of e' /\ sa = real_of (100 - e')) ->
  replace_metric (SText d) (SText h) (real_of e) se
    (real_of (100 - e)) sa at_ (accuracy_metrics db) = Ok t ->
  store_ok (with_metrics t db).
Proof.
  intros K A G St R.
  assert (KEY := fun d' h' => replace_metric_rows d' h' _ _ _ _ _ _ _ _ _ R).
  cbv zeta in KEY.
  unfold replace_metric in R.
  destruct (any_null _) eqn:N; [discriminate|]. inversion R; subst t; clear R.
  cbn [any_null existsb sql_is_null orb] in N.
  assert (N1 : is_nan e = false).
  { destruct (is_nan e) eqn:E; [|reflexivity]. unfold real_of in N.
    rewrite E in N. discriminate. }
  assert (N2 : is_nan (100 - e) = false).
  { destruct (is_nan (100 - e)) eqn:E; [|reflexivity]. unfold real_of in N.
    rewrite N1, E in N. simpl in N. discriminate. }
  assert (N3 : at_ <> SNull).
  { intros ->. unfold real_of in N. rewrite N1, N2 in N. discriminate. }
  destruct K as [K1 K2 K3 K4 K5 K6 K7 K8 K9 K10]. constructor; simpl; auto.
  - apply Forall_replace; auto. simpl. exists d, h. auto.
  - intros d' h'. unfold metrics_for. simpl. rewrite KEY.
    destruct (m_key _ _ _); simpl; auto. apply K8.
  - destruct K9 as [F ND]. apply ids_replace; auto.
  - apply Forall_replace; auto. exists e. simpl.
    split; [exact N1|]. split; [exact N2|]. split; [exact G|].
    split; [reflexivity|]. split; [reflexivity|]. split; [exact N3|].
    exact St.
Qed.

Lemma point_write_ok ad db db' :
  point_write ad db db' ->
  store_ok db /\ has_anchor ad db = true ->
  store_ok db' /\ has_anchor ad db' = true.
Proof.
  intros [h op opct sp spct ap apct at_ t Top Hat R -> |
          h e se sa at_ t P G St R ->] [K A].
  - split; [eapply write_prediction_ok; eauto | exact A].
  - split; [eapply write_metric_ok; eauto | exact A].
Qed.

Lemma point_write_anchors ad db db' :
  point_write ad db db' -> daily_anchors db' = daily_anchors db.
Proof. intros [? ? ? ? ? ? ? ? ? _ _ _ -> | ? ? ? ? ? ? _ _ _ _ ->]; reflexivity. Qed.

Lemma point_writes_ok ad db db' :
  point_writes ad db db' ->
  store_ok db /\ has_anchor ad db = true ->
  store_ok db' /\ has_anchor ad db' = true.
Proof.
  induction 1 as [db db' S | db | db1 db2 db3 _ IH1 _ IH2]; auto.
  now apply point_write_ok.
Qed.

Lemma point_writes_anchors ad db db' :
  point_writes ad db db' -> daily_anchors db' = daily_anchors db.
Proof.
  induction 1 as [db db' S | db | db1 db2 db3 _ IH1 _ IH2]; auto.
  - eapply point_write_anchors; eauto.
  - congruence.
Qed.

(** *** The statements of a call, as writes *)

Lemma writes_of_refl ad w : writes_of ad w w.
Proof. apply rt_refl. Qed.

Lemma writes_of_trans ad w1 w2 w3 :
  writes_of ad w1 w2 -> writes_of ad w2 w3 -> writes_of ad w1 w3.
Proof. unfold writes_of, point_writes. intros. eapply rt_trans; eauto. Qed.

Lemma writes_of_same ad w w' : working w' = working w -> writes_of ad w w'.
Proof. unfold writes_of. intros ->. apply rt_refl. Qed.

Lemma same_anchors_refl w : same_anchors w w.
Proof. reflexivity. Qed.

Lemma same_anchors_trans w1 w2 w3 :
  same_anchors w1 w2 -> same_anchors w2 w3 -> same_anchors w1 w3.
Proof. unfold same_anchors. congruence. Qed.

Lemma read_clock_anchors now : respects same_anchors (read_clock now).
Proof.
  intros w r w' H. apply read_clock_run in H. unfold same_anchors.
  destruct H as [_ ->]. reflexivity.
Qed.

Lemma execute_insert_metric_anchors ps :
  respects same_anchors (execute_insert_metric ps).
Proof.
  intros w r w' H. apply execute_insert_metric_run in H.
  destruct H as [(e & _ & ->) | (_ & vs & t' & _ & _ & _ & _ & H)];
    [reflexivity | exact H].
Qed.

Lemma store_metric_anchors now ad h tp op sp :
  respects same_anchors (store_metric now ad h tp op sp).
Proof.
  unfold store_metric.
  repeat first
    [ exact same_anchors_refl
    | exact same_anchors_trans
    | apply respects_ret
    | apply respects_lift
    | apply read_clock_anchors
    | apply execute_insert_metric_anchors
    | apply respects_if
    | apply respects_bind
    | match goal with |- forall _, respects _ _ => intro end ].
Qed.

(** One turn of the loop is a sequence of writes about the anchor date. *)
Lemma write_point_writes now ad v w r w' :
  (truthy (v_original_price v) = true -> exists h, v_horizon v = VStr h) ->
  write_point now (VStr ad) v w = (r, w') -> writes_of ad w w'.
Proof.
  unfold write_point. destruct (truthy (v_original_price v)) eqn:T; intros Hh H.
  2:{ apply ret_run in H. destruct H as [_ ->]. apply writes_of_refl. }
  destruct (Hh eq_refl) as (h & Eh). clear Hh.
  apply bind_run in H. destruct H as [(t & w1 & H1 & H) | (e & H1 & _)].
  2:{ apply if_else_none_run in H1. destruct H1 as [H1 _].
      now apply writes_of_same. }
  apply if_else_none_run in H1. destruct H1 as [W1 (t0 & Et & Ht)].
  inversion Et; subst t0; clear Et.
  apply bind_run in H. destruct H as [(u & w2 & H2 & H) | (e & H2 & _)].
  2:{ apply execute_insert_prediction_run in H2.
      destruct H2 as [(e' & _ & ->) | (Habs & _)]; [|discriminate].
      now apply writes_of_same. }
  apply execute_insert_prediction_run in H2.
  destruct H2 as [(e' & Habs & _) | (_ & vs & t' & B & R & P2 & M2 & A2)];
    [discriminate|].
  invert_params B. unfold sql_nth in R. cbn [nth] in R.
  simpl in Hs. inversion Hs; subst x; clear Hs.
  rewrite Eh in Hs0. simpl in Hs0. inversion Hs0; subst x0; clear Hs0.
  change (store_as AText (SText ad)) with (SText ad) in R.
  change (store_as AText (SText h)) with (SText h) in R.
  rewrite W1 in R, M2, A2.
  assert (W2 : working w2 = with_predictions t' (working w)).
  { apply database_eq; simpl; auto. }
  assert (S1 : point_write ad (working w) (working w2)).
  { eapply write_prediction; [| |exact R|exact W2].
    - exists (v_original_price v). split; [exact T|now apply stored_ok].
    - destruct (truthy (v_is_actual v)).
      + destruct Ht as (k & ->). simpl in Hs7. inversion Hs7. simpl. eauto.
      + subst t. simpl in Hs5, Hs6, Hs7. inversion Hs5. inversion Hs6.
        inversion Hs7. auto. }
  eapply writes_of_trans; [apply rt_step; exact S1|].
  destruct (truthy (v_is_actual v)) eqn:Act.
  2:{ apply ret_run in H. destruct H as [_ ->]. apply writes_of_refl. }
  assert (Pm := store_metric_predictions _ _ _ _ _ _ _ _ _ H).
  assert (Am := store_metric_anchors _ _ _ _ _ _ _ _ _ H).
  unfold same_predictions in Pm. unfold same_anchors in Am.
  apply store_metric_run in H.
  destruct H as [[H _] | (tp & op & e & xh & se & sa & k & t2 &
                          Etp & G & Eop & Ee & Exh & Rm & M & St)].
  { apply writes_of_same. now apply database_eq. }
  rewrite Eh in Exh. simpl in Exh. inversion Exh; subst xh; clear Exh.
  change (store_as AText (SText h)) with (SText h) in Rm.
  apply rt_step. eapply write_metric; [| | | exact Rm |].
  - unfold has_prediction. rewrite W2. simpl.
    unfold replace_prediction in R. destruct (any_null _); [discriminate|].
    inversion R. simpl. apply existsb_new. now apply p_key_refl.
  - exact (error_pct_not_negative _ _ _ G Ee).
  - destruct (truthy (v_stabilized_price v)).
    + destruct St as (sp & e' & _ & Ee' & -> & ->). right. exists e'.
      split; [exact (error_pct_not_negative _ _ _ G Ee')|]. auto.
    + now left.
  - apply database_eq; simpl; auto.
Qed.

Lemma store_point_writes now ad preds pt :
  respects (writes_of ad) (store_point now (VStr ad) preds pt).
Proof.
  intros w r w' H. apply read_point_cases in H.
  destruct H as [-> | (v & R & H)]; [apply writes_of_refl|].
  eapply write_point_writes; [|exact H]. now apply read_point_horizon with preds pt.
Qed.

Lemma for_each_writes now ad preds pts :
  respects (writes_of ad) (for_each pts (store_point now (VStr ad) preds)).
Proof.
  apply respects_for_each.
  - apply writes_of_refl.
  - apply writes_of_trans.
  - intros. apply store_point_writes.
Qed.

(** The statements of a call that reaches its commit: the row of the
    anchor, then the writes of the loop. *)
Lemma store_writes_effect now s cd w w' :
  store_writes now (VStr (split_T s)) (VStr s) cd w = (Ok tt, w') ->
  ticks w = 0%nat ->
  exists a t,
    anchor_of now cd s a /\
    replace_anchor a (daily_anchors (working w)) = Ok t /\
    point_writes (split_T s) (with_anchors t (working w)) (working w').
Proof.
  unfold store_writes. intros H Tk.
  apply bind_run in H. destruct H as [(cp & w1 & H1 & H) | (e & _ & Habs)]; [|discriminate].
  apply lift_run in H1. destruct H1 as [E1 ->].
  apply bind_run in H. destruct H as [(rg & w1 & H1 & H) | (e & _ & Habs)]; [|discriminate].
  apply lift_run in H1. destruct H1 as [E2 ->].
  apply bind_run in H. destruct H as [(dir & w1 & H1 & H) | (e & _ & Habs)]; [|discriminate].
  apply lift_run in H1. destruct H1 as [E3 ->].
  apply bind_run in H. destruct H as [(cq & w1 & H1 & H) | (e & _ & Habs)]; [|discriminate].
  apply lift_run in H1. destruct H1 as [E4 ->].
  apply bind_run in H. destruct H as [(t & w1 & H1 & H) | (e & _ & Habs)]; [|discriminate].
  apply read_clock_run in H1. destruct H1 as [Et W1]. inversion Et; subst t; clear Et.
  apply bind_run in H. destruct H as [(u & w2 & H2 & H) | (e & _ & Habs)]; [|discriminate].
  apply bind_run in H. destruct H as [(pts & w3 & H3 & H) | (e & _ & Habs)]; [|discriminate].
  apply lift_run in H3. destruct H3 as [E5 ->].
  apply bind_run in H. destruct H as [(preds & w4 & H4 & H) | (e & _ & Habs)]; [|discriminate].
  apply lift_run in H4. destruct H4 as [E6 ->].
  apply for_each_writes in H. unfold writes_of in H.
  unfold execute_insert_anchor in H2.
  apply bind_run in H2. destruct H2 as [(vs & w5 & H5 & H2) | (e & _ & Habs)]; [|discriminate].
  apply lift_run in H5. destruct H5 as [B ->].
  unfold update_working in H2.
  destruct (replace_anchor _ _) as [t|] eqn:R; [|discriminate].
  inversion H2; subst w2; clear H2. simpl in H.
  symmetry in B. invert_params B. unfold sql_nth in R. cbn [nth] in R.
  simpl in Hs, Hs0. inversion Hs; subst x. inversion Hs0; subst x0.
  rewrite Tk in Hs5. simpl in Hs5. inversion Hs5; subst x5.
  change (store_as AText (SText (split_T s))) with (SText (split_T s)) in R.
  change (store_as AText (SText s)) with (SText s) in R.
  change (store_as AText (SText (now 0%nat))) with (SText (now 0%nat)) in R.
  rewrite W1 in R, H.
  eexists. exists t. split; [|split; [exact R | exact H]].
  unfold anchor_of. cbn [a_anchor_date anchor_timestamp anchor_price regime
                          direction curve_quality created_at].
  split; [reflexivity|]. split; [reflexivity|].
  split; [exists cp; split; [auto|now apply stored_ok]|].
  split; [exists rg; split; [auto|now apply stored_ok]|].
  split; [exists dir; split; [auto|now apply stored_ok]|].
  split; [exists cq; split; [auto|now apply stored_ok]|].
  reflexivity.
Qed.

Lemma replace_anchor_rows a l t d d' :
  a_anchor_date a = SText d -> replace_anchor a l = Ok t ->
  filter (a_key (SText d')) t =
  if String.eqb d d' then [a] else filter (a_key (SText d')) l.
Proof.
  intros Ha R. unfold replace_anchor in R.
  destruct (any_null _); [discriminate|]. inversion R; subst t; clear R.
  rewrite Ha. rewrite filter_replace.
  - unfold a_key. rewrite Ha. reflexivity.
  - intros x Hx. apply a_key_text in Hx. unfold a_key. rewrite Hx, Ha.
    simpl. apply String.eqb_sym.
Qed.

(** A call leaves the store as it is, or commits the row of its anchor
    and the writes of its loop. *)
Lemma store_v4_data_effect now cd db :
  fst (store_v4_data now cd db) = db \/
  exists s a t,
    py_get cd "anchor_timestamp" VNone = Ok (VStr s) /\
    anchor_date_of cd = Some (split_T s) /\
    anchor_of now cd s a /\
    replace_anchor a (daily_anchors db) = Ok t /\
    point_writes (split_T s) (with_anchors t db) (fst (store_v4_data now cd db)).
Proof.
  unfold store_v4_data, anchor_date_of.
  destruct (truthy cd); simpl; auto.
  destruct (py_get cd "anchor_timestamp" VNone) as [ts|e]; simpl; auto.
  destruct (truthy ts) eqn:T; simpl; auto.
  destruct ts; try (simpl; auto; fail).
  simpl in T. rewrite T. cbn [fst]. rewrite transaction_store_body.
  destruct (store_writes now (VStr (split_T s)) (VStr s) cd (connect db))
    as [[[]|e] w'] eqn:E; auto.
  right. apply store_writes_effect in E; [|reflexivity].
  destruct E as (a & t & E1 & E2 & E3). exists s, a, t. auto.
Qed.

Lemma store_v4_data_ok now cd db :
  store_ok db -> store_ok (fst (store_v4_data now cd db)).
Proof.
  intro K.
  destruct (store_v4_data_effect now cd db) as [-> | (s & a & t & _ & _ & A & R & W)];
    auto.
  destruct (replace_anchor_ok db a t (split_T s) K (proj1 A) R) as (K1 & A1 & _).
  apply (point_writes_ok _ _ _ W). auto.
Qed.

Lemma run_calls_ok calls : forall db, store_ok db -> store_ok (run_calls calls db).
Proof.
  induction calls as [|c calls IH]; intros db K; auto.
  rewrite run_calls_cons. apply IH. now apply store_v4_data_ok.
Qed.

Lemma reachable_ok calls : store_ok (run_calls calls init_database).
Proof. apply run_calls_ok, init_database_ok. Qed.

Lemma run_calls_app calls1 calls2 db :
  run_calls (calls1 ++ calls2) db = run_calls calls2 (run_calls calls1 db).
Proof. unfold run_calls. apply fold_left_app. Qed.

Lemma existsb_In_key {A} (k : A -> bool) l :
  existsb k l = true -> exists x, In x l /\ k x = true.
Proof. apply existsb_exists. Qed.

Lemma filter_nil {A} (k : A -> bool) l :
  (forall x, In x l -> k x = false) -> filter k l = [].
Proof.
  induction l as [|x l IH]; intro H; simpl; auto.
  rewrite (H x) by now left. apply IH. intros y Hy. apply H. now right.
Qed.

(** Keys that select at most one row each are pairwise distinct. *)
Lemma NoDup_keys {A B} (key : A -> B) (same : B -> A -> bool) (l : list A) :
  (forall x y, In x l -> (same (key x) y = true <-> key y = key x)) ->
  (forall b, (List.length (filter (same b) l) <= 1)%nat) ->
  NoDup (map key l).
Proof.
  induction l as [|x l IH]; intros S U; simpl; [constructor|].
  constructor.
  - intro Hin. apply in_map_iff in Hin. destruct Hin as (y & Ey & Hy).
    specialize (U (key x)). simpl in U.
    assert (Sx : same (key x) x = true) by (apply S; [now left | reflexivity]).
    rewrite Sx in U. simpl in U.
    assert (Hf : In y (filter (same (key x)) l)).
    { apply filter_In. split; auto. apply S; [now left | exact Ey]. }
    destruct (filter (same (key x)) l); [destruct Hf | simpl in U; lia].
  - apply IH.
    + intros a b Ha. apply S. now right.
    + intro b. specialize (U b). simpl in U.
      destruct (same b x); simpl in U; lia.
Qed.

(** *** What holds of every store that calls can reach *)

(** X16. The foreign keys that the tables declare hold, though nothing enforces
    them: whatever calls were made since the tables were created, every row
    of [predictions] and every row of [accuracy_metrics] has the row of its
    anchor date in [daily_anchors]; and every row of [accuracy_metrics] has
    the row of its prediction in [predictions]. *)
Theorem stored_rows_are_referenced calls :
  let db := run_calls calls init_database in
  (forall r, In r (rows (predictions db)) ->
     exists a, In a (daily_anchors db) /\ a_anchor_date a = p_anchor_date r) /\
  (forall m, In m (rows (accuracy_metrics db)) ->
     exists a, In a (daily_anchors db) /\ a_anchor_date a = m_anchor_date m) /\
  (forall m, In m (rows (accuracy_metrics db)) ->
     exists r, In r (rows (predictions db)) /\
               p_anchor_date r = m_anchor_date m /\ p_horizon r = m_horizon m).
Proof.
  intro db. destruct (reachable_ok calls) as [_ _ K3 _ _ _ K7 _ _ _].
  fold db in K3, K7. rewrite Forall_forall in K3, K7.
  assert (P1 : forall r, In r (rows (predictions db)) ->
     exists a, In a (daily_anchors db) /\ a_anchor_date a = p_anchor_date r).
  { intros r Hr. destruct (K3 r Hr) as (d & h & E1 & _ & A).
    apply existsb_exists in A. destruct A as (a & Ha & Ka).
    apply a_key_text in Ka. exists a. split; congruence. }
  assert (P2 : forall m, In m (rows (accuracy_metrics db)) ->
     exists r, In r (rows (predictions db)) /\
               p_anchor_date r = m_anchor_date m /\ p_horizon r = m_horizon m).
  { intros m Hm. destruct (K7 m Hm) as (d & h & E1 & E2 & P).
    apply existsb_exists in P. destruct P as (r & Hr & Kr).
    apply p_key_text in Kr. destruct Kr. exists r. repeat split; congruence. }
  split; [exact P1 | split; [|exact P2]].
  intros m Hm. destruct (P2 m Hm) as (r & Hr & E & _).
  destruct (P1 r Hr) as (a & Ha & Ea). exists a. split; congruence.
Qed.

(** X17. No two rows of [daily_anchors] have the same date, no two rows of
    [accuracy_metrics] the same date and horizon, and the ids of
    [predictions] and of [accuracy_metrics] are pairwise distinct, positive
    and at most the last id handed out. *)
Theorem stored_keys_and_ids_are_unique calls :
  let db := run_calls calls init_database in
  NoDup (map a_anchor_date (daily_anchors db)) /\
  NoDup (map (fun m => (m_anchor_date m, m_horizon m)) (rows (accuracy_metrics db))) /\
  NoDup (map p_id (rows (predictions db))) /\
  NoDup (map m_id (rows (accuracy_metrics db))) /\
  (forall r, In r (rows (predictions db)) ->
     (1 <= p_id r <= seq (predictions db))%nat) /\
  (forall m, In m (rows (accuracy_metrics db)) ->
     (1 <= m_id m <= seq (accuracy_metrics db))%nat).
Proof.
  intro db. destruct (reachable_ok calls) as [K1 K2 _ _ _ K6 K7 K8 K9 _].
  fold db in K1, K2, K6, K7, K8, K9.
  rewrite Forall_forall in K2, K7.
  split; [|split; [|split; [|split; [|split]]]].
  - apply (NoDup_keys a_anchor_date a_key).
    + intros x y Hx. destruct (K2 x Hx) as [(d & Ed) _]. rewrite Ed.
      unfold a_key. apply sqlval_eqb_text.
    + intro b. destruct b as [|z|f|d|t|f]; try apply K1;
        (rewrite filter_nil; [simpl; lia|]);
        intros x Hx; destruct (K2 x Hx) as [(d' & Ed) _];
        unfold a_key; rewrite Ed; reflexivity.
  - apply (NoDup_keys (fun m => (m_anchor_date m, m_horizon m))
             (fun b => m_key (fst b) (snd b))).
    + intros x y Hx. destruct (K7 x Hx) as (d & h & Ed & Eh & _).
      simpl. rewrite Ed, Eh. split; intro H.
      * apply m_key_text in H. destruct H. congruence.
      * injection H as H1 H2. now apply m_key_refl.
    + intros [bd bh]. simpl.
      destruct bd as [| | |d| |], bh as [| | |h| |]; try apply K8;
        (rewrite filter_nil; [simpl; lia|]);
        intros x Hx; destruct (K7 x Hx) as (d' & h' & Ed & Eh & _);
        unfold m_key; rewrite Ed, Eh; simpl; auto using andb_false_r.
  - apply K6.
  - apply K9.
  - apply Forall_forall, K6.
  - apply Forall_forall, K9.
Qed.

(** X18. Every row of [accuracy_metrics] holds an original error that is
    a double, a number and not below zero, and as original accuracy the
    double that [100 - error] gives, a number too, neither of them null,
    and a time of calculation; its stabilized error and accuracy are both
    null, or are what the columns hold of a double that is not below zero
    and of the double that 100 minus it gives. *)
Theorem metric_rows_are_well_formed calls :
  Forall (fun m => metric_ok m /\
                   original_error_pct m <> SNull /\
                   original_accuracy m <> SNull)
    (rows (accuracy_metrics (run_calls calls init_database))).
Proof.
  destruct (reachable_ok calls) as [_ _ _ _ _ _ _ _ _ K10].
  eapply Forall_impl; [|exact K10].
  intros m Hm. split; auto. destruct Hm as (e & N1 & N2 & _ & -> & -> & _).
  unfold real_of. rewrite N1, N2. split; discriminate.
Qed.

(** X19. Every row of [predictions] has an original price that is what
    the REAL column holds of a value that counts as true (neither [None]
    nor a zero nor empty): of a number the nearest double, of a text the
    number that it reads as, or the text; neither the original price nor
    the original percent is null; and a row that has no time of
    realization has no realized price and no realized percent. *)
Theorem prediction_rows_are_well_formed calls :
  Forall prediction_ok (rows (predictions (run_calls calls init_database))).
Proof. apply (reachable_ok calls). Qed.

(** X20. After a call, the store is what it was, or the date of the call's
    timestamp has exactly one row in [daily_anchors]: the one of this call,
    with the timestamp, the price, regime, direction and quality of the
    curve (or their defaults) and the first reading of the clock. *)
Theorem anchor_row_of_call now cd db :
  fst (store_v4_data now cd db) = db \/
  exists s a,
    py_get cd "anchor_timestamp" VNone = Ok (VStr s) /\
    anchors_for (split_T s) (fst (store_v4_data now cd db)) = [a] /\
    anchor_of now cd s a.
Proof.
  destruct (store_v4_data_effect now cd db) as [E | (s & a & t & E & _ & A & R & W)];
    [now left | right].
  exists s, a. split; auto. split; auto.
  unfold anchors_for. rewrite (point_writes_anchors _ _ _ W). simpl.
  rewrite (replace_anchor_rows a _ t (split_T s) (split_T s) (proj1 A) R).
  now rewrite String.eqb_refl.
Qed.

(** X21. A call changes no row of another anchor date than its own. *)
Theorem call_touches_one_date now cd db d :
  anchor_date_of cd <> Some d ->
  anchors_for d (fst (store_v4_data now cd db)) = anchors_for d db /\
  forall h,
    rows_for d h (fst (store_v4_data now cd db)) = rows_for d h db /\
    metrics_for d h (fst (store_v4_data now cd db)) = metrics_for d h db.
Proof.
  intro N. split.
  - destruct (store_v4_data_effect now cd db) as [-> | (s & a & t & _ & E & A & R & W)];
      auto.
    unfold anchors_for. rewrite (point_writes_anchors _ _ _ W). simpl.
    rewrite (replace_anchor_rows a _ t (split_T s) d (proj1 A) R).
    destruct (String.eqb (split_T s) d) eqn:Q; auto.
    apply String.eqb_eq in Q. congruence.
  - intro h. split.
    + destruct (store_v4_data_rows now cd db d h) as [E | [E _]]; auto.
      contradiction.
    + destruct (store_v4_data_metrics now cd db d h) as [E | [E _]]; auto.
      contradiction.
Qed.

Lemma call_touches_one_date_witness :
  let db := run_calls [(tick_clock "2025-06-02T13:05:0", two_point_curve)]
              init_database in
  let db' := fst (store_v4_data (tick_clock "2025-06-01T13:55:0")
                    scenario_pending db) in
  anchors_for "2025-06-02" db' = anchors_for "2025-06-02" db /\
  forall h,
    rows_for "2025-06-02" h db' = rows_for "2025-06-02" h db /\
    metrics_for "2025-06-02" h db' = metrics_for "2025-06-02" h db.
Proof.
  apply (call_touches_one_date (tick_clock "2025-06-01T13:55:0")
           scenario_pending _ "2025-06-02").
  vm_compute. discriminate.
Defined.

Lemma call_keeps_keys now cd db d h :
  store_ok db ->
  (List.length (anchors_for d db) <=
   List.length (anchors_for d (fst (store_v4_data now cd db))))%nat /\
  (List.length (rows_for d h db) <=
   List.length (rows_for d h (fst (store_v4_data now cd db))))%nat /\
  (List.length (metrics_for d h db) <=
   List.length (metrics_for d h (fst (store_v4_data now cd db))))%nat.
Proof.
  intro K. split; [|split].
  - destruct (store_v4_data_effect now cd db) as [-> | (s & a & t & _ & E & A & R & W)];
      auto.
    unfold anchors_for at 2. rewrite (point_writes_anchors _ _ _ W). simpl.
    rewrite (replace_anchor_rows a _ t (split_T s) d (proj1 A) R).
    destruct (String.eqb (split_T s) d); auto. apply K.
  - destruct (store_v4_data_rows now cd db d h)
      as [-> | (_ & _ & _ & _ & _ & row & _ & _ & _ & _ & _ & _ & -> & _)]; auto.
    apply K.
  - destruct (store_v4_data_metrics now cd db d h)
      as [-> | (_ & _ & _ & _ & _ & m & _ & _ & _ & _ & _ & _ & _ & -> & _)]; auto.
    apply K.
Qed.

(** X22. No call removes the row of an anchor date, of a prediction or of a
    metric: a date, or a date and horizon, that has a row after some calls
    has one after any further calls. *)
Theorem stored_keys_stay before after d h :
  let db := run_calls before init_database in
  let db' := run_calls (before ++ after) init_database in
  (List.length (anchors_for d db) <= List.length (anchors_for d db'))%nat /\
  (List.length (rows_for d h db) <= List.length (rows_for d h db'))%nat /\
  (List.length (metrics_for d h db) <= List.length (metrics_for d h db'))%nat.
Proof.
  intros db db'. unfold db'. rewrite run_calls_app. fold db.
  assert (K : store_ok db) by apply reachable_ok.
  clearbody db. clear db' before. revert db K.
  induction after as [|c after IH]; intros db K; [simpl; lia|].
  rewrite run_calls_cons.
  assert (K' := store_v4_data_ok (fst c) (snd c) db K).
  destruct (call_keeps_keys (fst c) (snd c) db d h K) as (A1 & A2 & A3).
  destruct (IH _ K') as (B1 & B2 & B3). lia.
Qed.

(** *** The anchor date *)

Lemma split_T_no_T s : no_T s = true -> split_T s = s.
Proof.
  induction s as [|c s IH]; simpl; auto.
  intro H. apply andb_true_iff in H. destruct H as [H1 H2].
  apply negb_true_iff in H1. rewrite H1. now rewrite IH.
Qed.

(** X23. The anchor date of a timestamp is its part before the first T: for a
    date [d] without a T, every timestamp [d]T... has the anchor date [d],
    and so has [d] itself. The anchor date never has a T. *)
Theorem split_T_date d rest :
  no_T d = true ->
  split_T (d ++ String "T" rest) = d /\ split_T d = d /\
  forall s, no_T (split_T s) = true.
Proof.
  intro H. split; [|split].
  - induction d as [|c d IH]; simpl in *; auto.
    apply andb_true_iff in H. destruct H as [H1 H2].
    apply negb_true_iff in H1. rewrite H1. now rewrite IH.
  - now apply split_T_no_T.
  - induction s as [|c s IH]; simpl; auto.
    destruct (Ascii.eqb c "T") eqn:E; simpl; auto. now rewrite E.
Qed.

Lemma split_T_date_witness :
  split_T ("2025-06-01" ++ String "T" "13:00:00Z") = "2025-06-01" /\
  split_T "2025-06-01" = "2025-06-01" /\
  forall s, no_T (split_T s) = true.
Proof. apply (split_T_date "2025-06-01" "13:00:00Z"). reflexivity. Defined.

(** *** The two forms of a curve *)

(** X24. A curve given by its [forward_curve] dict is stored as the same curve
    with the points given in a [curve] array. *)
Theorem curve_array_and_dict_agree now kv pts db :
  assoc "curve" kv = None ->
  points_of (VDict kv) = Ok pts ->
  store_v4_data now (VDict (("curve", VList pts) :: kv)) db =
  store_v4_data now (VDict kv) db.
Proof.
  intros Hc Hp.
  assert (Hp' : points_of (VDict (("curve", VList pts) :: kv)) = Ok pts).
  { unfold points_of in *. simpl in *. rewrite Hc in Hp. simpl in Hp.
    destruct pts; auto. }
  destruct kv as [|kv0 kvs] eqn:Ekv; [reflexivity|]. rewrite <- Ekv in *.
  unfold store_v4_data.
  replace (truthy (VDict kv)) with true by (subst kv; reflexivity).
  change (truthy (VDict (("curve", VList pts) :: kv))) with true.
  change (py_get (VDict (("curve", VList pts) :: kv)) "anchor_timestamp" VNone)
    with (py_get (VDict kv) "anchor_timestamp" VNone).
  destruct (py_get (VDict kv) "anchor_timestamp" VNone) as [ts|]; auto.
  destruct (negb (truthy ts)); auto. destruct ts; auto.
  f_equal. unfold transaction, store_body, bind, store_writes.
  unfold bind. rewrite Hp, Hp'. reflexivity.
Qed.

Lemma curve_array_and_dict_agree_witness :
  store_v4_data (tick_clock "2025-06-01T13:55:0")
    (VDict [("curve",
             VList [VDict [("horizon", VStr "+1H"); ("target_price", VInt 65180);
                           ("pct_change", VFloat 0.28); ("is_actual", VBool false)]]);
            ("anchor_timestamp", VStr "2025-06-01T13:00:00Z");
            ("forward_curve",
             VDict [("+1H", VDict [("price", VInt 65180); ("pct_change", VFloat 0.28)])]);
            ("original_predictions",
             VDict [("+1H", VDict [("original_price", VInt 65200);
                                   ("original_pct", VFloat 0.31)])])])
    init_database =
  store_v4_data (tick_clock "2025-06-01T13:55:0")
    (VDict [("anchor_timestamp", VStr "2025-06-01T13:00:00Z");
            ("forward_curve",
             VDict [("+1H", VDict [("price", VInt 65180); ("pct_change", VFloat 0.28)])]);
            ("original_predictions",
             VDict [("+1H", VDict [("original_price", VInt 65200);
                                   ("original_pct", VFloat 0.31)])])])
    init_database.
Proof.
  apply (curve_array_and_dict_agree (tick_clock "2025-06-01T13:55:0")); reflexivity.
Defined.

End StoreInvariantFacts.
